(** * PierreFS: whiteouts (wh.c) and the exported inode operations (opts.c)

    A shallow embedding of the union file system's whiteout manager (the
    part of src/fs/pierrefs/main.c headed wh.c) and of its create-family
    and setattr entry points (src/fs/pierrefs/opts.c).  The C functions
    are written as programs over the calls they make into the Linux VFS
    and into the helpers declared in pierrefs.h, none of which is part of
    the sources at hand; a handler gives those calls a meaning.  What
    depends only on the two files is proved for every handler.  One
    handler, [MemFS.kernel], is an in-memory model of the two branches
    with scripted failures; it states what is left on the branches.
    Module [Entry] holds the remaining entry points of opts.c (getattr,
    llseek, lookup, open, permission, statfs).  The mount-time code at the
    head of main.c ([make_path], [get_branches] and the super block
    set-up) works on raw buffers through pointer arithmetic and is not
    modelled. *)

From Stdlib Require Import ZArith String Ascii List Lia Bool.
From stdpp Require Import base option gmap strings.
Import ListNotations.

Local Open Scope Z_scope.

(** ** Linux constants (errno.h, limits.h, stat.h, fs.h, namei.h) *)

Definition EPERM : Z := 1.
Definition ENOENT : Z := 2.
Definition EIO : Z := 5.
Definition ENOMEM : Z := 12.
Definition EACCES : Z := 13.
Definition EEXIST : Z := 17.
Definition EINVAL : Z := 22.
Definition ENAMETOOLONG : Z := 36.

Definition PATH_MAX : Z := 4096.

Definition S_IFMT : Z := 61440.   (* 0170000 *)
Definition S_IFIFO : Z := 4096.   (* 0010000 *)
Definition S_IFDIR : Z := 16384.  (* 0040000 *)
Definition S_IFREG : Z := 32768.  (* 0100000 *)
Definition S_IFLNK : Z := 40960.  (* 0120000 *)
Definition S_IRUSR : Z := 256.    (* 00400 *)

Definition S_ISFIFO (m : Z) : bool := Z.land m S_IFMT =? S_IFIFO.

Definition ATTR_MODE : Z := 1.
Definition ATTR_UID : Z := 2.
Definition ATTR_GID : Z := 4.

Definition LOOKUP_REVAL : Z := 64.

(** ** C strings

    A NUL-terminated string is a [string]; a [char] buffer is the string
    it currently holds.  The C library never checks the capacity of the
    destination of [strcat] and [strncat]: the model keeps every character
    they append, so the length of the result tells whether the write
    stayed inside the buffer. *)

(** [strrchr s c]: the offset of the last occurrence of [c], [None] when
    the C function returns NULL. *)
Fixpoint strrchr (s : string) (c : ascii) : option nat :=
  match s with
  | EmptyString => None
  | String a s' =>
      match strrchr s' c with
      | Some i => Some (S i)
      | None => if Ascii.eqb a c then Some 0%nat else None
      end
  end.

(** [strprefix n s]: the first [n] characters of [s] (all of it when it is
    shorter). *)
Fixpoint strprefix (n : nat) (s : string) : string :=
  match n, s with
  | O, _ => EmptyString
  | S _, EmptyString => EmptyString
  | S n', String a s' => String a (strprefix n' s')
  end.

(** [strfrom n s]: the string starting [n] characters into [s] (pointer
    arithmetic [s + n]). *)
Fixpoint strfrom (n : nat) (s : string) : string :=
  match n, s with
  | O, _ => s
  | S _, EmptyString => EmptyString
  | S n', String _ s' => strfrom n' s'
  end.

(** [snprintf(buf, size, "%s", s)]: at most [size - 1] characters are
    stored; the value returned is the length [s] would have needed. *)
Definition snprintf_s (size : Z) (s : string) : string * Z :=
  (strprefix (Z.to_nat (size - 1)) s, Z.of_nat (String.length s)).

(** [strncat(dst, src, n)] appends at most [n] characters of [src]. *)
Definition strncat (dst src : string) (n : nat) : string :=
  dst +:+ strprefix n src.

Definition strcat (dst src : string) : string := dst +:+ src.

(** ** Kernel objects *)

(** An inode is referred to by its number. *)
Definition inode := nat.

Record dentry := Dentry {
  d_path : string;     (* full name of the object in its own file system *)
  d_inode : inode
}.

Record file := File { f_dentry : dentry }.

Record iattr := Iattr {
  ia_valid : Z;
  ia_mode : Z;
  ia_uid : Z;
  ia_gid : Z
}.

(** A pointer, or an errno carried in a pointer: [ERR_PTR e] stands for the
    C value [ERR_PTR(-e)], the only kind that [IS_ERR] recognises, and
    [PTR_ERR] gives [-e] back. *)
Inductive ptr (T : Type) : Type :=
| Ptr (t : T)
| ERR_PTR (e : positive).
Arguments Ptr {T} t.
Arguments ERR_PTR {T} e.

Definition IS_ERR {T} (p : ptr T) : bool :=
  match p with Ptr _ => false | ERR_PTR _ => true end.

Definition PTR_ERR (e : positive) : Z := Z.neg e.

(** wh.c hands [notify_change] an inode, opts.c hands it a dentry. *)
Inductive kobj : Type :=
| KInode (i : inode)
| KDentry (d : dentry).

(** The mount context reached through [get_context()]. *)
Record pierrefs_context := Mk_context {
  read_only_branch : string;
  read_write_branch : string
}.

(** The enumerators that pierrefs.h declares for the result and the flags
    of [find_file].  The header is not part of the sources at hand, so
    their values stay abstract. *)
Class pierrefs_h := {
  READ_ONLY : Z;
  READ_WRITE : Z;
  READ_WRITE_COPYUP : Z;
  MUST_READ_ONLY : Z
}.

(** ** Calls out of the two files

    The index is the type of what the call hands back.  An output buffer
    is returned next to the [int] result: it is the content of the buffer
    after the call. *)
Inductive call : Type -> Type :=
(* Linux VFS *)
| Notify_change (o : kobj) (attr : iattr) : call Z
| Filp_close (f : file) : call Z
| Vfs_unlink (dir : inode) (d : dentry) : call Z
| Vfs_lstat (p : string) : call Z
| Dget (d : dentry) : call unit
| Dput (d : dentry) : call unit
(* helpers declared in pierrefs.h *)
| Creat_worker (p : string) (mode : Z) : call (ptr file)
| Find_file (path : string) (flags : Z) : call (Z * string)
| Find_path (path : string) (want_real : bool) : call (Z * string)
| Can_remove (path rw_path : string) : call Z
| Can_create (path real_path : string) : call Z
| Get_path_dentry (p : string) (flag : Z) : call (ptr dentry)
| Get_relative_path (i : option inode) (d : dentry) (is_ours : Z)
    : call (Z * string)
| Get_relative_path_for_file (dir : inode) (d : dentry) (is_ours : Z)
    : call (Z * string)
| Symlink_worker (target linkpath : string) : call Z
| Link_worker (oldpath newpath : string) : call Z
| Mkdir_worker (p : string) (mode : Z) : call Z
| Mkfifo (p : string) (mode : Z) : call Z
| Mknod (p : string) (mode : Z) (rdev : Z) : call Z
| Set_me_worker (path real_path : string) (attr : iattr) : call Z
| Push_root : call unit
| Pop_root : call unit.

(** Programs: a result, or a call and what to do with its answer. *)
Inductive prog (R : Type) : Type :=
| Ret (r : R)
| Vis {X : Type} (c : call X) (k : X -> prog R).
Arguments Ret {R} r.
Arguments Vis {R X} c k.

Fixpoint bind {A B : Type} (p : prog A) (f : A -> prog B) : prog B :=
  match p with
  | Ret a => f a
  | Vis c k => Vis c (fun x => bind (k x) f)
  end.

Definition do {X : Type} (c : call X) : prog X := Vis c Ret.

Notation "'let*' x ':=' p 'in' q" := (bind p (fun x => q))
  (at level 10, x pattern, p at level 100, q at level 200, only parsing).

(** One call together with its answer.  Runs are compared through these
    records, so they carry no type index. *)
Inductive event : Type :=
| E_notify_change (o : kobj) (attr : iattr) (r : Z)
| E_filp_close (f : file) (r : Z)
| E_vfs_unlink (dir : inode) (d : dentry) (r : Z)
| E_vfs_lstat (p : string) (r : Z)
| E_dget (d : dentry)
| E_dput (d : dentry)
| E_creat_worker (p : string) (mode : Z) (r : ptr file)
| E_find_file (path : string) (flags : Z) (r : Z) (real_path : string)
| E_find_path (path : string) (want_real : bool) (r : Z) (real_path : string)
| E_can_remove (path rw_path : string) (r : Z)
| E_can_create (path real_path : string) (r : Z)
| E_get_path_dentry (p : string) (flag : Z) (r : ptr dentry)
| E_get_relative_path (i : option inode) (d : dentry) (is_ours : Z)
    (r : Z) (path : string)
| E_get_relative_path_for_file (dir : inode) (d : dentry) (is_ours : Z)
    (r : Z) (path : string)
| E_symlink_worker (target linkpath : string) (r : Z)
| E_link_worker (oldpath newpath : string) (r : Z)
| E_mkdir_worker (p : string) (mode : Z) (r : Z)
| E_mkfifo (p : string) (mode : Z) (r : Z)
| E_mknod (p : string) (mode : Z) (rdev : Z) (r : Z)
| E_set_me_worker (path real_path : string) (attr : iattr) (r : Z)
| E_push_root
| E_pop_root.

Definition Ev {X : Type} (c : call X) : X -> event :=
  match c in call X return X -> event with
  | Notify_change o a => fun r => E_notify_change o a r
  | Filp_close f => fun r => E_filp_close f r
  | Vfs_unlink i d => fun r => E_vfs_unlink i d r
  | Vfs_lstat p => fun r => E_vfs_lstat p r
  | Dget d => fun _ => E_dget d
  | Dput d => fun _ => E_dput d
  | Creat_worker p m => fun r => E_creat_worker p m r
  | Find_file p f => fun r => E_find_file p f (fst r) (snd r)
  | Find_path p b => fun r => E_find_path p b (fst r) (snd r)
  | Can_remove p q => fun r => E_can_remove p q r
  | Can_create p q => fun r => E_can_create p q r
  | Get_path_dentry p f => fun r => E_get_path_dentry p f r
  | Get_relative_path i d o =>
      fun r => E_get_relative_path i d o (fst r) (snd r)
  | Get_relative_path_for_file i d o =>
      fun r => E_get_relative_path_for_file i d o (fst r) (snd r)
  | Symlink_worker a b => fun r => E_symlink_worker a b r
  | Link_worker a b => fun r => E_link_worker a b r
  | Mkdir_worker p m => fun r => E_mkdir_worker p m r
  | Mkfifo p m => fun r => E_mkfifo p m r
  | Mknod p m d => fun r => E_mknod p m d r
  | Set_me_worker p q a => fun r => E_set_me_worker p q a r
  | Push_root => fun _ => E_push_root
  | Pop_root => fun _ => E_pop_root
  end.

(** A handler answers every call, threading its own state; [run] executes
    a program under a handler and records the calls made. *)
Definition handler (S : Type) : Type := forall X : Type, call X -> S -> X * S.

Fixpoint run {S R : Type} (h : handler S) (p : prog R) (s : S)
  : list event * R * S :=
  match p with
  | Ret r => ([], r, s)
  | Vis c k =>
      let '(x, s1) := h _ c s in
      let '(tr, r, s2) := run h (k x) s1 in
      (Ev c x :: tr, r, s2)
  end.

(** ** Reading a run *)

Definition trace_of {S R} (h : handler S) (p : prog R) (s : S) : list event :=
  fst (fst (run h p s)).
Definition result_of {S R} (h : handler S) (p : prog R) (s : S) : R :=
  snd (fst (run h p s)).
Definition state_of {S R} (h : handler S) (p : prog R) (s : S) : S :=
  snd (run h p s).

(** ** The two source files *)

Section Sources.
Context `{pierrefs_h}.
Variable ctx : pierrefs_context.

(** Modelled from the spec: the macro [make_rw_path] of pierrefs.h, which is
    not part of the sources at hand.  Section 4.1 (compose): it
    concatenates the read-write branch root and the virtual path into the
    destination of [PATH_MAX] bytes; the callers compare what it returns
    with [PATH_MAX], so it returns the length of the concatenation, as
    [snprintf] does. *)
Definition make_rw_path (virt : string) : string * Z :=
  snprintf_s PATH_MAX (read_write_branch ctx +:+ virt).

(** *** wh.c *)

Definition create_whiteout_worker (wh_path : string) : prog Z :=
  (* Create file *)
  let* fd := do (Creat_worker wh_path S_IRUSR) in
  match fd with
  | ERR_PTR e => Ret (PTR_ERR e)
  | Ptr fd =>
      (* Set owner to root; ia_mode is left unset by the source and is
         not selected by ia_valid *)
      let attr := {| ia_valid := Z.lor ATTR_UID ATTR_GID;
                     ia_mode := 0; ia_uid := 0; ia_gid := 0 |} in
      let* err := do (Notify_change (KInode (d_inode (f_dentry fd))) attr) in
      if err =? 0 then Ret err else
      (* Save dentry *)
      let dentry := f_dentry fd in
      let* _ := do (Dget dentry) in
      (* Close file and delete it *)
      let* _ := do (Filp_close fd) in
      let* _ := do (Vfs_unlink (d_inode (f_dentry fd)) (f_dentry fd)) in
      let* _ := do (Dput dentry) in
      Ret err
  end.

(** [wh_path] is the caller's buffer: the second component of the result
    is what it holds when the function returns. *)
Definition create_whiteout (path wh_path : string) : prog (Z * string) :=
  (* Find name *)
  match strrchr path "/" with
  | None => Ret (- EINVAL, wh_path)
  | Some tree_path =>
      let '(wh_path, n) := snprintf_s PATH_MAX (read_write_branch ctx) in
      if n >? PATH_MAX then Ret (- ENAMETOOLONG, wh_path) else
      (* Copy path (and /) *)
      let wh_path := strncat wh_path path (tree_path + 1) in
      (* Append wh *)
      let wh_path := strcat wh_path ".wh." in
      (* Finally copy name *)
      let wh_path := strcat wh_path (strfrom (tree_path + 1) path) in
      (* Ensure path exists *)
      let* (err, _) := do (Find_path path false) in
      if err <? 0 then Ret (err, wh_path) else
      (* Call worker *)
      let* r := create_whiteout_worker wh_path in
      Ret (r, wh_path)
  end.

Definition find_whiteout (path wh_path : string) : prog (Z * string) :=
  (* Find name *)
  match strrchr path "/" with
  | None => Ret (- EINVAL, wh_path)
  | Some tree_path =>
      let '(wh_path, n) := snprintf_s PATH_MAX (read_write_branch ctx) in
      if n >? PATH_MAX then Ret (- ENAMETOOLONG, wh_path) else
      let wh_path := strncat wh_path path (tree_path + 1) in
      let wh_path := strcat wh_path ".wh." in
      let wh_path := strcat wh_path (strfrom (tree_path + 1) path) in
      (* Does it exist *)
      let* r := do (Vfs_lstat wh_path) in
      Ret (r, wh_path)
  end.

Definition hide_directory_contents (path : string) : prog Z :=
  Ret (- EINVAL).

Definition is_empty_dir (path ro_path rw_path : string) : prog Z :=
  Ret (- EINVAL).

(** [has_ro_sure] is a C [char] used as a truth value.  The two local
    buffers [ro_path] and [wh_path] are never read by this function. *)
Definition unlink_rw_file (path rw_path : string) (has_ro_sure : Z)
  : prog Z :=
  (* Check if RO exists *)
  let* has_ro :=
    (if has_ro_sure =? 0 then
       let* (r, _) := do (Find_file path MUST_READ_ONLY) in
       Ret (r >=? 0)
     else Ret true) in
  (* Check if user can unlink file *)
  let* err := do (Can_remove path rw_path) in
  if err <? 0 then Ret err else
  (* Get file dentry *)
  let* dentry := do (Get_path_dentry rw_path LOOKUP_REVAL) in
  match dentry with
  | ERR_PTR e => Ret (PTR_ERR e)
  | Ptr dentry =>
      (* Remove file *)
      let* err := do (Vfs_unlink (d_inode dentry) dentry) in
      let* _ := do (Dput dentry) in
      if err <? 0 then Ret err else
      (* Whiteout potential RO file *)
      let* _ := (if has_ro then create_whiteout path EmptyString
                 else Ret (0, EmptyString)) in
      Ret 0
  end.

Definition unlink_whiteout (path : string) : prog Z :=
  (* Find name *)
  match strrchr path "/" with
  | None => Ret (- EINVAL)
  | Some tree_path =>
      let '(wh_path, n) := snprintf_s PATH_MAX (read_write_branch ctx) in
      if n >? PATH_MAX then Ret (- ENAMETOOLONG) else
      let wh_path := strncat wh_path path (tree_path + 1) in
      let wh_path := strcat wh_path ".wh." in
      let wh_path := strcat wh_path (strfrom (tree_path + 1) path) in
      (* Get file dentry *)
      let* dentry := do (Get_path_dentry wh_path LOOKUP_REVAL) in
      match dentry with
      | ERR_PTR e => Ret (PTR_ERR e)
      | Ptr dentry =>
          (* Now unlink whiteout *)
          let* err := do (Vfs_unlink (d_inode dentry) dentry) in
          let* _ := do (Dput dentry) in
          Ret err
      end
  end.

(** *** opts.c

    [path], [real_path], [from] and [to] are the buffers of the source; a
    call that fills one returns its new content.  A block that can leave
    the function early yields [Some] of the value returned. *)

Definition pierrefs_link (old_dentry : dentry) (dir : inode) (dentry : dentry)
  : prog Z :=
  (* First, find file *)
  let* (err, from) := do (Get_relative_path None old_dentry 1) in
  if err <? 0 then Ret err else
  let* (origin, real_from) := do (Find_file from 0) in
  if origin <? 0 then Ret origin else
  (* Find destination *)
  let* (err, to) := do (Get_relative_path_for_file dir dentry 1) in
  if err <? 0 then Ret err else
  (* And ensure it doesn't exist *)
  let* (err, real_to) := do (Find_file to 0) in
  if err >=? 0 then Ret (- EEXIST) else
  (* Check access *)
  let* err := do (Can_create to real_to) in
  if err <? 0 then Ret err else
  (* Create path if needed *)
  let* (err, real_to) := do (Find_path to true) in
  if err <? 0 then Ret err else
  let* early :=
    (if origin =? READ_ONLY then
       (* Here, fallback to a symlink *)
       let* err := do (Symlink_worker real_from real_to) in
       if err <? 0 then Ret (Some err) else Ret None
     else
       (* Get RW name *)
       let '(real_to, n) := make_rw_path to in
       if n >? PATH_MAX then Ret (Some (- ENAMETOOLONG)) else
       let* err := do (Link_worker real_from real_to) in
       if err <? 0 then Ret (Some err) else Ret None) in
  match early with
  | Some e => Ret e
  | None =>
      (* Remove possible whiteout *)
      let* _ := unlink_whiteout to in
      Ret 0
  end.

Definition pierrefs_mkdir (dir : inode) (dentry : dentry) (mode : Z)
  : prog Z :=
  (* Try to find the directory first *)
  let* (err, path) := do (Get_relative_path_for_file dir dentry 1) in
  if err <? 0 then Ret err else
  (* And ensure it doesn't exist *)
  let* (err, real_path) := do (Find_file path 0) in
  if err >=? 0 then Ret (- EEXIST) else
  (* Get full path for destination *)
  let '(real_path, n) := make_rw_path path in
  if n >? PATH_MAX then Ret (- ENAMETOOLONG) else
  (* Check access *)
  let* err := do (Can_create path real_path) in
  if err <? 0 then Ret err else
  (* Now, create/reuse arborescence *)
  let* (err, real_path) := do (Find_path path true) in
  if err <? 0 then Ret err else
  (* Ensure we have good mode *)
  let mode := Z.lor mode S_IFDIR in
  (* Just create dir now *)
  let* err := do (Mkdir_worker real_path mode) in
  if err <? 0 then Ret err else
  (* Hide contents *)
  let* err := hide_directory_contents path in
  if err <? 0 then
    let* d := do (Get_path_dentry real_path LOOKUP_REVAL) in
    match d with
    | ERR_PTR _ => Ret err
    | Ptr d =>
        let* _ := do Push_root in
        let* _ := do (Vfs_unlink (d_inode d) d) in
        let* _ := do Pop_root in
        let* _ := do (Dput d) in
        Ret err
    end
  else
  (* Remove possible .wh. *)
  let* _ := unlink_whiteout path in
  Ret 0.

Definition pierrefs_mknod (dir : inode) (dentry : dentry) (mode : Z)
  (rdev : Z) : prog Z :=
  (* Try to find the node first *)
  let* (err, path) := do (Get_relative_path_for_file dir dentry 1) in
  if err <? 0 then Ret err else
  (* And ensure it doesn't exist *)
  let* (err, real_path) := do (Find_file path 0) in
  if err >=? 0 then Ret (- EEXIST) else
  (* Now, create/reuse arborescence *)
  let* (err, real_path) := do (Find_path path true) in
  if err <? 0 then Ret err else
  (* Just create file now *)
  let* err :=
    (if S_ISFIFO mode then do (Mkfifo real_path mode)
     else do (Mknod real_path mode rdev)) in
  if err <? 0 then Ret err else
  (* Remove possible whiteout *)
  let* _ := unlink_whiteout path in
  Ret 0.

Definition pierrefs_setattr (dentry : dentry) (attr : iattr) : prog Z :=
  (* Get path *)
  let* (err, path) := do (Get_relative_path None dentry 1) in
  if negb (err =? 0) then Ret err else
  (* Get file *)
  let* (err, real_path) := do (Find_file path 0) in
  if err <? 0 then Ret err else
  if (err =? READ_WRITE) || (err =? READ_WRITE_COPYUP) then
    (* Just update file attributes *)
    do (Notify_change (KDentry dentry) attr)
  else
  (* Update me: only call the worker *)
  do (Set_me_worker path real_path attr).

Definition pierrefs_symlink (dir : inode) (dentry : dentry)
  (symname : string) : prog Z :=
  (* Find destination *)
  let* (err, to) := do (Get_relative_path_for_file dir dentry 1) in
  if err <? 0 then Ret err else
  (* And ensure it doesn't exist *)
  let* (err, real_to) := do (Find_file to 0) in
  if err >=? 0 then Ret (- EEXIST) else
  (* Get full path for destination *)
  let '(real_to, n) := make_rw_path to in
  if n >? PATH_MAX then Ret (- ENAMETOOLONG) else
  (* Check access *)
  let* err := do (Can_create to real_to) in
  if err <? 0 then Ret err else
  (* Create path if needed *)
  let* (err, real_to) := do (Find_path to true) in
  if err <? 0 then Ret err else
  (* Now it's sure the link does not exist, create it *)
  let* err := do (Symlink_worker symname real_to) in
  if err <? 0 then Ret err else
  (* Remove possible whiteout *)
  let* _ := unlink_whiteout to in
  Ret 0.

End Sources.

(** ** An in-memory model of the two branches

    The lower file systems are one name space from concrete paths to inode
    numbers (so that two names can share an inode) and a table of inodes.
    Every call that returns an [int] or a pointer first consults a script
    of failures: a negative entry makes the call fail with that errno, any
    other entry (or an exhausted script) lets it go through.  The Linux
    calls do what the VFS does on such a name space; the helpers declared
    in pierrefs.h, whose code is not part of the sources at hand, follow
    the specification. *)

Module MemFS.

Record node := Node {
  n_mode : Z;
  n_uid : Z;
  n_gid : Z;
  n_target : string           (* text of a symbolic link *)
}.

Record world := World {
  names : gmap string inode;
  inodes : gmap inode node;
  next_ino : inode;
  faults : list Z;
  fsuid : Z;
  fsgid : Z;
  saved_ids : list (Z * Z)    (* identities stacked by push_root *)
}.

Definition set_names (m : gmap string inode) (w : world) : world :=
  World m (inodes w) (next_ino w) (faults w) (fsuid w) (fsgid w) (saved_ids w).
Definition set_inodes (m : gmap inode node) (w : world) : world :=
  World (names w) m (next_ino w) (faults w) (fsuid w) (fsgid w) (saved_ids w).
Definition set_faults (l : list Z) (w : world) : world :=
  World (names w) (inodes w) (next_ino w) l (fsuid w) (fsgid w) (saved_ids w).

Definition pop_fault (w : world) : option Z * world :=
  match faults w with
  | [] => (None, w)
  | e :: rest => (if e <? 0 then Some e else None, set_faults rest w)
  end.

Definition with_fault {X : Type} (on_err : Z -> X)
  (k : world -> X * world) (w : world) : X * world :=
  match pop_fault w with
  | (Some e, w') => (on_err e, w')
  | (None, w') => k w'
  end.

Definition present (p : string) (w : world) : bool :=
  match names w !! p with Some _ => true | None => false end.

Definition node_at (p : string) (w : world) : option node :=
  i ← names w !! p; inodes w !! i.

Definition create_node (p : string) (n : node) (w : world)
  : inode * world :=
  let i := next_ino w in
  (i, World (<[p := i]> (names w)) (<[i := n]> (inodes w)) (S i)
        (faults w) (fsuid w) (fsgid w) (saved_ids w)).

(** What [notify_change] does to an inode: the fields selected by
    [ia_valid]. *)
Definition apply_attr (a : iattr) (n : node) : node :=
  Node (if Z.land (ia_valid a) ATTR_MODE =? 0 then n_mode n else ia_mode a)
       (if Z.land (ia_valid a) ATTR_UID =? 0 then n_uid n else ia_uid a)
       (if Z.land (ia_valid a) ATTR_GID =? 0 then n_gid n else ia_gid a)
       (n_target n).

Definition kobj_inode (o : kobj) : inode :=
  match o with KInode i => i | KDentry d => d_inode d end.

(** Linux [notify_change]: the selected attributes of an inode change. *)
Definition notify_change_m (o : kobj) (a : iattr) (w : world) : Z * world :=
  match inodes w !! kobj_inode o with
  | Some n => (0, set_inodes (<[kobj_inode o := apply_attr a n]> (inodes w)) w)
  | None => (- ENOENT, w)
  end.

(** Linux [vfs_unlink]: the name of the dentry goes away.  The first
    argument is carried as the sources pass it and plays no part. *)
Definition vfs_unlink_m (d : dentry) (w : world) : Z * world :=
  match names w !! d_path d with
  | Some _ => (0, set_names (delete (d_path d) (names w)) w)
  | None => (- ENOENT, w)
  end.

(** [get_path_dentry]: the path lookup behind the [IS_ERR] test of its
    callers.  The specification does not describe it; a name that does
    not exist is answered with ERR_PTR(-ENOENT), as a Linux lookup
    does. *)
Definition lookup_m (p : string) (w : world) : ptr dentry :=
  match names w !! p with
  | Some i => Ptr (Dentry p i)
  | None => ERR_PTR (Z.to_pos ENOENT)
  end.

(** Modelled from the spec: [creat_worker], declared in pierrefs.h.
    Section 4.2 (create): an object of length zero is created with the
    permissions asked for; before its owner is changed it belongs to the
    calling identity.  A name that exists is opened as it is. *)
Definition creat_m (p : string) (mode : Z) (w : world) : ptr file * world :=
  match names w !! p with
  | Some i => (Ptr (File (Dentry p i)), w)
  | None =>
      let '(i, w') :=
        create_node p (Node (Z.lor S_IFREG mode) (fsuid w) (fsgid w) "") w in
      (Ptr (File (Dentry p i)), w')
  end.

(** Modelled from the spec: [symlink_worker], [mkdir_worker], [mkfifo] and
    [mknod], declared in pierrefs.h: the creation, on the concrete name
    they are given, of an object that must not exist yet. *)
Definition mknew_m (p : string) (mode : Z) (target : string) (w : world)
  : Z * world :=
  if present p w then (- EEXIST, w)
  else (0, snd (create_node p (Node mode (fsuid w) (fsgid w) target) w)).

(** Modelled from the spec: [link_worker], declared in pierrefs.h: a
    second name for the inode of [oldpath]. *)
Definition link_m (oldpath newpath : string) (w : world) : Z * world :=
  match names w !! oldpath with
  | None => (- ENOENT, w)
  | Some i =>
      if present newpath w then (- EEXIST, w)
      else (0, set_names (<[newpath := i]> (names w)) w)
  end.

Section Helpers.
Context `{pierrefs_h}.
Variable ctx : pierrefs_context.

(** The reserved name next to [path] on the read-write branch. *)
Definition marker_name (tag path : string) : option string :=
  match strrchr path "/" with
  | None => None
  | Some i =>
      Some (read_write_branch ctx +:+ strprefix (i + 1) path
            +:+ tag +:+ strfrom (i + 1) path)
  end.

(** Modelled from the spec: [find_file], declared in pierrefs.h.
    Section 4.4 (resolve): whiteout first, then the read-write branch
    (copied up when a read-only original exists), then the read-only
    one.  With [MUST_READ_ONLY] only the read-only branch is probed. *)
Definition find_file_m (path : string) (flags : Z) (w : world)
  : Z * string :=
  let ro := read_only_branch ctx +:+ path in
  let rw := read_write_branch ctx +:+ path in
  match marker_name ".wh." path with
  | None => (- EINVAL, "")
  | Some wh =>
      if present wh w then (- ENOENT, "")
      else if Z.land flags MUST_READ_ONLY =? 0 then
        if present rw w then
          (if present ro w then READ_WRITE_COPYUP else READ_WRITE, rw)
        else if present ro w then (READ_ONLY, ro)
        else (- ENOENT, ro)
      else if present ro w then (READ_ONLY, ro)
      else (- ENOENT, ro)
  end.

(** The directories above [path]: for "/a/b/c", "/a" and "/a/b". *)
Fixpoint ancestors_from (seen rest : string) : list string :=
  match rest with
  | EmptyString => []
  | String a rest' =>
      (if Ascii.eqb a "/"
       then match seen with EmptyString => [] | _ => [seen] end
       else [])
      ++ ancestors_from (seen +:+ String a EmptyString) rest'
  end.

Definition ensure_dir (w : world) (anc : string) : world :=
  let rw := read_write_branch ctx +:+ anc in
  if present rw w then w
  else
    let n := match node_at (read_only_branch ctx +:+ anc) w with
             | Some n => n
             | None => Node (Z.lor S_IFDIR 493) (fsuid w) (fsgid w) ""
             end in
    snd (create_node rw n w).

(** Modelled from the spec: [find_path], declared in pierrefs.h.
    Section 4.5 (ensureAncestry): every missing ancestor is created on the
    read-write branch, after its read-only counterpart when there is one;
    the buffer receives the read-write name of [path]. *)
Definition find_path_m (path : string) (w : world) : (Z * string) * world :=
  match strrchr path "/" with
  | None => ((- EINVAL, ""), w)
  | Some _ =>
      let '(real, n) := snprintf_s PATH_MAX (read_write_branch ctx +:+ path) in
      if n >? PATH_MAX then ((- ENAMETOOLONG, real), w)
      else ((0, real), foldl ensure_dir w (ancestors_from "" path))
  end.

(** Modelled from the spec: [set_me_worker], declared in pierrefs.h.
    Section 4.3 (set): the [.me.] record is created after the object it
    overrides, or updated, with the requested attributes; the object
    itself is not touched. *)
Definition set_me_worker_m (path real_path : string) (a : iattr) (w : world)
  : Z * world :=
  match marker_name ".me." path with
  | None => (- EINVAL, w)
  | Some me =>
      match names w !! me with
      | Some i => notify_change_m (KInode i) a w
      | None =>
          let base := match node_at real_path w with
                      | Some n => n
                      | None => Node S_IFREG (fsuid w) (fsgid w) ""
                      end in
          (0, snd (create_node me (apply_attr a base) w))
      end
  end.

(** Modelled from the spec: [push_root] and [pop_root], declared in
    pierrefs.h: the fixed system identity of section 3 is taken and given
    back. *)
Definition push_root_m (w : world) : world :=
  World (names w) (inodes w) (next_ino w) (faults w) 0 0
        ((fsuid w, fsgid w) :: saved_ids w).

Definition pop_root_m (w : world) : world :=
  match saved_ids w with
  | [] => w
  | (u, g) :: rest =>
      World (names w) (inodes w) (next_ino w) (faults w) u g rest
  end.

(** The handler.  [can_create], [can_remove] (section 4.6) and the two
    [get_relative_path] functions are kept to their simplest: the checks
    pass unless the script fails them, and the virtual path of a dentry is
    the name it carries. *)
Definition fail2 (e : Z) : Z * string := (e, EmptyString).
Definition failp {T : Type} (e : Z) : ptr T := ERR_PTR (Z.to_pos (- e)).

Definition kernel : handler world := fun X c =>
  match c in call X return world -> X * world with
  | Notify_change o a => with_fault id (notify_change_m o a)
  | Filp_close _ => with_fault id (fun w => (0, w))
  | Vfs_unlink _ d => with_fault id (vfs_unlink_m d)
  | Vfs_lstat p =>
      with_fault id (fun w => (if present p w then 0 else - ENOENT, w))
  | Dget _ => fun w => (tt, w)
  | Dput _ => fun w => (tt, w)
  | Creat_worker p m => with_fault failp (creat_m p m)
  | Find_file p f => with_fault fail2 (fun w => (find_file_m p f w, w))
  | Find_path p _ => with_fault fail2 (find_path_m p)
  | Can_remove _ _ => with_fault id (fun w => (0, w))
  | Can_create _ _ => with_fault id (fun w => (0, w))
  | Get_path_dentry p _ => with_fault failp (fun w => (lookup_m p w, w))
  | Get_relative_path _ d _ => with_fault fail2 (fun w => ((0, d_path d), w))
  | Get_relative_path_for_file _ d _ =>
      with_fault fail2 (fun w => ((0, d_path d), w))
  | Symlink_worker t l => with_fault id (mknew_m l (Z.lor S_IFLNK 511) t)
  | Link_worker a b => with_fault id (link_m a b)
  | Mkdir_worker p m => with_fault id (mknew_m p m "")
  | Mkfifo p m => with_fault id (mknew_m p m "")
  | Mknod p m _ => with_fault id (mknew_m p m "")
  | Set_me_worker p q a => with_fault id (set_me_worker_m p q a)
  | Push_root => fun w => (tt, push_root_m w)
  | Pop_root => fun w => (tt, pop_root_m w)
  end.

End Helpers.

(** The values used in the examples: the enumerators in the order of
    section 3, a flag bit, and the mount of section 8. *)
#[export] Instance example_h : pierrefs_h :=
  {| READ_ONLY := 0; READ_WRITE := 1; READ_WRITE_COPYUP := 2;
     MUST_READ_ONLY := 2 |}.

Definition example_ctx : pierrefs_context :=
  {| read_only_branch := "/ro"; read_write_branch := "/rw" |}.

Definition mk_world (files : list (string * node)) (script : list Z)
  (uid gid : Z) : world :=
  foldl (fun w '(p, n) => snd (create_node p n w))
        (World ∅ ∅ 1%nat script uid gid []) files.

Definition file_node (uid gid : Z) : node :=
  Node (Z.lor S_IFREG 420) uid gid "".

End MemFS.


(** The calls that create an object for the create family. *)
Definition is_creation (e : event) : bool :=
  match e with
  | E_symlink_worker _ _ _ | E_link_worker _ _ _ | E_mkdir_worker _ _ _
  | E_mkfifo _ _ _ | E_mknod _ _ _ _ => true
  | _ => false
  end.

(** The calls of [unlink_whiteout]: it looks a dentry up, unlinks it and
    releases it. *)
Definition is_unlink_step (e : event) : bool :=
  match e with
  | E_get_path_dentry _ _ _ | E_vfs_unlink _ _ _ | E_dput _ => true
  | _ => false
  end.

(** The calls of [create_whiteout]: the ancestry, the creation of the
    marker, its change of owner and what undoes it. *)
Definition is_whiteout_step (e : event) : bool :=
  match e with
  | E_find_path _ _ _ _ | E_creat_worker _ _ _ | E_notify_change _ _ _
  | E_dget _ | E_filp_close _ _ | E_vfs_unlink _ _ _ | E_dput _ => true
  | _ => false
  end.

(** What only [create_whiteout] does: it asks for the ancestry with no
    buffer and creates the marker. *)
Definition is_marker_creation (e : event) : bool :=
  match e with
  | E_find_path _ false _ _ | E_creat_worker _ _ _ => true
  | _ => false
  end.

Definition is_find_file (e : event) : bool :=
  match e with E_find_file _ _ _ _ => true | _ => false end.

Definition is_can_create (e : event) : bool :=
  match e with E_can_create _ _ _ => true | _ => false end.

Definition is_root_switch (e : event) : bool :=
  match e with E_push_root | E_pop_root => true | _ => false end.

Definition is_filp_close (e : event) : bool :=
  match e with E_filp_close _ _ => true | _ => false end.

(** The dentry references a call takes or gives back: a lookup that
    succeeds and [dget] take one, [dput] gives one back. *)
Definition dentry_refs (e : event) : Z :=
  match e with
  | E_get_path_dentry _ _ (Ptr _) | E_dget _ => 1
  | E_dput _ => -1
  | _ => 0
  end.

(** The references a run still holds when it ends. *)
Definition held (tr : list event) : Z :=
  fold_right (fun e n => dentry_refs e + n) 0 tr.

(** ** Worlds and requests used in the examples *)

Module Examples.
Import MemFS.

(** The mount of section 8: "/file.txt" exists on both branches. *)
Definition both (script : list Z) : world :=
  mk_world [("/ro/file.txt", file_node 1000 1000);
            ("/rw/file.txt", file_node 1000 1000)] script 1000 1000.

(** "/file.txt" only on the read-only branch. *)
Definition ro_only (script : list Z) : world :=
  mk_world [("/ro/file.txt", file_node 1000 1000)] script 1000 1000.

(** "/gone" was deleted: its read-only original is hidden by a whiteout
    owned by root. *)
Definition whiteouted (script : list Z) : world :=
  mk_world [("/ro/gone", file_node 1000 1000);
            ("/rw/.wh.gone", Node (Z.lor S_IFREG S_IRUSR) 0 0 "")]
           script 1000 1000.

(** Dentries handed in by the VFS: the name within the union; the one of
    "/file.txt" stands for inode 2, its read-write object in [both]. *)
Definition file_txt : dentry := Dentry "/file.txt" 2%nat.
Definition gone : dentry := Dentry "/gone" 0%nat.
Definition fresh : dentry := Dentry "/new" 0%nat.
Definition root_ino : inode := 1%nat.

Definition chown_attr : iattr := Iattr (Z.lor ATTR_UID ATTR_GID) 0 7 7.

Fixpoint strrep (n : nat) (a : ascii) : string :=
  match n with
  | O => EmptyString
  | S n' => String a (strrep n' a)
  end.

Fixpoint nested (k : nat) (name : string) : string :=
  match k with
  | O => EmptyString
  | S k' => "/" +:+ name +:+ nested k' name
  end.

(** A virtual path of 4091 characters, every component within NAME_MAX:
    fifteen directories of 255 characters and a leaf of 250. *)
Definition long_dir : string := nested 15 (strrep 255 "a").
Definition long_leaf : string := strrep 250 "a".
Definition long_path : string := (long_dir +:+ "/") +:+ long_leaf.

End Examples.

(** ** The other entry points of opts.c

    [pierrefs_getattr], [pierrefs_llseek], [pierrefs_lookup],
    [pierrefs_open], [pierrefs_permission] and [pierrefs_statfs] reach
    further out than the functions above: the calls of [call] are joined
    by the ones they add, and the objects they store into are records
    handed back with the result. *)

Module Entry.

(** [struct kstat], the fields that tell two objects apart. *)
Record kstat := Kstat {
  st_mode : Z;
  st_uid : Z;
  st_gid : Z
}.

Record kstatfs := Kstatfs {
  f_type : Z;
  f_bsize : Z;
  f_blocks : Z;
  f_bfree : Z;
  f_bavail : Z;
  f_files : Z;
  f_ffree : Z;
  f_fsid : Z * Z;
  f_namelen : Z;
  f_frsize : Z
}.

(** [memset(buf, 0, sizeof( *buf))] *)
Definition zero_kstatfs : kstatfs := Kstatfs 0 0 0 0 0 0 0 (0, 0) 0 0.

Definition set_f_type (v : Z) (b : kstatfs) : kstatfs :=
  Kstatfs v (f_bsize b) (f_blocks b) (f_bfree b) (f_bavail b) (f_files b)
          (f_ffree b) (f_fsid b) (f_namelen b) (f_frsize b).

Definition set_f_fsid (v : Z * Z) (b : kstatfs) : kstatfs :=
  Kstatfs (f_type b) (f_bsize b) (f_blocks b) (f_bfree b) (f_bavail b)
          (f_files b) (f_ffree b) v (f_namelen b) (f_frsize b).

(** The super block of the union: [s_fs_info] points to the two branch
    roots. *)
Record super_block := Super_block {
  s_magic : Z;
  s_fs_info : pierrefs_context
}.

(** A file of a lower file system: [f_llseek] tells whether its
    [f_op->llseek] is set. *)
Record lower_file := Lower_file {
  l_file : file;
  f_llseek : bool
}.

(** A file of the union; [private_data] is null ([None]) or the lower
    file. *)
Record union_file := Union_file {
  u_dentry : dentry;
  f_flags : Z;
  f_mode : Z;
  private_data : option lower_file
}.

Definition set_private_data (p : option lower_file) (f : union_file)
  : union_file :=
  Union_file (u_dentry f) (f_flags f) (f_mode f) p.

(** [struct dentry_operations pierrefs_dops], the only table of the
    sources. *)
Inductive dentry_operations : Type := pierrefs_dops.

(** A dentry of the union, with the field [pierrefs_lookup] stores
    into. *)
Record union_dentry := Union_dentry {
  v_dentry : dentry;
  d_op : option dentry_operations
}.

Definition O_RDONLY : Z := 0.

Definition newline : string := String (ascii_of_nat 10) EmptyString.

Inductive ocall : Type -> Type :=
| Base {X : Type} (c : call X) : ocall X
(* Linux *)
| D_add (d : union_dentry) (i : option inode) : ocall unit
| Llseek (f : lower_file) (offset : Z) (origin : Z) : ocall Z
| Filp_open (name : string) (flags : Z) (mode : Z) : ocall (ptr file)
| Vfs_statfs (d : dentry) (buf : kstatfs) : ocall (Z * kstatfs)
| Pr_err (msg : string) : ocall unit
(* helpers declared in pierrefs.h; [open_worker_2] gives a file or an
   errno, as [filp_open] does, which is what [IS_ERR] tells apart *)
| Get_file_attr (path : string) (kstbuf : kstat) : ocall (Z * kstat)
| Open_worker_2 (real_path : string) (flags : Z) (mode : Z)
    : ocall (ptr lower_file)
| Can_access (path real_path : string) (mask : Z) : ocall Z.

Inductive oprog (R : Type) : Type :=
| ORet (r : R)
| OVis {X : Type} (c : ocall X) (k : X -> oprog R).
Arguments ORet {R} r.
Arguments OVis {R X} c k.

Fixpoint obind {A B : Type} (p : oprog A) (f : A -> oprog B) : oprog B :=
  match p with
  | ORet a => f a
  | OVis c k => OVis c (fun x => obind (k x) f)
  end.

Definition odo {X : Type} (c : ocall X) : oprog X := OVis c ORet.

Definition base {X : Type} (c : call X) : oprog X := odo (Base c).

#[local] Notation "'let+' x ':=' p 'in' q" := (obind p (fun x => q))
  (at level 10, x pattern, p at level 100, q at level 200, only parsing).

Inductive oevent : Type :=
| E_base (e : event)
| E_d_add (d : union_dentry) (i : option inode)
| E_llseek (f : lower_file) (offset : Z) (origin : Z) (r : Z)
| E_filp_open (name : string) (flags : Z) (mode : Z) (r : ptr file)
| E_vfs_statfs (d : dentry) (buf : kstatfs) (r : Z) (out : kstatfs)
| E_pr_err (msg : string)
| E_get_file_attr (path : string) (kstbuf : kstat) (r : Z) (out : kstat)
| E_open_worker_2 (real_path : string) (flags : Z) (mode : Z)
    (r : ptr lower_file)
| E_can_access (path real_path : string) (mask : Z) (r : Z).

Definition OEv {X : Type} (c : ocall X) : X -> oevent :=
  match c in ocall X return X -> oevent with
  | Base c => fun r => E_base (Ev c r)
  | D_add d i => fun _ => E_d_add d i
  | Llseek f o w => fun r => E_llseek f o w r
  | Filp_open n f m => fun r => E_filp_open n f m r
  | Vfs_statfs d b => fun r => E_vfs_statfs d b (fst r) (snd r)
  | Pr_err m => fun _ => E_pr_err m
  | Get_file_attr p b => fun r => E_get_file_attr p b (fst r) (snd r)
  | Open_worker_2 p f m => fun r => E_open_worker_2 p f m r
  | Can_access p q m => fun r => E_can_access p q m r
  end.

Definition ohandler (S : Type) : Type :=
  forall X : Type, ocall X -> S -> X * S.

Fixpoint orun {S R : Type} (h : ohandler S) (p : oprog R) (s : S)
  : list oevent * R * S :=
  match p with
  | ORet r => ([], r, s)
  | OVis c k =>
      let '(x, s1) := h _ c s in
      let '(tr, r, s2) := orun h (k x) s1 in
      (OEv c x :: tr, r, s2)
  end.

Definition otrace {S R} (h : ohandler S) (p : oprog R) (s : S)
  : list oevent := fst (fst (orun h p s)).
Definition oresult {S R} (h : ohandler S) (p : oprog R) (s : S) : R :=
  snd (fst (orun h p s)).
Definition ostate {S R} (h : ohandler S) (p : oprog R) (s : S) : S :=
  snd (orun h p s).

(** A C [int] that receives a [loff_t]: the low 32 bits, as a signed
    number. *)
Definition to_int (z : Z) : Z := (z + 2 ^ 31) mod 2 ^ 32 - 2 ^ 31.

(** [ERR_PTR(err)] for a negative [err]. *)
Definition err_ptr {T : Type} (err : Z) : ptr T := ERR_PTR (Z.to_pos (- err)).

Definition pierrefs_getattr (dentry : dentry) (kstbuf : kstat)
  : oprog (Z * kstat) :=
  (* Get path *)
  let+ (err, path) := base (Get_relative_path None dentry 1) in
  if err <? 0 then ORet (err, kstbuf) else
  (* Call worker *)
  odo (Get_file_attr path kstbuf).

(** The result is [None] when [private_data] is null: the function reads
    through it first of all. *)
Definition pierrefs_llseek (file : union_file) (offset : Z) (origin : Z)
  : oprog (option Z) :=
  let err := - EINVAL in
  match private_data file with
  | None => ORet None
  | Some real_file =>
      if f_llseek real_file then
        let+ r := odo (Llseek real_file offset origin) in
        let err := to_int r in
        ORet (Some err)
      else ORet (Some err)
  end.

(** The pointer returned is null ([Ptr None]) or an errno; the dentry is
    handed back as the function leaves it. *)
Definition lookup_result : Type := ptr (option dentry) * union_dentry.

Definition pierrefs_lookup (dir : inode) (dentry : union_dentry)
  : oprog lookup_result :=
  let inode : option inode := None in
  (* First get path of the file *)
  let+ (err, path) :=
    base (Get_relative_path_for_file dir (v_dentry dentry) 1) in
  if err <? 0 then ORet (err_ptr err, dentry) else
  (* Now, look for the file *)
  let+ (err, real_path) := base (Find_file path 0) in
  if err <? 0 then ORet (err_ptr err, dentry) else
  (* Set dentry operations *)
  let dentry := Union_dentry (v_dentry dentry) (Some pierrefs_dops) in
  (* Set our inode *)
  let+ _ := odo (D_add dentry inode) in
  ORet (Ptr None, dentry).

Definition pierrefs_open (inode : inode) (file : union_file)
  : oprog (Z * union_file) :=
  (* Get our file path; what the call returns is overwritten unread *)
  let+ (err, path) :=
    base (Get_relative_path (Some inode) (u_dentry file) 1) in
  (* Get real file path *)
  let+ (err, real_path) := base (Find_file path 0) in
  if err <? 0 then ORet (err, file) else
  (* Really open the file *)
  let+ p := odo (Open_worker_2 real_path (f_flags file) (f_mode file)) in
  match p with
  | ERR_PTR e => ORet (PTR_ERR e, set_private_data None file)
  | Ptr lower => ORet (0, set_private_data (Some lower) file)
  end.

(** [nd_dentry] is [nd->dentry]. *)
Definition pierrefs_permission (inode : inode) (mask : Z) (nd_dentry : dentry)
  : oprog Z :=
  (* Get path *)
  let+ (err, path) := base (Get_relative_path None nd_dentry 1) in
  if negb (err =? 0) then ORet err else
  (* Get file *)
  let+ (err, real_path) := base (Find_file path 0) in
  if err <? 0 then ORet err else
  (* And call worker *)
  odo (Can_access path real_path mask).

(** [sb] is [dentry->d_sb], the only use of the dentry. *)
Definition pierrefs_statfs (sb : super_block) (buf : kstatfs)
  : oprog (Z * kstatfs) :=
  let sb_info := s_fs_info sb in
  let buf := zero_kstatfs in
  (* First, get RO data *)
  let+ filp := odo (Filp_open (read_only_branch sb_info) O_RDONLY 0) in
  match filp with
  | ERR_PTR e =>
      let+ _ := odo (Pr_err ("Failed opening RO branch!" +:+ newline)) in
      ORet (PTR_ERR e, buf)
  | Ptr filp =>
      let+ (err, buf) := odo (Vfs_statfs (f_dentry filp) buf) in
      let+ _ := base (Filp_close filp) in
      if negb (err =? 0) then ORet (err, buf) else
      (* Return them, but ensure we mark our stuff *)
      let buf := set_f_type (s_magic sb) buf in
      let buf := set_f_fsid (0, 0) buf in
      ORet (0, buf)
  end.

(** The handler of the examples.  The calls of [call] are answered by the
    in-memory model; the lower file systems give every file an [llseek]
    that moves to the offset asked for, and report fixed numbers for the
    read-only branch.  [get_file_attr], [open_worker_2] and [can_access],
    declared in pierrefs.h, are kept to their simplest: they work on the
    object [find_file] resolves the path to. *)
Section Kernel.
Import MemFS.
Context `{pierrefs_h}.
Variable ctx : pierrefs_context.

Definition stat_m (p : string) (buf : kstat) (w : world) : Z * kstat :=
  match node_at p w with
  | Some n => (0, Kstat (n_mode n) (n_uid n) (n_gid n))
  | None => (- ENOENT, buf)
  end.

Definition get_file_attr_m (path : string) (buf : kstat) (w : world)
  : Z * kstat :=
  let '(r, real) := find_file_m ctx path 0 w in
  if r <? 0 then (r, buf) else stat_m real buf w.

Definition open_m (p : string) (w : world) : ptr lower_file :=
  match names w !! p with
  | Some i => Ptr (Lower_file (File (Dentry p i)) true)
  | None => ERR_PTR (Z.to_pos ENOENT)
  end.

Definition filp_open_m (p : string) (w : world) : ptr file :=
  match names w !! p with
  | Some i => Ptr (File (Dentry p i))
  | None => ERR_PTR (Z.to_pos ENOENT)
  end.

Definition statfs_m (d : dentry) (buf : kstatfs) : kstatfs :=
  Kstatfs 61267 4096 1000 0 0 100 0 (17, 4) 255 4096.

Definition okernel : ohandler world := fun X c =>
  match c in ocall X return world -> X * world with
  | Base c => kernel ctx _ c
  | D_add _ _ => fun w => (tt, w)
  | Llseek _ offset _ => with_fault id (fun w => (offset, w))
  | Filp_open name _ _ => with_fault failp (fun w => (filp_open_m name w, w))
  | Vfs_statfs d buf =>
      with_fault (fun e => (e, buf)) (fun w => ((0, statfs_m d buf), w))
  | Pr_err _ => fun w => (tt, w)
  | Get_file_attr path buf =>
      with_fault (fun e => (e, buf)) (fun w => (get_file_attr_m path buf w, w))
  | Open_worker_2 real _ _ => with_fault failp (fun w => (open_m real w, w))
  | Can_access _ _ _ => with_fault id (fun w => (0, w))
  end.

End Kernel.

(** The super block of the mount of section 8, with a number standing for
    [PIERREFS_MAGIC] of pierrefs.h, and a file of the union that has not
    been opened. *)
Definition example_sb : super_block :=
  Super_block 1346981957 MemFS.example_ctx.

Definition closed_file (d : dentry) : union_file := Union_file d 0 0 None.

(** The two branch roots and "/file.txt" on the read-only branch. *)
Definition mounted (script : list Z) : MemFS.world :=
  MemFS.mk_world [("/ro", MemFS.Node (Z.lor S_IFDIR 493) 0 0 "");
                  ("/rw", MemFS.Node (Z.lor S_IFDIR 493) 0 0 "");
                  ("/ro/file.txt", MemFS.file_node 1000 1000)]
                 script 1000 1000.

End Entry.

(** * Properties *)

(** ** Strings *)

Lemma append_cons (x : ascii) (a b : string) :
  String x a +:+ b = String x (a +:+ b).
Proof. reflexivity. Qed.

Lemma append_nil (b : string) : EmptyString +:+ b = b.
Proof. reflexivity. Qed.

Lemma append_assoc (a b c : string) : (a +:+ b) +:+ c = a +:+ (b +:+ c).
Proof.
  induction a as [|x a IH]; [reflexivity|].
  now rewrite !append_cons, IH.
Qed.

Lemma length_append (a b : string) :
  String.length (a +:+ b) = (String.length a + String.length b)%nat.
Proof.
  induction a as [|x a IH]; [reflexivity|].
  rewrite append_cons; simpl; now rewrite IH.
Qed.

Lemma strprefix_all (n : nat) (s : string) :
  (String.length s <= n)%nat -> strprefix n s = s.
Proof.
  revert n; induction s as [|x s IH]; intros [|n] Hn; simpl in *;
    try reflexivity; try lia.
  rewrite IH; [reflexivity | lia].
Qed.

Lemma strprefix_length (n : nat) (s : string) :
  (String.length (strprefix n s) <= n)%nat.
Proof.
  revert s; induction n as [|n IH]; intros [|x s]; simpl; try lia.
  specialize (IH s); lia.
Qed.

Lemma strprefix_append (a b : string) :
  strprefix (String.length a) (a +:+ b) = a.
Proof.
  induction a as [|x a IH]; [now destruct b|].
  rewrite append_cons; simpl; now rewrite IH.
Qed.

Lemma strfrom_append (a b : string) :
  strfrom (String.length a) (a +:+ b) = b.
Proof.
  induction a as [|x a IH]; [now destruct b|].
  rewrite append_cons; simpl; exact IH.
Qed.

Lemma strrchr_append_none (a b : string) (c : ascii) :
  strrchr b c = None -> strrchr (a +:+ b) c = strrchr a c.
Proof.
  intros Hb; induction a as [|x a IH]; [exact Hb|].
  rewrite append_cons; simpl; now rewrite IH.
Qed.

Lemma strrchr_last (a : string) (c : ascii) :
  strrchr (a +:+ String c EmptyString) c = Some (String.length a).
Proof.
  induction a as [|x a IH].
  - rewrite append_nil; simpl. now rewrite Ascii.eqb_refl.
  - rewrite append_cons; simpl. now rewrite IH.
Qed.

(** The leaf starts right after the last separator. *)
Lemma strrchr_dir_leaf (d0 leaf : string) :
  strrchr leaf "/" = None ->
  strrchr ((d0 +:+ "/") +:+ leaf) "/" = Some (String.length d0).
Proof.
  intros Hl. rewrite (strrchr_append_none _ _ _ Hl). apply strrchr_last.
Qed.

Lemma length_dir (d0 : string) :
  String.length (d0 +:+ "/") = (String.length d0 + 1)%nat.
Proof. rewrite length_append; reflexivity. Qed.

Lemma snprintf_fits (root : string) :
  Z.of_nat (String.length root) < PATH_MAX ->
  snprintf_s PATH_MAX root = (root, Z.of_nat (String.length root)).
Proof.
  intros Hlen. unfold snprintf_s. rewrite strprefix_all; [reflexivity|].
  unfold PATH_MAX in *. lia.
Qed.

Lemma make_rw_path_fits (ctx : pierrefs_context) (virt : string) :
  Z.of_nat (String.length (read_write_branch ctx +:+ virt)) < PATH_MAX ->
  fst (make_rw_path ctx virt) = read_write_branch ctx +:+ virt.
Proof. intros Hlen. unfold make_rw_path. now rewrite snprintf_fits. Qed.

Lemma make_rw_path_length (ctx : pierrefs_context) (virt : string) :
  snd (make_rw_path ctx virt)
  = Z.of_nat (String.length (read_write_branch ctx +:+ virt)).
Proof. reflexivity. Qed.

(** What the three whiteout functions leave in [wh_path] when the path is
    a directory part followed by a leaf. *)
Lemma marker_dir_leaf (root d0 leaf tag : string) :
  strcat (strcat (strncat root ((d0 +:+ "/") +:+ leaf) (String.length d0 + 1))
            tag)
         (strfrom (String.length d0 + 1) ((d0 +:+ "/") +:+ leaf))
  = root +:+ (d0 +:+ "/") +:+ tag +:+ leaf.
Proof.
  unfold strcat, strncat.
  rewrite <- length_dir, strprefix_append, strfrom_append.
  now rewrite !append_assoc.
Qed.

(** ** Runs *)

Lemma run_bind {S A B : Type} (h : handler S) (p : prog A) (f : A -> prog B)
  (s : S) :
  run h (bind p f) s =
  let '(tr1, a, s1) := run h p s in
  let '(tr2, b, s2) := run h (f a) s1 in
  (tr1 ++ tr2, b, s2).
Proof.
  revert s; induction p as [a | X c k IH]; intros s; simpl.
  - now destruct (run h (f a) s) as [[tr b] s2].
  - destruct (h X c s) as [x s1]. rewrite IH.
    destruct (run h (k x) s1) as [[tr1 a] s2].
    now destruct (run h (f a) s2) as [[tr2 b] s3].
Qed.

Lemma run_do {S X : Type} (h : handler S) (c : call X) (s : S) :
  run h (do c) s = ([Ev c (fst (h X c s))], fst (h X c s), snd (h X c s)).
Proof. simpl. now destruct (h X c s). Qed.

Ltac run_call h :=
  match goal with
  | |- context [h ?X ?c ?s] =>
      let E := fresh "Hcall" in destruct (h X c s) as [? ?] eqn:E
  end.

(** ** The reserved name of a whiteout *)

Section MarkerName.
Context `{pierrefs_h}.
Variable ctx : pierrefs_context.
Variables d0 leaf : string.
Hypothesis leaf_plain : strrchr leaf "/" = None.
Hypothesis root_fits :
  Z.of_nat (String.length (read_write_branch ctx)) < PATH_MAX.

Let dir : string := d0 +:+ "/".
Let path : string := dir +:+ leaf.
Let marker : string := read_write_branch ctx +:+ dir +:+ ".wh." +:+ leaf.

Lemma root_not_too_long :
  (Z.of_nat (String.length (read_write_branch ctx)) >? PATH_MAX) = false.
Proof. rewrite Z.gtb_ltb. apply Z.ltb_ge. lia. Qed.

Lemma find_whiteout_run {S : Type} (h : handler S) (s : S) (buf : string) :
  run h (find_whiteout ctx path buf) s =
  ([E_vfs_lstat marker (fst (h _ (Vfs_lstat marker) s))],
   (fst (h _ (Vfs_lstat marker) s), marker),
   snd (h _ (Vfs_lstat marker) s)).
Proof.
  unfold find_whiteout, path, dir.
  rewrite (strrchr_dir_leaf _ _ leaf_plain), (snprintf_fits _ root_fits).
  rewrite root_not_too_long, marker_dir_leaf. fold dir marker.
  simpl. now destruct (h Z (Vfs_lstat marker) s).
Qed.

Lemma unlink_whiteout_run {S : Type} (h : handler S) (s : S) :
  run h (unlink_whiteout ctx path) s =
  run h (let* dentry := do (Get_path_dentry marker LOOKUP_REVAL) in
         match dentry with
         | ERR_PTR e => Ret (PTR_ERR e)
         | Ptr dentry =>
             let* err := do (Vfs_unlink (d_inode dentry) dentry) in
             let* _ := do (Dput dentry) in
             Ret err
         end) s.
Proof.
  unfold unlink_whiteout, path, dir.
  rewrite (strrchr_dir_leaf _ _ leaf_plain), (snprintf_fits _ root_fits).
  rewrite root_not_too_long, marker_dir_leaf. reflexivity.
Qed.

Lemma create_whiteout_run {S : Type} (h : handler S) (s : S) (buf : string) :
  run h (create_whiteout ctx path buf) s =
  run h (let* (err, _) := do (Find_path path false) in
         if err <? 0 then Ret (err, marker) else
         let* r := create_whiteout_worker marker in
         Ret (r, marker)) s.
Proof.
  unfold create_whiteout, path, dir.
  rewrite (strrchr_dir_leaf _ _ leaf_plain), (snprintf_fits _ root_fits).
  rewrite root_not_too_long, marker_dir_leaf. reflexivity.
Qed.

End MarkerName.

#[local] Arguments snprintf_s : simpl never.
#[local] Arguments make_rw_path : simpl never.
#[local] Arguments strrchr : simpl never.
#[local] Arguments strprefix : simpl never.
#[local] Arguments strfrom : simpl never.
#[local] Arguments strncat : simpl never.
#[local] Arguments strcat : simpl never.
#[local] Arguments S_ISFIFO : simpl never.
#[local] Arguments unlink_whiteout : simpl never.
#[local] Arguments create_whiteout : simpl never.
#[local] Arguments create_whiteout_worker : simpl never.
#[local] Arguments Z.lor : simpl never.

#[local] Opaque make_rw_path snprintf_s.

(** Symbolic execution of a run: answer the next call, then decide the
    test that follows it.  A call to one of the whiteout functions is
    kept as one step. *)
Ltac exec h :=
  repeat (simpl;
    match goal with
    | |- context [h ?X ?c ?s] => destruct (h X c s) as [? ?] eqn:?
    | |- context [match ?p with (_, _) => _ end] =>
        is_var p; destruct p as [? ?]
    | |- context [match ?p with Ptr _ => _ | ERR_PTR _ => _ end] =>
        is_var p; destruct p
    | |- context [match ?p with (_, _) => _ end] =>
        lazymatch p with
        | context [@run] => fail
        | _ => destruct p as [? ?] eqn:?
        end
    | |- context [match ?p with Some _ => _ | None => _ end] =>
        destruct p eqn:?
    | |- context [if ?b then _ else _] => destruct b eqn:?
    | |- context [run h (bind ?p ?k) ?s] =>
        lazymatch p with
        | unlink_whiteout _ _ => idtac
        | create_whiteout _ _ _ => idtac
        | create_whiteout_worker _ => idtac
        end;
        rewrite (run_bind h p k s);
        destruct (run h p s) as [[? ?] ?] eqn:?
    end);
  simpl.


(** The answers of the handler that a statement names: each is replaced
    by its components, the calls that depend on no other answer first;
    they stay in the context as equations. *)
Ltac answers h :=
  repeat (cbn [fst snd];
    match goal with
    | |- context [fst ?p] => is_var p; destruct p as [? ?]
    | |- context [snd ?p] => is_var p; destruct p as [? ?]
    | |- context [h ?X ?c ?s] =>
        lazymatch c with
        | context [h] => fail
        | context [@fst] => fail
        | context [@snd] => fail
        | _ => idtac
        end;
        lazymatch s with
        | context [h] => fail
        | context [@fst] => fail
        | context [@snd] => fail
        | _ => idtac
        end;
        destruct (h X c s) as [? ?] eqn:?
    end);
  cbn [fst snd].

(** [exec] for a goal whose statement names answers: an answer that is
    known is used where the run meets its call. *)
Ltac exec_named h :=
  repeat (simpl;
    match goal with
    | Hk : h ?X ?c ?s = _ |- context [h ?X ?c ?s] => rewrite Hk
    | |- context [h ?X ?c ?s] => destruct (h X c s) as [? ?] eqn:?
    | |- context [match ?p with (_, _) => _ end] =>
        is_var p; destruct p as [? ?]
    | |- context [match ?p with Ptr _ => _ | ERR_PTR _ => _ end] =>
        is_var p; destruct p
    | |- context [match ?p with (_, _) => _ end] =>
        lazymatch p with
        | context [@run] => fail
        | _ => destruct p as [? ?] eqn:?
        end
    | |- context [match ?p with Some _ => _ | None => _ end] =>
        destruct p eqn:?
    | |- context [if ?b then _ else _] => destruct b eqn:?
    | |- context [run h (bind ?p ?k) ?s] =>
        lazymatch p with
        | unlink_whiteout _ _ => idtac
        | create_whiteout _ _ _ => idtac
        | create_whiteout_worker _ => idtac
        end;
        rewrite (run_bind h p k s);
        destruct (run h p s) as [[? ?] ?] eqn:?
    end);
  simpl.

(** Tests on C integers, as propositions. *)
Ltac tests :=
  repeat match goal with
  | H : (_ <? _) = true |- _ => apply Z.ltb_lt in H
  | H : (_ <? _) = false |- _ => apply Z.ltb_ge in H
  | H : (_ >=? _) = true |- _ => rewrite Z.geb_leb in H; apply Z.leb_le in H
  | H : (_ >=? _) = false |- _ => rewrite Z.geb_leb in H; apply Z.leb_gt in H
  | H : (_ >? _) = true |- _ => rewrite Z.gtb_ltb in H; apply Z.ltb_lt in H
  | H : (_ >? _) = false |- _ => rewrite Z.gtb_ltb in H; apply Z.ltb_ge in H
  | H : (_ =? _) = true |- _ => apply Z.eqb_eq in H
  | H : (_ =? _) = false |- _ => apply Z.eqb_neq in H
  end.

(** Membership in a trace that has been computed. *)
Ltac members :=
  repeat match goal with
  | H : In _ _ |- _ => simpl in H
  | H : _ \/ _ |- _ => destruct H as [H | H]
  | H : False |- _ => destruct H
  | H : @eq event _ ?v |- _ => is_var v; subst v
  | H : @eq event ?v _ |- _ => is_var v; subst v
  | H : @eq event _ _ |- _ =>
      first [discriminate H | injection H; intros; subst; clear H]
  | H : @eq (list event) (_ :: _) (_ :: _) |- _ => injection H as H ?
  | H : @eq (list event) (_ :: _) [] |- _ => discriminate H
  | H : @eq (list event) [] (_ :: _) |- _ => discriminate H
  end.

(** ** C3: the create family refuses a path that resolves *)

Section CreateFamily.
Context `{pierrefs_h}.
Variable ctx : pierrefs_context.
Context {S : Type}.
Variable h : handler S.

(** The first two calls of [pierrefs_mkdir], [pierrefs_mknod] and
    [pierrefs_symlink] are the path of the target and its lookup; the
    statements name the answers the handler gives to them. *)
Lemma mkdir_refuses_existing (s : S) dir d mode :
  let a1 := h _ (Get_relative_path_for_file dir d 1) s in
  let path := snd (fst a1) in
  let a2 := h _ (Find_file path 0) (snd a1) in
  let r := fst (fst a2) in
  (0 <= fst (fst a1) ->
   exists rest,
     trace_of h (pierrefs_mkdir ctx dir d mode) s
     = E_get_relative_path_for_file dir d 1 (fst (fst a1)) path
         :: E_find_file path 0 r (snd (fst a2)) :: rest
     /\ (0 <= r ->
         rest = []
         /\ result_of h (pierrefs_mkdir ctx dir d mode) s = - EEXIST
         /\ state_of h (pierrefs_mkdir ctx dir d mode) s = snd a2))
  /\ (existsb is_creation (trace_of h (pierrefs_mkdir ctx dir d mode) s)
      = true ->
      0 <= fst (fst a1) /\ r < 0).
Proof.
  unfold pierrefs_mkdir. cbv zeta. answers h.
  unfold trace_of, result_of, state_of. exec_named h; tests;
    (split;
     [ intros He; try lia; eexists; (split; [reflexivity|]);
       intros Hr; try lia; repeat split
     | intros Hc; try discriminate Hc; split; lia ]).
Qed.

Lemma mknod_refuses_existing (s : S) dir d mode rdev :
  let a1 := h _ (Get_relative_path_for_file dir d 1) s in
  let path := snd (fst a1) in
  let a2 := h _ (Find_file path 0) (snd a1) in
  let r := fst (fst a2) in
  (0 <= fst (fst a1) ->
   exists rest,
     trace_of h (pierrefs_mknod ctx dir d mode rdev) s
     = E_get_relative_path_for_file dir d 1 (fst (fst a1)) path
         :: E_find_file path 0 r (snd (fst a2)) :: rest
     /\ (0 <= r ->
         rest = []
         /\ result_of h (pierrefs_mknod ctx dir d mode rdev) s = - EEXIST
         /\ state_of h (pierrefs_mknod ctx dir d mode rdev) s = snd a2))
  /\ (existsb is_creation
        (trace_of h (pierrefs_mknod ctx dir d mode rdev) s) = true ->
      0 <= fst (fst a1) /\ r < 0).
Proof.
  unfold pierrefs_mknod. cbv zeta. answers h.
  unfold trace_of, result_of, state_of. exec_named h; tests;
    (split;
     [ intros He; try lia; eexists; (split; [reflexivity|]);
       intros Hr; try lia; repeat split
     | intros Hc; try discriminate Hc; split; lia ]).
Qed.

Lemma symlink_refuses_existing (s : S) dir d symname :
  let a1 := h _ (Get_relative_path_for_file dir d 1) s in
  let path := snd (fst a1) in
  let a2 := h _ (Find_file path 0) (snd a1) in
  let r := fst (fst a2) in
  (0 <= fst (fst a1) ->
   exists rest,
     trace_of h (pierrefs_symlink ctx dir d symname) s
     = E_get_relative_path_for_file dir d 1 (fst (fst a1)) path
         :: E_find_file path 0 r (snd (fst a2)) :: rest
     /\ (0 <= r ->
         rest = []
         /\ result_of h (pierrefs_symlink ctx dir d symname) s = - EEXIST
         /\ state_of h (pierrefs_symlink ctx dir d symname) s = snd a2))
  /\ (existsb is_creation
        (trace_of h (pierrefs_symlink ctx dir d symname) s) = true ->
      0 <= fst (fst a1) /\ r < 0).
Proof.
  unfold pierrefs_symlink. cbv zeta. answers h.
  unfold trace_of, result_of, state_of. exec_named h; tests;
    (split;
     [ intros He; try lia; eexists; (split; [reflexivity|]);
       intros Hr; try lia; repeat split
     | intros Hc; try discriminate Hc; split; lia ]).
Qed.

(** In [pierrefs_link] the path of the target and its lookup are the third
    and fourth calls, made once the source has been found. *)
Lemma link_refuses_existing (s : S) old dir d :
  let a1 := h _ (Get_relative_path None old 1) s in
  let from := snd (fst a1) in
  let a2 := h _ (Find_file from 0) (snd a1) in
  let a3 := h _ (Get_relative_path_for_file dir d 1) (snd a2) in
  let to := snd (fst a3) in
  let a4 := h _ (Find_file to 0) (snd a3) in
  let r := fst (fst a4) in
  (0 <= fst (fst a1) -> 0 <= fst (fst a2) -> 0 <= fst (fst a3) ->
   exists rest,
     trace_of h (pierrefs_link ctx old dir d) s
     = E_get_relative_path None old 1 (fst (fst a1)) from
         :: E_find_file from 0 (fst (fst a2)) (snd (fst a2))
         :: E_get_relative_path_for_file dir d 1 (fst (fst a3)) to
         :: E_find_file to 0 r (snd (fst a4)) :: rest
     /\ (0 <= r ->
         rest = []
         /\ result_of h (pierrefs_link ctx old dir d) s = - EEXIST
         /\ state_of h (pierrefs_link ctx old dir d) s = snd a4))
  /\ (existsb is_creation (trace_of h (pierrefs_link ctx old dir d) s)
      = true ->
      0 <= fst (fst a1) /\ 0 <= fst (fst a2) /\ 0 <= fst (fst a3) /\ r < 0).
Proof.
  unfold pierrefs_link. cbv zeta. answers h.
  unfold trace_of, result_of, state_of. exec_named h; tests;
    (split;
     [ intros He1 He2 He3; try lia; eexists; (split; [reflexivity|]);
       intros Hr; try lia; repeat split
     | intros Hc; try discriminate Hc; repeat split; lia ]).
Qed.

End CreateFamily.

(** ** C4: linking to an object of the read-only branch *)

Lemma unlink_whiteout_steps {S : Type} (h : handler S) ctx path s tr r s' :
  run h (unlink_whiteout ctx path) s = (tr, r, s') ->
  forall e, In e tr -> is_unlink_step e = true.
Proof.
  unfold unlink_whiteout.
  exec h; intros Hrun; injection Hrun as <- <- <-;
    intros ev Hev; members; reflexivity.
Qed.

Lemma unlink_whiteout_no_creation {S : Type} (h : handler S) ctx path s
  tr r s' :
  run h (unlink_whiteout ctx path) s = (tr, r, s') ->
  forall e, In e tr -> is_creation e = false.
Proof.
  intros Hrun e He. apply (unlink_whiteout_steps _ _ _ _ _ _ _ Hrun) in He.
  now destruct e.
Qed.

Section Link.
Context `{pierrefs_h}.
Variable ctx : pierrefs_context.
Context {S : Type}.
Variable h : handler S.
Variable s : S.
Variables (old : dentry) (dir : inode) (d : dentry).

Ltac link_made :=
  do 2 eexists; split; [reflexivity|];
  split;
    [ match goal with
      | |- _ = (if ?b then _ else _) => destruct b eqn:?; tests; lia
      end |];
  split; [intros Hneg; first [lia | reflexivity]|];
  intros ev Hev; first
    [ contradiction
    | rewrite ?app_nil_r in Hev; eapply unlink_whiteout_steps; eassumption ].

(** What [pierrefs_link] does once the request has passed the checks: the
    statement names the answers of the six calls that lead there. *)
Lemma link_creates :
  let a1 := h _ (Get_relative_path None old 1) s in
  let from := snd (fst a1) in
  let a2 := h _ (Find_file from 0) (snd a1) in
  let origin := fst (fst a2) in
  let real_from := snd (fst a2) in
  let a3 := h _ (Get_relative_path_for_file dir d 1) (snd a2) in
  let to := snd (fst a3) in
  let a4 := h _ (Find_file to 0) (snd a3) in
  let a5 := h _ (Can_create to (snd (fst a4))) (snd a4) in
  let a6 := h _ (Find_path to true) (snd a5) in
  let real_to := snd (fst a6) in
  let checks :=
    [E_get_relative_path None old 1 (fst (fst a1)) from;
     E_find_file from 0 origin real_from;
     E_get_relative_path_for_file dir d 1 (fst (fst a3)) to;
     E_find_file to 0 (fst (fst a4)) (snd (fst a4));
     E_can_create to (snd (fst a4)) (fst a5);
     E_find_path to true (fst (fst a6)) real_to] in
  let n := Z.of_nat (String.length (read_write_branch ctx +:+ to)) in
  0 <= fst (fst a1) -> 0 <= origin -> 0 <= fst (fst a3) ->
  fst (fst a4) < 0 -> 0 <= fst a5 -> 0 <= fst (fst a6) ->
  (origin = READ_ONLY ->
   exists r tail,
     trace_of h (pierrefs_link ctx old dir d) s
     = checks ++ E_symlink_worker real_from real_to r :: tail
     /\ result_of h (pierrefs_link ctx old dir d) s = (if r <? 0 then r else 0)
     /\ (r < 0 -> tail = [])
     /\ (forall e, In e tail -> is_unlink_step e = true))
  /\ (origin <> READ_ONLY ->
      (n <= PATH_MAX ->
       exists r tail,
         trace_of h (pierrefs_link ctx old dir d) s
         = checks
           ++ E_link_worker real_from (fst (make_rw_path ctx to)) r :: tail
         /\ result_of h (pierrefs_link ctx old dir d) s
            = (if r <? 0 then r else 0)
         /\ (r < 0 -> tail = [])
         /\ (forall e, In e tail -> is_unlink_step e = true))
      /\ (PATH_MAX < n ->
          trace_of h (pierrefs_link ctx old dir d) s = checks
          /\ result_of h (pierrefs_link ctx old dir d) s = - ENAMETOOLONG)).
Proof.
  unfold pierrefs_link. cbv zeta. answers h.
  unfold trace_of, result_of. exec_named h; tests;
    intros He1 Ho He3 He4 He5 He6;
    repeat match goal with
    | E : make_rw_path ctx ?to = (_, ?z) |- _ =>
        let L := fresh "Hlen" in
        pose proof (make_rw_path_length ctx to) as L;
        rewrite E in L; simpl in L; subst z; clear E
    end;
    first
      [ lia
      | split;
        [ intros Hro; first [contradiction | link_made]
        | intros Hrw; first
            [ contradiction
            | split;
              [ intros Hfit; first [lia | link_made]
              | intros Hlong; first [lia | split; reflexivity] ] ] ] ].
Qed.

End Link.

(** ** C5: where an attribute change goes *)

Section Setattr.
Context `{pierrefs_h}.
Context {S : Type}.
Variable h : handler S.
Variable s : S.
Variables (d : dentry) (attr : iattr).


End Setattr.

(** ** C6 and C10: deleting an object of the read-write branch *)

Section UnlinkRw.
Context `{pierrefs_h}.
Variable ctx : pierrefs_context.
Context {S : Type}.
Variable h : handler S.
Variable s : S.
Variables (path rw_path : string) (has_ro_sure : Z).

Lemma unlink_rw_file_success :
  result_of h (unlink_rw_file ctx path rw_path has_ro_sure) s = 0 ->
  exists lookup has_ro e d r s1,
    (if has_ro_sure =? 0
     then exists r0 buf,
         lookup = [E_find_file path MUST_READ_ONLY r0 buf]
         /\ has_ro = (r0 >=? 0)
     else lookup = [] /\ has_ro = true)
    /\ 0 <= r
    /\ trace_of h (unlink_rw_file ctx path rw_path has_ro_sure) s
       = lookup
         ++ [E_can_remove path rw_path e;
             E_get_path_dentry rw_path LOOKUP_REVAL (Ptr d);
             E_vfs_unlink (d_inode d) d r;
             E_dput d]
         ++ (if has_ro
             then trace_of h (create_whiteout ctx path EmptyString) s1
             else [])
    /\ state_of h (unlink_rw_file ctx path rw_path has_ro_sure) s
       = (if has_ro
          then state_of h (create_whiteout ctx path EmptyString) s1
          else s1).
Proof.
  unfold trace_of, result_of, state_of, unlink_rw_file.
  assert (Hge : forall z, 0 <= z -> true = (z >=? 0)).
  { intros z Hz. symmetry. rewrite Z.geb_leb. now apply Z.leb_le. }
  assert (Hlt : forall z, z < 0 -> false = (z >=? 0)).
  { intros z Hz. symmetry. rewrite Z.geb_leb. now apply Z.leb_gt. }
  destruct (has_ro_sure =? 0) eqn:Hsure;
    exec h; intros Hres; tests; try lia; try discriminate Hres;
    lazymatch goal with
    | Hc : h Z (Can_remove _ _) _ = (?e, _),
      Hu : h Z (Vfs_unlink (d_inode ?t) ?t) _ = (?r, _),
      Hd : h unit (Dput _) _ = (_, ?s1) |- _ =>
        lazymatch goal with
        | Hf : h _ (Find_file _ _) _ = (?r0, ?buf, _) |- _ =>
            exists [E_find_file path MUST_READ_ONLY r0 buf], (r0 >=? 0),
                   e, t, r, s1;
            split; [exists r0, buf; split; reflexivity|];
            rewrite <- ?(Hge r0), <- ?(Hlt r0) by assumption
        | _ =>
            exists [], true, e, t, r, s1; split; [split; reflexivity|]
        end
    end;
    (split; [assumption|]); simpl;
    repeat match goal with
           | E : run h (create_whiteout _ _ _) _ = _ |- _ => rewrite E; clear E
           end;
    simpl; rewrite ?app_nil_r; split; reflexivity.
Qed.

(** The run of a delete that goes through: the statement names the
    answers of the calls up to the release of the dentry. *)
Lemma unlink_rw_file_deletes (dentry : dentry) :
  let asked := has_ro_sure =? 0 in
  let a0 := h _ (Find_file path MUST_READ_ONLY) s in
  let has_ro := if asked then fst (fst a0) >=? 0 else true in
  let lookup :=
    if asked
    then [E_find_file path MUST_READ_ONLY (fst (fst a0)) (snd (fst a0))]
    else [] in
  let a1 := h _ (Can_remove path rw_path) (if asked then snd a0 else s) in
  let a2 := h _ (Get_path_dentry rw_path LOOKUP_REVAL) (snd a1) in
  let a3 := h _ (Vfs_unlink (d_inode dentry) dentry) (snd a2) in
  let a4 := h _ (Dput dentry) (snd a3) in
  0 <= fst a1 -> fst a2 = Ptr dentry -> 0 <= fst a3 ->
  result_of h (unlink_rw_file ctx path rw_path has_ro_sure) s = 0
  /\ trace_of h (unlink_rw_file ctx path rw_path has_ro_sure) s
     = lookup
       ++ [E_can_remove path rw_path (fst a1);
           E_get_path_dentry rw_path LOOKUP_REVAL (Ptr dentry);
           E_vfs_unlink (d_inode dentry) dentry (fst a3);
           E_dput dentry]
       ++ (if has_ro
           then trace_of h (create_whiteout ctx path EmptyString) (snd a4)
           else [])
  /\ state_of h (unlink_rw_file ctx path rw_path has_ro_sure) s
     = (if has_ro
        then state_of h (create_whiteout ctx path EmptyString) (snd a4)
        else snd a4).
Proof.
  unfold unlink_rw_file. cbv zeta.
  destruct (has_ro_sure =? 0) eqn:Hsure;
    answers h; intros Hcan Hptr Hunlink; subst;
    unfold trace_of, result_of, state_of;
    exec_named h; tests; try lia;
    rewrite ?app_nil_r; repeat split.
Qed.

Lemma unlink_rw_file_ignores_whiteout d r :
  In (E_get_path_dentry rw_path LOOKUP_REVAL (Ptr d))
     (trace_of h (unlink_rw_file ctx path rw_path has_ro_sure) s) ->
  In (E_vfs_unlink (d_inode d) d r)
     (trace_of h (unlink_rw_file ctx path rw_path has_ro_sure) s) ->
  0 <= r ->
  result_of h (unlink_rw_file ctx path rw_path has_ro_sure) s = 0.
Proof.
  unfold trace_of, result_of, unlink_rw_file.
  exec h; intros Hd Hu Hr; try reflexivity; exfalso;
    clear Hd; members; tests; lia.
Qed.

End UnlinkRw.

(** ** C7: re-creating a path *)

Section Recreate.
Context `{pierrefs_h}.
Variable ctx : pierrefs_context.
Context {S : Type}.
Variable h : handler S.
Variable s : S.
Variables (dir : inode) (d : dentry).

Lemma mkdir_never_succeeds mode :
  result_of h (pierrefs_mkdir ctx dir d mode) s <> 0.
Proof.
  unfold result_of, pierrefs_mkdir.
  exec h; tests; unfold EEXIST, ENAMETOOLONG, EINVAL; lia.
Qed.

Lemma mknod_success mode rdev :
  result_of h (pierrefs_mknod ctx dir d mode rdev) s = 0 ->
  exists e1 path e2 buf e3 real r s1,
    0 <= r
    /\ trace_of h (pierrefs_mknod ctx dir d mode rdev) s
       = [E_get_relative_path_for_file dir d 1 e1 path;
          E_find_file path 0 e2 buf;
          E_find_path path true e3 real;
          if S_ISFIFO mode then E_mkfifo real mode r
          else E_mknod real mode rdev r]
         ++ trace_of h (unlink_whiteout ctx path) s1
    /\ state_of h (pierrefs_mknod ctx dir d mode rdev) s
       = state_of h (unlink_whiteout ctx path) s1.
Proof.
  unfold trace_of, result_of, state_of, pierrefs_mknod.
  exec h; intros Hres; tests; try lia; try discriminate Hres;
    match goal with
    | E : run h (unlink_whiteout _ _) ?s1 = _ |- _ =>
        do 7 eexists; exists s1; rewrite E; simpl; rewrite ?app_nil_r;
        (split; [eassumption|]); split; reflexivity
    end.
Qed.

Lemma symlink_success symname :
  result_of h (pierrefs_symlink ctx dir d symname) s = 0 ->
  exists e1 to e2 buf e3 e4 real r s1,
    0 <= r
    /\ trace_of h (pierrefs_symlink ctx dir d symname) s
       = [E_get_relative_path_for_file dir d 1 e1 to;
          E_find_file to 0 e2 buf;
          E_can_create to (fst (make_rw_path ctx to)) e3;
          E_find_path to true e4 real;
          E_symlink_worker symname real r]
         ++ trace_of h (unlink_whiteout ctx to) s1
    /\ state_of h (pierrefs_symlink ctx dir d symname) s
       = state_of h (unlink_whiteout ctx to) s1.
Proof.
  unfold trace_of, result_of, state_of, pierrefs_symlink.
  exec h; intros Hres; tests; try lia; try discriminate Hres;
    match goal with
    | E : run h (unlink_whiteout _ _) ?s1 = _,
      M : make_rw_path _ _ = _ |- _ =>
        do 8 eexists; exists s1; rewrite E, M; simpl; rewrite ?app_nil_r;
        (split; [eassumption|]); split; reflexivity
    end.
Qed.

End Recreate.

(** ** C1: the runs of the worker *)

Section WorkerRuns.
Context {S : Type}.
Variable h : handler S.
Variable s : S.

Lemma worker_run_success wh_path :
  result_of h (create_whiteout_worker wh_path) s = 0 ->
  exists f,
    trace_of h (create_whiteout_worker wh_path) s
    = [E_creat_worker wh_path S_IRUSR (Ptr f);
       E_notify_change (KInode (d_inode (f_dentry f)))
         (Iattr (Z.lor ATTR_UID ATTR_GID) 0 0 0) 0].
Proof.
  unfold trace_of, result_of, create_whiteout_worker.
  exec h; intros Hres; tests; subst; try discriminate Hres;
    try contradiction.
  eexists. reflexivity.
Qed.

Lemma worker_run_failure wh_path :
  result_of h (create_whiteout_worker wh_path) s <> 0 ->
  (exists e,
      trace_of h (create_whiteout_worker wh_path) s
      = [E_creat_worker wh_path S_IRUSR (ERR_PTR e)]
      /\ result_of h (create_whiteout_worker wh_path) s = PTR_ERR e)
  \/ (exists f c u,
         trace_of h (create_whiteout_worker wh_path) s
         = [E_creat_worker wh_path S_IRUSR (Ptr f);
            E_notify_change (KInode (d_inode (f_dentry f)))
              (Iattr (Z.lor ATTR_UID ATTR_GID) 0 0 0)
              (result_of h (create_whiteout_worker wh_path) s);
            E_dget (f_dentry f);
            E_filp_close f c;
            E_vfs_unlink (d_inode (f_dentry f)) (f_dentry f) u;
            E_dput (f_dentry f)]).
Proof.
  unfold trace_of, result_of, create_whiteout_worker.
  exec h; intros Hres; tests; subst; try contradiction.
  - right. do 3 eexists. reflexivity.
  - left. eexists. split; reflexivity.
Qed.

End WorkerRuns.

(** ** The in-memory model: what its calls guarantee *)

Module MemFSFacts.
Import MemFS.

Lemma pop_fault_keeps w e w' :
  pop_fault w = (e, w') ->
  names w' = names w /\ inodes w' = inodes w
  /\ match e with Some x => x < 0 | None => True end
  /\ (faults w = [] -> e = None /\ faults w' = []).
Proof.
  unfold pop_fault. destruct (faults w) as [|x l] eqn:Hf.
  - intros [= <- <-]. now rewrite Hf.
  - destruct (x <? 0) eqn:Hx; intros [= <- <-]; simpl;
      repeat split; try easy. now apply Z.ltb_lt.
Qed.

Lemma with_fault_inv {X : Type} (on_err : Z -> X) k w x w' :
  with_fault on_err k w = (x, w') ->
  (exists e, e < 0 /\ x = on_err e
             /\ names w' = names w /\ inodes w' = inodes w
             /\ faults w <> [])
  \/ (exists w1, names w1 = names w /\ inodes w1 = inodes w
                 /\ (faults w = [] -> faults w1 = [])
                 /\ k w1 = (x, w')).
Proof.
  unfold with_fault. destruct (pop_fault w) as [[e|] w1] eqn:Hp;
    destruct (pop_fault_keeps _ _ _ Hp) as (Hn & Hi & He & Hf).
  - intros [= <- <-]. left. exists e. repeat split; try easy.
    intros Hnil. now destruct (Hf Hnil).
  - intros Hk. right. exists w1. repeat split; try easy.
    intros Hnil. now destruct (Hf Hnil).
Qed.

Section Calls.
Context `{pierrefs_h}.
Variable ctx : pierrefs_context.

Lemma get_path_dentry_spec p flag w x w' :
  kernel ctx _ (Get_path_dentry p flag) w = (x, w') ->
  names w' = names w /\ inodes w' = inodes w
  /\ (forall t, x = Ptr t -> d_path t = p /\ names w !! p = Some (d_inode t))
  /\ (names w !! p = None -> exists e, x = ERR_PTR e)
  /\ (names w !! p = None -> faults w = [] -> x = ERR_PTR (Z.to_pos ENOENT)).
Proof.
  intros Hk. apply with_fault_inv in Hk
    as [(e & He & -> & Hn & Hi & Hf) | (w1 & Hn & Hi & Hf & Hk)].
  - repeat split; try easy. intros _. now eexists.
  - injection Hk as <- <-. unfold lookup_m. rewrite Hn.
    destruct (names w !! p) as [i|] eqn:Hp;
      (split; [easy|]); (split; [easy|]); split.
    + now intros t [= <-].
    + split; intros; discriminate.
    + intros t Ht; discriminate.
    + split; intros; [eexists|]; reflexivity.
Qed.

Lemma vfs_unlink_spec dir d w r w' :
  kernel ctx _ (Vfs_unlink dir d) w = (r, w') ->
  inodes w' = inodes w
  /\ (r = 0 -> names w' = delete (d_path d) (names w))
  /\ (r <> 0 -> names w' = names w).
Proof.
  intros Hk. apply with_fault_inv in Hk
    as [(e & He & -> & Hn & Hi & Hf) | (w1 & Hn & Hi & Hf & Hk)].
  - unfold id. repeat split; try easy. lia.
  - unfold vfs_unlink_m in Hk. rewrite Hn in Hk.
    destruct (names w !! d_path d); injection Hk as <- <-; simpl;
      repeat split; try easy; unfold ENOENT; lia.
Qed.

Lemma dget_spec d w u w' : kernel ctx _ (Dget d) w = (u, w') -> w' = w.
Proof. now intros [= <-]. Qed.

Lemma dput_spec d w u w' : kernel ctx _ (Dput d) w = (u, w') -> w' = w.
Proof. now intros [= <-]. Qed.

Lemma filp_close_spec f w r w' :
  kernel ctx _ (Filp_close f) w = (r, w') ->
  names w' = names w /\ inodes w' = inodes w.
Proof.
  intros Hk. apply with_fault_inv in Hk
    as [(e & He & -> & Hn & Hi & Hf) | (w1 & Hn & Hi & Hf & Hk)].
  - easy.
  - now injection Hk as <- <-.
Qed.

Lemma creat_worker_spec p mode w f w' :
  kernel ctx _ (Creat_worker p mode) w = (Ptr f, w') ->
  d_path (f_dentry f) = p
  /\ names w' !! p = Some (d_inode (f_dentry f)).
Proof.
  intros Hk. apply with_fault_inv in Hk
    as [(e & He & Hx & Hn & Hi & Hf) | (w1 & Hn & Hi & Hf & Hk)].
  - discriminate Hx.
  - unfold creat_m in Hk. destruct (names w1 !! p) as [i|] eqn:Hp.
    + injection Hk as <- <-. now split.
    + injection Hk as <- <-. simpl. split; [reflexivity|].
      apply lookup_insert_eq.
Qed.

Lemma notify_change_spec o a w r w' :
  kernel ctx _ (Notify_change o a) w = (r, w') ->
  names w' = names w
  /\ (r = 0 ->
      exists n, inodes w' !! kobj_inode o = Some (apply_attr a n)).
Proof.
  intros Hk. apply with_fault_inv in Hk
    as [(e & He & -> & Hn & Hi & Hf) | (w1 & Hn & Hi & Hf & Hk)].
  - unfold id. split; [easy | lia].
  - unfold notify_change_m in Hk.
    destruct (inodes w1 !! kobj_inode o) as [n|] eqn:Hi1;
      injection Hk as <- <-; simpl; (split; [easy|]).
    + intros _. exists n. apply lookup_insert_eq.
    + unfold ENOENT; lia.
Qed.




End Calls.
End MemFSFacts.

(** ** C1: who owns a whiteout *)

#[local] Arguments MemFS.kernel : simpl never.

Section WhiteoutOwner.
Import MemFS MemFSFacts.
Context `{pierrefs_h}.
Variable ctx : pierrefs_context.

Lemma worker_success_owner wh_path w :
  result_of (kernel ctx) (create_whiteout_worker wh_path) w = 0 ->
  exists n,
    node_at wh_path (state_of (kernel ctx) (create_whiteout_worker wh_path) w)
    = Some n
    /\ n_uid n = 0 /\ n_gid n = 0.
Proof.
  unfold result_of, state_of, create_whiteout_worker.
  exec (kernel ctx); intros Hres; tests; try discriminate Hres;
    try contradiction.
  match goal with
  | Hc : kernel ctx _ (Creat_worker _ _) _ = _,
    Hn : kernel ctx _ (Notify_change _ _) _ = _ |- _ =>
      apply creat_worker_spec in Hc as [Hp Hname];
      apply notify_change_spec in Hn as [Hnames Hattr];
      destruct (Hattr Hres) as [n Hi]
  end.
  exists (apply_attr (Iattr (Z.lor ATTR_UID ATTR_GID) 0 0 0) n).
  unfold node_at. rewrite Hnames, Hname. simpl in *. rewrite Hi.
  repeat split.
Qed.

Lemma worker_failure_cleanup wh_path w f o a e :
  let tr := trace_of (kernel ctx) (create_whiteout_worker wh_path) w in
  let w' := state_of (kernel ctx) (create_whiteout_worker wh_path) w in
  In (E_creat_worker wh_path S_IRUSR (Ptr f)) tr ->
  In (E_notify_change o a e) tr ->
  e <> 0 ->
  result_of (kernel ctx) (create_whiteout_worker wh_path) w = e
  /\ exists u,
      In (E_vfs_unlink (d_inode (f_dentry f)) (f_dentry f) u) tr
      /\ (u = 0 -> names w' !! wh_path = None)
      /\ (u <> 0 -> names w' !! wh_path = Some (d_inode (f_dentry f))).
Proof.
  unfold trace_of, result_of, state_of, create_whiteout_worker.
  exec (kernel ctx); intros Hc Hn He; members; tests; try contradiction.
  split; [reflexivity|].
  repeat match goal with
  | Hk : kernel ctx _ (Creat_worker _ _) _ = _ |- _ =>
      apply creat_worker_spec in Hk as [Hp Hname]
  | Hk : kernel ctx _ (Notify_change _ _) _ = _ |- _ =>
      apply notify_change_spec in Hk as [Hnn _]
  | Hk : kernel ctx _ (Dget _) _ = _ |- _ => apply dget_spec in Hk; subst
  | Hk : kernel ctx _ (Dput _) _ = _ |- _ => apply dput_spec in Hk; subst
  | Hk : kernel ctx _ (Filp_close _) _ = _ |- _ =>
      apply filp_close_spec in Hk as [Hcn _]
  | Hk : kernel ctx _ (Vfs_unlink _ _) _ = _ |- _ =>
      apply vfs_unlink_spec in Hk as (_ & Hu0 & Hu1)
  end.
  eexists; split; [simpl; eauto 10|]. simpl. split; intros Hu.
  - rewrite (Hu0 Hu), Hp. apply lookup_delete_eq.
  - rewrite (Hu1 Hu), Hcn, Hnn. assumption.
Qed.

#[local] Opaque create_whiteout_worker.

Lemma create_whiteout_success_owner path buf w :
  let res := result_of (kernel ctx) (create_whiteout ctx path buf) w in
  fst res = 0 ->
  exists n,
    node_at (snd res) (state_of (kernel ctx) (create_whiteout ctx path buf) w)
    = Some n
    /\ n_uid n = 0 /\ n_gid n = 0.
Proof.
  unfold result_of, state_of, create_whiteout.
  exec (kernel ctx); intros Hres; tests; try discriminate Hres; try lia.
  match goal with
  | E : run _ (create_whiteout_worker ?p) ?w1 = _ |- _ =>
      pose proof (worker_success_owner p w1) as Hw;
      unfold result_of, state_of in Hw; rewrite E in Hw; simpl in Hw
  end.
  simpl in Hres. exact (Hw Hres).
Qed.

#[local] Transparent create_whiteout_worker.

End WhiteoutOwner.

(** ** C2 and C7: removing a whiteout *)

Section RemoveWhiteout.
Import MemFS MemFSFacts.
Context `{pierrefs_h}.
Variable ctx : pierrefs_context.
Hypothesis root_fits :
  Z.of_nat (String.length (read_write_branch ctx)) < PATH_MAX.

(** With a branch root that fits, [unlink_whiteout] looks up the reserved
    name of the path. *)
Lemma unlink_whiteout_on_marker {S : Type} (h : handler S) path wh s :
  marker_name ctx ".wh." path = Some wh ->
  run h (unlink_whiteout ctx path) s =
  run h (let* dentry := do (Get_path_dentry wh LOOKUP_REVAL) in
         match dentry with
         | ERR_PTR e => Ret (PTR_ERR e)
         | Ptr dentry =>
             let* err := do (Vfs_unlink (d_inode dentry) dentry) in
             let* _ := do (Dput dentry) in
             Ret err
         end) s.
Proof.
  unfold marker_name, unlink_whiteout.
  destruct (strrchr path "/") as [i|]; [|discriminate].
  intros [= <-]. rewrite (snprintf_fits _ root_fits).
  rewrite (root_not_too_long _ root_fits).
  unfold strcat, strncat. now rewrite !append_assoc.
Qed.

Lemma unlink_whiteout_success_run {S : Type} (h : handler S) path wh s :
  marker_name ctx ".wh." path = Some wh ->
  result_of h (unlink_whiteout ctx path) s = 0 ->
  exists d,
    trace_of h (unlink_whiteout ctx path) s
    = [E_get_path_dentry wh LOOKUP_REVAL (Ptr d);
       E_vfs_unlink (d_inode d) d 0;
       E_dput d].
Proof.
  intros Hm. unfold trace_of, result_of.
  rewrite (unlink_whiteout_on_marker _ _ _ _ Hm).
  exec h; intros Hres; subst; try discriminate Hres.
  eexists. reflexivity.
Qed.

Lemma unlink_absent_whiteout path wh w :
  marker_name ctx ".wh." path = Some wh ->
  names w !! wh = None ->
  result_of (kernel ctx) (unlink_whiteout ctx path) w < 0
  /\ (faults w = [] ->
      result_of (kernel ctx) (unlink_whiteout ctx path) w = - ENOENT)
  /\ names (state_of (kernel ctx) (unlink_whiteout ctx path) w) = names w
  /\ inodes (state_of (kernel ctx) (unlink_whiteout ctx path) w) = inodes w.
Proof.
  intros Hm Habs. unfold result_of, state_of.
  rewrite (unlink_whiteout_on_marker _ _ _ _ Hm).
  simpl. destruct (kernel ctx _ (Get_path_dentry wh LOOKUP_REVAL) w)
    as [x w1] eqn:Hk.
  apply get_path_dentry_spec in Hk as (Hn & Hi & _ & He & Hnf).
  destruct (He Habs) as [e ->]. simpl. repeat split; try easy.
  intros Hf. now injection (Hnf Habs Hf) as ->.
Qed.

Lemma unlink_whiteout_removes path wh w :
  marker_name ctx ".wh." path = Some wh ->
  result_of (kernel ctx) (unlink_whiteout ctx path) w = 0 ->
  names (state_of (kernel ctx) (unlink_whiteout ctx path) w) !! wh = None.
Proof.
  intros Hm. unfold result_of, state_of.
  rewrite (unlink_whiteout_on_marker _ _ _ _ Hm).
  exec (kernel ctx); intros Hres; try discriminate Hres.
  repeat match goal with
  | Hk : kernel ctx _ (Get_path_dentry _ _) _ = _ |- _ =>
      apply get_path_dentry_spec in Hk as (_ & _ & Hd & _);
      destruct (Hd _ eq_refl) as [Hp _]
  | Hk : kernel ctx _ (Dput _) _ = _ |- _ => apply dput_spec in Hk; subst
  | Hk : kernel ctx _ (Vfs_unlink _ _) _ = _ |- _ =>
      apply vfs_unlink_spec in Hk as (_ & Hu0 & _)
  end.
  rewrite (Hu0 Hres), Hp. apply lookup_delete_eq.
Qed.

End RemoveWhiteout.

(** ** C5: the inode an attribute change reaches *)

Section SetattrInode.
Import MemFS MemFSFacts.
Context `{pierrefs_h}.
Variable ctx : pierrefs_context.


End SetattrInode.

(** ** The in-memory model at work *)

Module Scenarios.
Import MemFS Examples.
#[local] Transparent make_rw_path snprintf_s.

(** The scenario of section 8: deleting "/file.txt", present on both
    branches, removes "/rw/file.txt" and leaves "/rw/.wh.file.txt", owned
    by root; the path no longer resolves. *)
Example delete_leaves_whiteout :
  let w := state_of (kernel example_ctx)
             (unlink_rw_file example_ctx "/file.txt" "/rw/file.txt" 0)
             (both []) in
  names w !! "/rw/file.txt" = None
  /\ node_at "/rw/.wh.file.txt" w = Some (Node (Z.lor S_IFREG S_IRUSR) 0 0 "")
  /\ fst (find_file_m example_ctx "/file.txt" 0 w) = - ENOENT.
Proof. vm_compute. repeat split. Qed.

(** A link to an object of the read-only branch is a symbolic link whose
    text is the read-only name. *)
Example link_to_read_only :
  node_at "/rw/new"
    (state_of (kernel example_ctx)
       (pierrefs_link example_ctx file_txt root_ino fresh) (ro_only []))
  = Some (Node (Z.lor S_IFLNK 511) 1000 1000 "/ro/file.txt").
Proof. vm_compute. reflexivity. Qed.

(** A link to an object of the read-write branch is a second name for its
    inode. *)
Example link_to_read_write :
  let w := state_of (kernel example_ctx)
             (pierrefs_link example_ctx file_txt root_ino fresh) (both []) in
  names w !! "/rw/new" = Some 2%nat
  /\ names w !! "/rw/file.txt" = Some 2%nat.
Proof. vm_compute. split; reflexivity. Qed.

(** A chown of a read-only object is recorded next to it on the read-write
    branch; the original keeps its owner and nothing is copied up. *)
Example chown_of_read_only :
  let w := state_of (kernel example_ctx)
             (pierrefs_setattr file_txt chown_attr) (ro_only []) in
  node_at "/ro/file.txt" w = Some (file_node 1000 1000)
  /\ node_at "/rw/.me.file.txt" w = Some (file_node 7 7)
  /\ names w !! "/rw/file.txt" = None.
Proof. vm_compute. repeat split. Qed.

(** A chown of a read-write object changes the object, the dentry of the
    request standing for it. *)
Example chown_of_read_write :
  let w := state_of (kernel example_ctx)
             (pierrefs_setattr file_txt chown_attr) (both []) in
  node_at "/rw/file.txt" w = Some (file_node 7 7)
  /\ names w !! "/rw/.me.file.txt" = None.
Proof. vm_compute. repeat split. Qed.

(** A directory cannot be made: the stub that should hide the content of
    the read-only directory fails, and the new directory is removed
    again. *)
Example mkdir_is_undone :
  let run1 := run (kernel example_ctx)
                (pierrefs_mkdir example_ctx root_ino fresh 493) (ro_only []) in
  snd (fst run1) = - EINVAL
  /\ names (snd run1) !! "/rw/new" = None.
Proof. vm_compute. split; reflexivity. Qed.

End Scenarios.

(** * The claims *)

Import MemFS Examples.
#[local] Transparent make_rw_path snprintf_s.

(** C1. Under every handler, [create_whiteout_worker] returns 0 only after
    [creat_worker] gave a file and [notify_change] on its inode, asking
    for uid 0 and gid 0, returned 0; when it returns an error, either
    [creat_worker] failed, or the change of owner failed and the file was
    closed and [vfs_unlink] called on it, whatever that call returned.
    In the in-memory model, under every script of failures: when
    [create_whiteout_worker] or [create_whiteout] returns 0, the marker
    exists and belongs to uid 0 and gid 0; when the change of owner fails
    with [e] on a marker that was created, the worker returns [e], and
    the marker is gone if the unlink returned 0 and is still there if it
    did not. *)
Theorem whiteout_owner_or_cleanup `{pierrefs_h} (ctx : pierrefs_context) :
  (forall (S : Type) (h : handler S) (s : S) wh_path,
      (result_of h (create_whiteout_worker wh_path) s = 0 ->
       exists f,
         trace_of h (create_whiteout_worker wh_path) s
         = [E_creat_worker wh_path S_IRUSR (Ptr f);
            E_notify_change (KInode (d_inode (f_dentry f)))
              (Iattr (Z.lor ATTR_UID ATTR_GID) 0 0 0) 0])
      /\ (result_of h (create_whiteout_worker wh_path) s <> 0 ->
          (exists e,
              trace_of h (create_whiteout_worker wh_path) s
              = [E_creat_worker wh_path S_IRUSR (ERR_PTR e)]
              /\ result_of h (create_whiteout_worker wh_path) s = PTR_ERR e)
          \/ (exists f c u,
                 trace_of h (create_whiteout_worker wh_path) s
                 = [E_creat_worker wh_path S_IRUSR (Ptr f);
                    E_notify_change (KInode (d_inode (f_dentry f)))
                      (Iattr (Z.lor ATTR_UID ATTR_GID) 0 0 0)
                      (result_of h (create_whiteout_worker wh_path) s);
                    E_dget (f_dentry f);
                    E_filp_close f c;
                    E_vfs_unlink (d_inode (f_dentry f)) (f_dentry f) u;
                    E_dput (f_dentry f)])))
  /\ (forall (w : world) wh_path,
         result_of (kernel ctx) (create_whiteout_worker wh_path) w = 0 ->
         exists n,
           node_at wh_path
             (state_of (kernel ctx) (create_whiteout_worker wh_path) w)
           = Some n
           /\ n_uid n = 0 /\ n_gid n = 0)
  /\ (forall (w : world) path buf,
         fst (result_of (kernel ctx) (create_whiteout ctx path buf) w) = 0 ->
         exists n,
           node_at (snd (result_of (kernel ctx)
                           (create_whiteout ctx path buf) w))
             (state_of (kernel ctx) (create_whiteout ctx path buf) w) = Some n
           /\ n_uid n = 0 /\ n_gid n = 0)
  /\ (forall (w : world) wh_path f o a e,
         In (E_creat_worker wh_path S_IRUSR (Ptr f))
            (trace_of (kernel ctx) (create_whiteout_worker wh_path) w) ->
         In (E_notify_change o a e)
            (trace_of (kernel ctx) (create_whiteout_worker wh_path) w) ->
         e <> 0 ->
         result_of (kernel ctx) (create_whiteout_worker wh_path) w = e
         /\ exists u,
             In (E_vfs_unlink (d_inode (f_dentry f)) (f_dentry f) u)
                (trace_of (kernel ctx) (create_whiteout_worker wh_path) w)
             /\ (u = 0 ->
                 names (state_of (kernel ctx)
                          (create_whiteout_worker wh_path) w) !! wh_path
                 = None)
             /\ (u <> 0 ->
                 names (state_of (kernel ctx)
                          (create_whiteout_worker wh_path) w) !! wh_path
                 = Some (d_inode (f_dentry f)))).
Proof.
  split; [|split; [|split]].
  - intros S h s wh_path. split.
    + apply worker_run_success.
    + apply worker_run_failure.
  - intros w wh_path. apply worker_success_owner.
  - intros w path buf. apply create_whiteout_success_owner.
  - intros w wh_path f o a e. apply worker_failure_cleanup.
Qed.

(** C1, an instance: the whiteout of "/file.txt" created in a world where
    nothing fails belongs to root. *)
Lemma whiteout_owner_or_cleanup_witness :
  exists n,
    node_at "/rw/.wh.file.txt"
      (state_of (kernel example_ctx)
         (create_whiteout_worker "/rw/.wh.file.txt") (ro_only [])) = Some n
    /\ n_uid n = 0 /\ n_gid n = 0.
Proof.
  apply (proj1 (proj2 (whiteout_owner_or_cleanup example_ctx)) (ro_only [])
           "/rw/.wh.file.txt").
  vm_compute. reflexivity.
Defined.

(** C1 does not hold as stated: the change of owner fails with EPERM and
    the unlink that should undo the creation fails with EIO; the error is
    returned and the marker stays, owned by uid 1000. *)
Lemma whiteout_left_to_caller :
  let run1 := run (kernel example_ctx)
                (create_whiteout example_ctx "/file.txt" "")
                (ro_only [0; 0; - EPERM; 0; - EIO]) in
  snd (fst run1) = (- EPERM, "/rw/.wh.file.txt")
  /\ node_at "/rw/.wh.file.txt" (snd run1)
     = Some (Node (Z.lor S_IFREG S_IRUSR) 1000 1000 "").
Proof. vm_compute. split; reflexivity. Qed.

(** C2. When the branch root fits, [wh] being the reserved name of the
    path: under every handler, [unlink_whiteout] returns 0 only after the
    lookup of [wh] gave a dentry and [vfs_unlink] on it returned 0; and in
    the in-memory model, when no object is named [wh], it returns a
    negative errno, the one of the failed lookup (ENOENT unless the script
    injects another), and changes neither the names nor the inodes. *)
Theorem unlink_whiteout_absent_is_error `{pierrefs_h}
  (ctx : pierrefs_context) (path wh : string) :
  Z.of_nat (String.length (read_write_branch ctx)) < PATH_MAX ->
  marker_name ctx ".wh." path = Some wh ->
  (forall (S : Type) (h : handler S) (s : S),
      result_of h (unlink_whiteout ctx path) s = 0 ->
      exists d,
        trace_of h (unlink_whiteout ctx path) s
        = [E_get_path_dentry wh LOOKUP_REVAL (Ptr d);
           E_vfs_unlink (d_inode d) d 0;
           E_dput d])
  /\ (forall w : world,
         names w !! wh = None ->
         result_of (kernel ctx) (unlink_whiteout ctx path) w < 0
         /\ (faults w = [] ->
             result_of (kernel ctx) (unlink_whiteout ctx path) w = - ENOENT)
         /\ names (state_of (kernel ctx) (unlink_whiteout ctx path) w)
            = names w
         /\ inodes (state_of (kernel ctx) (unlink_whiteout ctx path) w)
            = inodes w).
Proof.
  intros Hroot Hm. split.
  - intros S h s. now apply unlink_whiteout_success_run.
  - intros w. now apply unlink_absent_whiteout.
Qed.

(** C2, an instance: "/file.txt" has no whiteout. *)
Lemma unlink_whiteout_absent_is_error_witness :
  result_of (kernel example_ctx) (unlink_whiteout example_ctx "/file.txt")
    (both []) = - ENOENT.
Proof.
  refine (proj1 (proj2 (proj2 (unlink_whiteout_absent_is_error example_ctx
                                 "/file.txt" "/rw/.wh.file.txt" _ _)
                          (both []) _)) _); reflexivity.
Defined.

(** C2 does not hold as stated: removing the whiteout of "/gone" twice in a
    row, the first call returns 0 and the second returns -ENOENT. *)
Lemma unlink_whiteout_not_idempotent :
  let first := run (kernel example_ctx) (unlink_whiteout example_ctx "/gone")
                 (whiteouted []) in
  let second := run (kernel example_ctx) (unlink_whiteout example_ctx "/gone")
                  (snd first) in
  snd (fst first) = 0
  /\ names (snd first) !! "/rw/.wh.gone" = None
  /\ snd (fst second) = - ENOENT
  /\ snd (fst second) <> 0.
Proof. vm_compute. repeat split; discriminate. Qed.

(** C3. Under every handler, with the answers it gives named: once the
    path of the target has been obtained, [pierrefs_mkdir],
    [pierrefs_mknod] and [pierrefs_symlink] look it up with [find_file] as
    their second call; if the lookup answers a value that is not negative
    it is the last call, the operation returns -EEXIST and leaves the
    state the lookup left; and a run that makes a creating call has
    obtained the path and was answered a negative value by the lookup.
    The same holds for [pierrefs_link], where the path of the target and
    its lookup are the third and fourth calls, made once the source has
    been found. *)
Theorem create_family_refuses_existing `{pierrefs_h}
  (ctx : pierrefs_context) {S : Type} (h : handler S) (s : S) :
  (forall dir d mode,
      let a1 := h _ (Get_relative_path_for_file dir d 1) s in
      let path := snd (fst a1) in
      let a2 := h _ (Find_file path 0) (snd a1) in
      let r := fst (fst a2) in
      (0 <= fst (fst a1) ->
       exists rest,
         trace_of h (pierrefs_mkdir ctx dir d mode) s
         = E_get_relative_path_for_file dir d 1 (fst (fst a1)) path
             :: E_find_file path 0 r (snd (fst a2)) :: rest
         /\ (0 <= r ->
             rest = []
             /\ result_of h (pierrefs_mkdir ctx dir d mode) s = - EEXIST
             /\ state_of h (pierrefs_mkdir ctx dir d mode) s = snd a2))
      /\ (existsb is_creation (trace_of h (pierrefs_mkdir ctx dir d mode) s)
          = true ->
          0 <= fst (fst a1) /\ r < 0))
  /\ (forall dir d mode rdev,
         let a1 := h _ (Get_relative_path_for_file dir d 1) s in
         let path := snd (fst a1) in
         let a2 := h _ (Find_file path 0) (snd a1) in
         let r := fst (fst a2) in
         (0 <= fst (fst a1) ->
          exists rest,
            trace_of h (pierrefs_mknod ctx dir d mode rdev) s
            = E_get_relative_path_for_file dir d 1 (fst (fst a1)) path
                :: E_find_file path 0 r (snd (fst a2)) :: rest
            /\ (0 <= r ->
                rest = []
                /\ result_of h (pierrefs_mknod ctx dir d mode rdev) s
                   = - EEXIST
                /\ state_of h (pierrefs_mknod ctx dir d mode rdev) s
                   = snd a2))
         /\ (existsb is_creation
               (trace_of h (pierrefs_mknod ctx dir d mode rdev) s) = true ->
             0 <= fst (fst a1) /\ r < 0))
  /\ (forall dir d symname,
         let a1 := h _ (Get_relative_path_for_file dir d 1) s in
         let path := snd (fst a1) in
         let a2 := h _ (Find_file path 0) (snd a1) in
         let r := fst (fst a2) in
         (0 <= fst (fst a1) ->
          exists rest,
            trace_of h (pierrefs_symlink ctx dir d symname) s
            = E_get_relative_path_for_file dir d 1 (fst (fst a1)) path
                :: E_find_file path 0 r (snd (fst a2)) :: rest
            /\ (0 <= r ->
                rest = []
                /\ result_of h (pierrefs_symlink ctx dir d symname) s
                   = - EEXIST
                /\ state_of h (pierrefs_symlink ctx dir d symname) s
                   = snd a2))
         /\ (existsb is_creation
               (trace_of h (pierrefs_symlink ctx dir d symname) s) = true ->
             0 <= fst (fst a1) /\ r < 0))
  /\ (forall old dir d,
         let a1 := h _ (Get_relative_path None old 1) s in
         let from := snd (fst a1) in
         let a2 := h _ (Find_file from 0) (snd a1) in
         let a3 := h _ (Get_relative_path_for_file dir d 1) (snd a2) in
         let to := snd (fst a3) in
         let a4 := h _ (Find_file to 0) (snd a3) in
         let r := fst (fst a4) in
         (0 <= fst (fst a1) -> 0 <= fst (fst a2) -> 0 <= fst (fst a3) ->
          exists rest,
            trace_of h (pierrefs_link ctx old dir d) s
            = E_get_relative_path None old 1 (fst (fst a1)) from
                :: E_find_file from 0 (fst (fst a2)) (snd (fst a2))
                :: E_get_relative_path_for_file dir d 1 (fst (fst a3)) to
                :: E_find_file to 0 r (snd (fst a4)) :: rest
            /\ (0 <= r ->
                rest = []
                /\ result_of h (pierrefs_link ctx old dir d) s = - EEXIST
                /\ state_of h (pierrefs_link ctx old dir d) s = snd a4))
         /\ (existsb is_creation (trace_of h (pierrefs_link ctx old dir d) s)
             = true ->
             0 <= fst (fst a1) /\ 0 <= fst (fst a2) /\ 0 <= fst (fst a3)
             /\ r < 0)).
Proof.
  split; [|split; [|split]].
  - intros dir d mode. apply mkdir_refuses_existing.
  - intros dir d mode rdev. apply mknod_refuses_existing.
  - intros dir d symname. apply symlink_refuses_existing.
  - intros old dir d. apply link_refuses_existing.
Qed.

(** C3, two instances.  "/file.txt" exists on the read-write branch, so a
    directory cannot be made there: the lookup is the last call.  "/new"
    exists nowhere, and the node made there follows a lookup that answered
    -ENOENT. *)
Lemma create_family_refuses_existing_witness :
  (exists rest,
      trace_of (kernel example_ctx)
        (pierrefs_mkdir example_ctx root_ino file_txt 493) (both [])
      = E_get_relative_path_for_file root_ino file_txt 1 0 "/file.txt"
          :: E_find_file "/file.txt" 0 READ_WRITE_COPYUP "/rw/file.txt"
          :: rest
      /\ rest = []
      /\ result_of (kernel example_ctx)
           (pierrefs_mkdir example_ctx root_ino file_txt 493) (both [])
         = - EEXIST)
  /\ fst (find_file_m example_ctx "/new" 0 (both [])) < 0.
Proof.
  split.
  - destruct (proj1 (proj1 (create_family_refuses_existing example_ctx
                              (kernel example_ctx) (both []))
                       root_ino file_txt 493))
      as (rest & Htr & Hex).
    + vm_compute. discriminate.
    + exists rest. split; [exact Htr|].
      destruct Hex as (Hrest & Hres & _); [vm_compute; discriminate|].
      split; assumption.
  - apply (proj2 (proj1 (proj2 (create_family_refuses_existing example_ctx
                                  (kernel example_ctx) (both [])))
                    root_ino fresh 4516 0)).
    vm_compute. reflexivity.
Defined.

(** C4. Under every handler, with the answers it gives named: when the
    request passes the checks of [pierrefs_link] (both paths obtained, the
    source found with state [origin] and concrete name [real_from], the
    target not found, [can_create] and [find_path] not negative), the
    seventh call is the creating one.  If [origin] is READ_ONLY it is
    [symlink_worker] with target [real_from], at the name [find_path]
    reported for the target.  If [origin] is READ_WRITE or
    READ_WRITE_COPYUP it is [link_worker] from [real_from] to the name
    [make_rw_path] composes for the target, which is the read-write root
    followed by the virtual path when that is a path name (shorter than
    PATH_MAX); when the composed name is longer than PATH_MAX nothing is
    created and -ENAMETOOLONG returned.  In both cases the result is the
    answer of the creating call when negative and 0 otherwise, and what
    follows it are calls of [unlink_whiteout] only: no other object is
    created and nothing is copied. *)
Theorem link_falls_back_to_symlink `{pierrefs_h} (ctx : pierrefs_context)
  {S : Type} (h : handler S) (s : S) (old : dentry) (dir : inode)
  (d : dentry) :
  let a1 := h _ (Get_relative_path None old 1) s in
  let from := snd (fst a1) in
  let a2 := h _ (Find_file from 0) (snd a1) in
  let origin := fst (fst a2) in
  let real_from := snd (fst a2) in
  let a3 := h _ (Get_relative_path_for_file dir d 1) (snd a2) in
  let to := snd (fst a3) in
  let a4 := h _ (Find_file to 0) (snd a3) in
  let a5 := h _ (Can_create to (snd (fst a4))) (snd a4) in
  let a6 := h _ (Find_path to true) (snd a5) in
  let real_to := snd (fst a6) in
  let checks :=
    [E_get_relative_path None old 1 (fst (fst a1)) from;
     E_find_file from 0 origin real_from;
     E_get_relative_path_for_file dir d 1 (fst (fst a3)) to;
     E_find_file to 0 (fst (fst a4)) (snd (fst a4));
     E_can_create to (snd (fst a4)) (fst a5);
     E_find_path to true (fst (fst a6)) real_to] in
  let n := Z.of_nat (String.length (read_write_branch ctx +:+ to)) in
  0 <= fst (fst a1) -> 0 <= origin -> 0 <= fst (fst a3) ->
  fst (fst a4) < 0 -> 0 <= fst a5 -> 0 <= fst (fst a6) ->
  READ_ONLY <> READ_WRITE ->
  READ_ONLY <> READ_WRITE_COPYUP ->
  (origin = READ_ONLY ->
   exists r tail,
     trace_of h (pierrefs_link ctx old dir d) s
     = checks ++ E_symlink_worker real_from real_to r :: tail
     /\ result_of h (pierrefs_link ctx old dir d) s = (if r <? 0 then r else 0)
     /\ (r < 0 -> tail = [])
     /\ (forall e, In e tail -> is_unlink_step e = true))
  /\ (origin = READ_WRITE \/ origin = READ_WRITE_COPYUP ->
      (n < PATH_MAX ->
       fst (make_rw_path ctx to) = read_write_branch ctx +:+ to)
      /\ (n <= PATH_MAX ->
          exists r tail,
            trace_of h (pierrefs_link ctx old dir d) s
            = checks
              ++ E_link_worker real_from (fst (make_rw_path ctx to)) r :: tail
            /\ result_of h (pierrefs_link ctx old dir d) s
               = (if r <? 0 then r else 0)
            /\ (r < 0 -> tail = [])
            /\ (forall e, In e tail -> is_unlink_step e = true))
      /\ (PATH_MAX < n ->
          trace_of h (pierrefs_link ctx old dir d) s = checks
          /\ result_of h (pierrefs_link ctx old dir d) s = - ENAMETOOLONG)).
Proof.
  intros a1 from a2 origin real_from a3 to a4 a5 a6 real_to checks n
    He1 Ho He3 He4 He5 He6 Hrw Hcu.
  destruct (link_creates ctx h s old dir d He1 Ho He3 He4 He5 He6)
    as [Hro Hother].
  split; [exact Hro|].
  intros Horigin.
  assert (Hne : origin <> READ_ONLY) by (destruct Horigin; congruence).
  destruct (Hother Hne) as [Hfit Hlong].
  split; [apply make_rw_path_fits | split; assumption].
Qed.

(** C4, two instances.  "/file.txt" lives on the read-only branch only:
    the link "/new" to it is a symbolic link to "/ro/file.txt" made at
    "/rw/new".  "/file.txt" lives on both branches: the link "/new" is a
    hard link from "/rw/file.txt" to "/rw/new". *)
Lemma link_falls_back_to_symlink_witness :
  (exists r tail,
      trace_of (kernel example_ctx)
        (pierrefs_link example_ctx file_txt root_ino fresh) (ro_only [])
      = [E_get_relative_path None file_txt 1 0 "/file.txt";
         E_find_file "/file.txt" 0 READ_ONLY "/ro/file.txt";
         E_get_relative_path_for_file root_ino fresh 1 0 "/new";
         E_find_file "/new" 0 (- ENOENT) "/ro/new";
         E_can_create "/new" "/ro/new" 0;
         E_find_path "/new" true 0 "/rw/new"]
        ++ E_symlink_worker "/ro/file.txt" "/rw/new" r :: tail
      /\ result_of (kernel example_ctx)
           (pierrefs_link example_ctx file_txt root_ino fresh) (ro_only [])
         = (if r <? 0 then r else 0))
  /\ (exists r tail,
         trace_of (kernel example_ctx)
           (pierrefs_link example_ctx file_txt root_ino fresh) (both [])
         = [E_get_relative_path None file_txt 1 0 "/file.txt";
            E_find_file "/file.txt" 0 READ_WRITE_COPYUP "/rw/file.txt";
            E_get_relative_path_for_file root_ino fresh 1 0 "/new";
            E_find_file "/new" 0 (- ENOENT) "/ro/new";
            E_can_create "/new" "/ro/new" 0;
            E_find_path "/new" true 0 "/rw/new"]
           ++ E_link_worker "/rw/file.txt" "/rw/new" r :: tail
         /\ result_of (kernel example_ctx)
              (pierrefs_link example_ctx file_txt root_ino fresh) (both [])
            = (if r <? 0 then r else 0)).
Proof.
  split.
  - destruct (proj1 (link_falls_back_to_symlink example_ctx
                       (kernel example_ctx) (ro_only []) file_txt root_ino
                       fresh
                       ltac:(vm_compute; discriminate)
                       ltac:(vm_compute; discriminate)
                       ltac:(vm_compute; discriminate)
                       ltac:(vm_compute; reflexivity)
                       ltac:(vm_compute; discriminate)
                       ltac:(vm_compute; discriminate)
                       ltac:(vm_compute; discriminate)
                       ltac:(vm_compute; discriminate))
                ltac:(vm_compute; reflexivity))
      as (r & tail & Htr & Hres & _).
    exists r, tail. split; [exact Htr | exact Hres].
  - destruct (proj2 (link_falls_back_to_symlink example_ctx
                       (kernel example_ctx) (both []) file_txt root_ino
                       fresh
                       ltac:(vm_compute; discriminate)
                       ltac:(vm_compute; discriminate)
                       ltac:(vm_compute; discriminate)
                       ltac:(vm_compute; reflexivity)
                       ltac:(vm_compute; discriminate)
                       ltac:(vm_compute; discriminate)
                       ltac:(vm_compute; discriminate)
                       ltac:(vm_compute; discriminate))
                ltac:(right; vm_compute; reflexivity))
      as (_ & Hfit & _).
    destruct Hfit as (r & tail & Htr & Hres & _);
      [vm_compute; discriminate|].
    exists r, tail. split; [exact Htr | exact Hres].
Defined.




(** C6. Under every handler, when [unlink_rw_file] returns 0 its run is:
    the lookup of a read-only counterpart (made only if the caller did not
    assert one), [can_remove], the lookup of the read-write object, its
    unlink, which did not fail, and, exactly when the lookup of the
    counterpart answered a value that is not negative or the counterpart
    was asserted, one run of [create_whiteout] for the path, whose result
    plays no part: the final state is the one that run leaves.
    Conversely, with the answers of the handler named: when [can_remove]
    is not negative, the read-write object is found and its unlink is not
    negative, the function returns 0 after exactly that run. *)
Theorem unlink_rw_file_attempts_whiteout `{pierrefs_h}
  (ctx : pierrefs_context) {S : Type} (h : handler S) (s : S)
  (path rw_path : string) (has_ro_sure : Z) :
  (result_of h (unlink_rw_file ctx path rw_path has_ro_sure) s = 0 ->
   exists lookup has_ro e d r s1,
     (if has_ro_sure =? 0
      then exists r0 buf,
          lookup = [E_find_file path MUST_READ_ONLY r0 buf]
          /\ has_ro = (r0 >=? 0)
      else lookup = [] /\ has_ro = true)
     /\ 0 <= r
     /\ trace_of h (unlink_rw_file ctx path rw_path has_ro_sure) s
        = lookup
          ++ [E_can_remove path rw_path e;
              E_get_path_dentry rw_path LOOKUP_REVAL (Ptr d);
              E_vfs_unlink (d_inode d) d r;
              E_dput d]
          ++ (if has_ro
              then trace_of h (create_whiteout ctx path EmptyString) s1
              else [])
     /\ state_of h (unlink_rw_file ctx path rw_path has_ro_sure) s
        = (if has_ro
           then state_of h (create_whiteout ctx path EmptyString) s1
           else s1))
  /\ (forall dentry : dentry,
         let asked := has_ro_sure =? 0 in
         let a0 := h _ (Find_file path MUST_READ_ONLY) s in
         let has_ro := if asked then fst (fst a0) >=? 0 else true in
         let lookup :=
           if asked
           then [E_find_file path MUST_READ_ONLY (fst (fst a0))
                   (snd (fst a0))]
           else [] in
         let a1 :=
           h _ (Can_remove path rw_path) (if asked then snd a0 else s) in
         let a2 := h _ (Get_path_dentry rw_path LOOKUP_REVAL) (snd a1) in
         let a3 := h _ (Vfs_unlink (d_inode dentry) dentry) (snd a2) in
         let a4 := h _ (Dput dentry) (snd a3) in
         0 <= fst a1 -> fst a2 = Ptr dentry -> 0 <= fst a3 ->
         result_of h (unlink_rw_file ctx path rw_path has_ro_sure) s = 0
         /\ trace_of h (unlink_rw_file ctx path rw_path has_ro_sure) s
            = lookup
              ++ [E_can_remove path rw_path (fst a1);
                  E_get_path_dentry rw_path LOOKUP_REVAL (Ptr dentry);
                  E_vfs_unlink (d_inode dentry) dentry (fst a3);
                  E_dput dentry]
              ++ (if has_ro
                  then trace_of h (create_whiteout ctx path EmptyString)
                         (snd a4)
                  else [])
         /\ state_of h (unlink_rw_file ctx path rw_path has_ro_sure) s
            = (if has_ro
               then state_of h (create_whiteout ctx path EmptyString)
                      (snd a4)
               else snd a4)).
Proof.
  split.
  - apply unlink_rw_file_success.
  - intros dentry. apply unlink_rw_file_deletes.
Qed.

(** C6, an instance: deleting "/file.txt", present on both branches. *)
Lemma unlink_rw_file_attempts_whiteout_witness :
  (exists lookup has_ro e d r s1,
      (exists r0 buf,
          lookup = [E_find_file "/file.txt" MUST_READ_ONLY r0 buf]
          /\ has_ro = (r0 >=? 0))
      /\ 0 <= r
      /\ trace_of (kernel example_ctx)
           (unlink_rw_file example_ctx "/file.txt" "/rw/file.txt" 0)
           (both [])
         = lookup
           ++ [E_can_remove "/file.txt" "/rw/file.txt" e;
               E_get_path_dentry "/rw/file.txt" LOOKUP_REVAL (Ptr d);
               E_vfs_unlink (d_inode d) d r;
               E_dput d]
           ++ (if has_ro
               then trace_of (kernel example_ctx)
                      (create_whiteout example_ctx "/file.txt" EmptyString)
                      s1
               else [])
      /\ state_of (kernel example_ctx)
           (unlink_rw_file example_ctx "/file.txt" "/rw/file.txt" 0)
           (both [])
         = (if has_ro
            then state_of (kernel example_ctx)
                   (create_whiteout example_ctx "/file.txt" EmptyString) s1
            else s1))
  /\ result_of (kernel example_ctx)
       (unlink_rw_file example_ctx "/file.txt" "/rw/file.txt" 0) (both [])
     = 0.
Proof.
  split.
  - apply (proj1 (unlink_rw_file_attempts_whiteout example_ctx
                    (kernel example_ctx) (both []) "/file.txt"
                    "/rw/file.txt" 0)).
    vm_compute. reflexivity.
  - apply (proj2 (unlink_rw_file_attempts_whiteout example_ctx
                    (kernel example_ctx) (both []) "/file.txt"
                    "/rw/file.txt" 0)
             (Dentry "/rw/file.txt" 2%nat)).
    + vm_compute. discriminate.
    + vm_compute. reflexivity.
    + vm_compute. discriminate.
Defined.

(** C6 does not hold as stated, in two ways.  "/file.txt" is on both
    branches, the delete returns 0 and unlinks "/rw/file.txt", but
    [creat_worker] fails with ENOMEM and no whiteout exists afterwards.
    And when the lookup of the read-only counterpart fails with EIO, the
    delete returns 0 without a call of [create_whiteout] although
    "/ro/file.txt" exists: the path then resolves to the read-only
    original. *)
Lemma delete_without_whiteout :
  let w := both [0; 0; 0; 0; 0; - ENOMEM] in
  let run1 := run (kernel example_ctx)
                (unlink_rw_file example_ctx "/file.txt" "/rw/file.txt" 0) w in
  let w2 := both [- EIO] in
  let run2 := run (kernel example_ctx)
                (unlink_rw_file example_ctx "/file.txt" "/rw/file.txt" 0)
                w2 in
  (names w !! "/ro/file.txt" = Some 1%nat
   /\ snd (fst run1) = 0
   /\ names (snd run1) !! "/rw/file.txt" = None
   /\ names (snd run1) !! "/ro/file.txt" = Some 1%nat
   /\ names (snd run1) !! "/rw/.wh.file.txt" = None)
  /\ (names w2 !! "/ro/file.txt" = Some 1%nat
      /\ snd (fst run2) = 0
      /\ existsb is_marker_creation (fst (fst run2)) = false
      /\ names (snd run2) !! "/rw/file.txt" = None
      /\ names (snd run2) !! "/rw/.wh.file.txt" = None
      /\ find_file_m example_ctx "/file.txt" 0 (snd run2)
         = (READ_ONLY, "/ro/file.txt")).
Proof. vm_compute. repeat split. Qed.

(** C7. Under every handler, a [pierrefs_mknod] or [pierrefs_symlink] that
    returns 0 has created its object and then run [unlink_whiteout] on the
    path, without looking at what it returned: the final state is the one
    that run leaves.  [pierrefs_mkdir] never returns 0.  In the in-memory
    model, when the branch root fits, a run of [unlink_whiteout] that
    returns 0 leaves no object under the reserved name. *)
Theorem recreate_attempts_whiteout_removal `{pierrefs_h}
  (ctx : pierrefs_context) {S : Type} (h : handler S) (s : S)
  (dir : inode) (d : dentry) :
  (forall mode rdev,
      result_of h (pierrefs_mknod ctx dir d mode rdev) s = 0 ->
      exists e1 path e2 buf e3 real r s1,
        0 <= r
        /\ trace_of h (pierrefs_mknod ctx dir d mode rdev) s
           = [E_get_relative_path_for_file dir d 1 e1 path;
              E_find_file path 0 e2 buf;
              E_find_path path true e3 real;
              if S_ISFIFO mode then E_mkfifo real mode r
              else E_mknod real mode rdev r]
             ++ trace_of h (unlink_whiteout ctx path) s1
        /\ state_of h (pierrefs_mknod ctx dir d mode rdev) s
           = state_of h (unlink_whiteout ctx path) s1)
  /\ (forall symname,
         result_of h (pierrefs_symlink ctx dir d symname) s = 0 ->
         exists e1 to e2 buf e3 e4 real r s1,
           0 <= r
           /\ trace_of h (pierrefs_symlink ctx dir d symname) s
              = [E_get_relative_path_for_file dir d 1 e1 to;
                 E_find_file to 0 e2 buf;
                 E_can_create to (fst (make_rw_path ctx to)) e3;
                 E_find_path to true e4 real;
                 E_symlink_worker symname real r]
                ++ trace_of h (unlink_whiteout ctx to) s1
           /\ state_of h (pierrefs_symlink ctx dir d symname) s
              = state_of h (unlink_whiteout ctx to) s1)
  /\ (forall mode, result_of h (pierrefs_mkdir ctx dir d mode) s <> 0)
  /\ (forall (w : world) path wh,
         Z.of_nat (String.length (read_write_branch ctx)) < PATH_MAX ->
         marker_name ctx ".wh." path = Some wh ->
         result_of (kernel ctx) (unlink_whiteout ctx path) w = 0 ->
         names (state_of (kernel ctx) (unlink_whiteout ctx path) w) !! wh
         = None).
Proof.
  split; [|split; [|split]].
  - intros mode rdev. apply mknod_success.
  - intros symname. apply symlink_success.
  - intros mode. apply mkdir_never_succeeds.
  - intros w path wh Hroot. now apply unlink_whiteout_removes.
Qed.

(** C7, an instance: in a world where nothing fails, removing the whiteout
    of "/gone" leaves no "/rw/.wh.gone". *)
Lemma recreate_attempts_whiteout_removal_witness :
  names (state_of (kernel example_ctx) (unlink_whiteout example_ctx "/gone")
           (whiteouted [])) !! "/rw/.wh.gone" = None.
Proof.
  apply (proj2 (proj2 (proj2 (recreate_attempts_whiteout_removal example_ctx
                                (kernel example_ctx) (whiteouted []) root_ino
                                gone)))
           (whiteouted []) "/gone" "/rw/.wh.gone"); reflexivity.
Defined.

(** C7 does not hold as stated: "/gone" is hidden by a whiteout; the mknod
    of "/gone" returns 0 and creates "/rw/gone", the unlink of the whiteout
    fails with EACCES, and the whiteout is still there: the path still
    resolves to -ENOENT. *)
Lemma recreate_keeps_whiteout :
  let w := whiteouted [0; 0; 0; 0; 0; - EACCES] in
  let run1 := run (kernel example_ctx)
                (pierrefs_mknod example_ctx root_ino gone
                   (Z.lor S_IFREG 420) 0) w in
  names w !! "/rw/.wh.gone" = Some 2%nat
  /\ snd (fst run1) = 0
  /\ names (snd run1) !! "/rw/gone" = Some 3%nat
  /\ names (snd run1) !! "/rw/.wh.gone" = Some 2%nat
  /\ fst (find_file_m example_ctx "/gone" 0 (snd run1)) = - ENOENT.
Proof. vm_compute. repeat split. Qed.

(** C8. For a virtual path made of a directory part [d0 ++ "/"] and a leaf
    [leaf], [find_whiteout], [unlink_whiteout] and [create_whiteout] all
    work on the name made of the read-write branch root, the directory
    part with its separator, the token ".wh." and the leaf: it is the name
    handed to [vfs_lstat], to [get_path_dentry] and to [creat_worker], and
    the name left in the caller's buffer.  The branch root is a path name,
    hence shorter than [PATH_MAX]. *)
Theorem whiteout_marker_path (ctx : pierrefs_context) (d0 leaf : string) :
  strrchr leaf "/" = None ->
  Z.of_nat (String.length (read_write_branch ctx)) < PATH_MAX ->
  let dir := d0 +:+ "/" in
  let path := dir +:+ leaf in
  let marker := read_write_branch ctx +:+ dir +:+ ".wh." +:+ leaf in
  forall (S : Type) (h : handler S) (s : S) (buf : string),
    (exists r,
        trace_of h (find_whiteout ctx path buf) s = [E_vfs_lstat marker r]
        /\ result_of h (find_whiteout ctx path buf) s = (r, marker))
    /\ (exists r rest,
           trace_of h (unlink_whiteout ctx path) s
           = E_get_path_dentry marker LOOKUP_REVAL r :: rest)
    /\ snd (result_of h (create_whiteout ctx path buf) s) = marker
    /\ (forall p m r,
           In (E_creat_worker p m r)
              (trace_of h (create_whiteout ctx path buf) s) ->
           p = marker /\ m = S_IRUSR).
Proof.
  intros Hleaf Hroot dir path marker S h s buf.
  unfold trace_of, result_of. split; [|split; [|split]].
  - rewrite (find_whiteout_run ctx d0 leaf Hleaf Hroot). eauto.
  - rewrite (unlink_whiteout_run ctx d0 leaf Hleaf Hroot).
    fold dir path marker. exec h; eauto.
  - rewrite (create_whiteout_run ctx d0 leaf Hleaf Hroot).
    fold dir path marker. exec h; reflexivity.
  - intros p m r. rewrite (create_whiteout_run ctx d0 leaf Hleaf Hroot).
    fold dir path marker. unfold create_whiteout_worker.
    exec h; intros Hin; members; split; reflexivity.
Qed.

(** C8, an instance: the whiteout of "/file.txt" under "/rw" is
    "/rw/.wh.file.txt". *)
Lemma whiteout_marker_path_witness :
  (exists r,
      trace_of (kernel example_ctx)
        (find_whiteout example_ctx "/file.txt" "") (ro_only [])
      = [E_vfs_lstat "/rw/.wh.file.txt" r]
      /\ result_of (kernel example_ctx)
           (find_whiteout example_ctx "/file.txt" "") (ro_only [])
         = (r, "/rw/.wh.file.txt"))
  /\ (exists r rest,
         trace_of (kernel example_ctx)
           (unlink_whiteout example_ctx "/file.txt") (ro_only [])
         = E_get_path_dentry "/rw/.wh.file.txt" LOOKUP_REVAL r :: rest)
  /\ snd (result_of (kernel example_ctx)
            (create_whiteout example_ctx "/file.txt" "") (ro_only []))
     = "/rw/.wh.file.txt"
  /\ (forall p m r,
         In (E_creat_worker p m r)
            (trace_of (kernel example_ctx)
               (create_whiteout example_ctx "/file.txt" "") (ro_only [])) ->
         p = "/rw/.wh.file.txt" /\ m = S_IRUSR).
Proof.
  apply (whiteout_marker_path example_ctx "" "file.txt");
    vm_compute; reflexivity.
Defined.

(** C9. The three whiteout functions compare only the length of the branch
    root with [PATH_MAX].  With the root "/rw" and a well-formed virtual
    path of 4091 characters, [find_whiteout] under every handler hands
    [vfs_lstat] a name of 4098 characters and leaves it in the caller's
    buffer of [PATH_MAX] bytes; in the in-memory model it returns -ENOENT,
    not -ENAMETOOLONG, and [create_whiteout] creates the marker under
    that name and returns 0. *)
Theorem whiteout_name_exceeds_path_max :
  Z.of_nat (String.length long_path) < PATH_MAX
  /\ (forall (S : Type) (h : handler S) (s : S) (buf : string),
         exists wh r,
           trace_of h (find_whiteout example_ctx long_path buf) s
           = [E_vfs_lstat wh r]
           /\ result_of h (find_whiteout example_ctx long_path buf) s
              = (r, wh)
           /\ Z.of_nat (String.length wh) = PATH_MAX + 2)
  /\ fst (result_of (kernel example_ctx)
            (find_whiteout example_ctx long_path "") (ro_only []))
     = - ENOENT
  /\ (let res := result_of (kernel example_ctx)
                   (create_whiteout example_ctx long_path "") (ro_only []) in
      fst res = 0 /\ Z.of_nat (String.length (snd res)) = PATH_MAX + 2).
Proof.
  split; [vm_compute; reflexivity|]. split; [|split].
  - intros S h s buf. unfold trace_of, result_of, long_path.
    rewrite (find_whiteout_run example_ctx long_dir long_leaf
               ltac:(vm_compute; reflexivity) ltac:(vm_compute; reflexivity)).
    do 2 eexists. split; [reflexivity|]. split; [reflexivity|].
    vm_compute. reflexivity.
  - vm_compute. reflexivity.
  - vm_compute. split; reflexivity.
Qed.

(** C10. Under every handler, once the unlink of the read-write object has
    returned a value that is not negative, [unlink_rw_file] returns 0,
    whatever the run of [create_whiteout] that may follow does.  In the
    in-memory model there is a delete of "/file.txt", present on both
    branches, that returns 0 although [creat_worker] failed: no whiteout
    exists afterwards and the path resolves to its read-only original. *)
Theorem unlink_rw_file_discards_whiteout_result :
  (forall `{pierrefs_h} (ctx : pierrefs_context) (S : Type) (h : handler S)
          (s : S) (path rw_path : string) (has_ro_sure : Z) d r,
      In (E_get_path_dentry rw_path LOOKUP_REVAL (Ptr d))
         (trace_of h (unlink_rw_file ctx path rw_path has_ro_sure) s) ->
      In (E_vfs_unlink (d_inode d) d r)
         (trace_of h (unlink_rw_file ctx path rw_path has_ro_sure) s) ->
      0 <= r ->
      result_of h (unlink_rw_file ctx path rw_path has_ro_sure) s = 0)
  /\ (let w := both [0; 0; 0; 0; 0; - ENOMEM] in
      let run1 := run (kernel example_ctx)
                    (unlink_rw_file example_ctx "/file.txt" "/rw/file.txt" 0)
                    w in
      In (E_find_file "/file.txt" MUST_READ_ONLY READ_ONLY "/ro/file.txt")
         (fst (fst run1))
      /\ In (E_creat_worker "/rw/.wh.file.txt" S_IRUSR
               (ERR_PTR (Z.to_pos ENOMEM))) (fst (fst run1))
      /\ snd (fst run1) = 0
      /\ names (snd run1) !! "/rw/.wh.file.txt" = None
      /\ find_file_m example_ctx "/file.txt" 0 (snd run1)
         = (READ_ONLY, "/ro/file.txt")).
Proof.
  split.
  - intros H ctx S h s path rw_path has_ro_sure d r.
    apply unlink_rw_file_ignores_whiteout.
  - vm_compute. repeat split; auto 10.
Qed.

(** C10, an instance: the same delete, seen through the general
    statement. *)
Lemma unlink_rw_file_discards_whiteout_result_witness :
  result_of (kernel example_ctx)
    (unlink_rw_file example_ctx "/file.txt" "/rw/file.txt" 0)
    (both [0; 0; 0; 0; 0; - ENOMEM]) = 0.
Proof.
  apply (proj1 unlink_rw_file_discards_whiteout_result example_h example_ctx
           world (kernel example_ctx) (both [0; 0; 0; 0; 0; - ENOMEM])
           "/file.txt" "/rw/file.txt" 0 (Dentry "/rw/file.txt" 2%nat) 0).
  - vm_compute. auto 10.
  - vm_compute. auto 10.
  - lia.
Defined.

(** * Further properties of the two files *)

Lemma snprintf_s_eq (size : Z) (str : string) :
  snprintf_s size str
  = (strprefix (Z.to_nat (size - 1)) str, Z.of_nat (String.length str)).
Proof. reflexivity. Qed.

#[local] Opaque make_rw_path snprintf_s.

#[local] Opaque create_whiteout_worker.

(** ** The whiteout functions at their edges *)

Section WhiteoutEdges.
Variable ctx : pierrefs_context.
Context {S : Type}.
Variable h : handler S.
Variable s : S.

Variables (path buf : string).

Let root : string := read_write_branch ctx.
Let kept : string := strprefix (Z.to_nat (PATH_MAX - 1)) root.

Lemma no_separator_runs :
  strrchr path "/" = None ->
  run h (create_whiteout ctx path buf) s = ([], (- EINVAL, buf), s)
  /\ run h (find_whiteout ctx path buf) s = ([], (- EINVAL, buf), s)
  /\ run h (unlink_whiteout ctx path) s = ([], - EINVAL, s).
Proof.
  intros Hno. unfold create_whiteout, find_whiteout, unlink_whiteout.
  rewrite Hno. repeat split.
Qed.

Lemma long_root_runs i :
  strrchr path "/" = Some i ->
  PATH_MAX < Z.of_nat (String.length root) ->
  run h (create_whiteout ctx path buf) s = ([], (- ENAMETOOLONG, kept), s)
  /\ run h (find_whiteout ctx path buf) s = ([], (- ENAMETOOLONG, kept), s)
  /\ run h (unlink_whiteout ctx path) s = ([], - ENAMETOOLONG, s).
Proof.
  intros Hsep Hlen. unfold create_whiteout, find_whiteout, unlink_whiteout.
  rewrite Hsep, snprintf_s_eq. fold root kept.
  assert (Hgt : (Z.of_nat (String.length root) >? PATH_MAX) = true).
  { rewrite Z.gtb_ltb. now apply Z.ltb_lt. }
  rewrite Hgt. repeat split.
Qed.

Lemma composed_name_is_used i :
  strrchr path "/" = Some i ->
  Z.of_nat (String.length root) <= PATH_MAX ->
  let name := strcat (strcat (strncat kept path (i + 1)) ".wh.")
                (strfrom (i + 1) path) in
  (exists e real rest,
      trace_of h (create_whiteout ctx path buf) s
      = E_find_path path false e real :: rest)
  /\ (exists r, trace_of h (find_whiteout ctx path buf) s
                = [E_vfs_lstat name r])
  /\ (exists r rest,
         trace_of h (unlink_whiteout ctx path) s
         = E_get_path_dentry name LOOKUP_REVAL r :: rest).
Proof.
  intros Hsep Hlen name.
  unfold trace_of, create_whiteout, find_whiteout, unlink_whiteout.
  rewrite Hsep, snprintf_s_eq. fold root kept.
  assert (Hgt : (Z.of_nat (String.length root) >? PATH_MAX) = false).
  { rewrite Z.gtb_ltb. now apply Z.ltb_ge. }
  rewrite Hgt. fold name. repeat split.
  - exec h; do 3 eexists; reflexivity.
  - exec h. eexists; reflexivity.
  - exec h; do 2 eexists; reflexivity.
Qed.

End WhiteoutEdges.

#[local] Transparent create_whiteout_worker.

(** ** What a run of [create_whiteout] is made of *)

Lemma create_whiteout_steps {S : Type} (h : handler S) ctx path buf s tr r s' :
  run h (create_whiteout ctx path buf) s = (tr, r, s') ->
  forall e, In e tr -> is_whiteout_step e = true.
Proof.
  unfold create_whiteout, create_whiteout_worker.
  exec h; intros Hrun; injection Hrun as <- <- <-;
    intros ev Hev; members; reflexivity.
Qed.

Section MarkerOrder.
Variable ctx : pierrefs_context.
Context {S : Type}.
Variable h : handler S.
Variable s : S.
Variables (path buf : string).

(** X1 ([create_whiteout]).  Whatever the calls answer: a run that
    reaches [creat_worker] starts with [find_path] on the virtual path,
    asked without a buffer, and that call answered a non-negative value;
    when [find_path] answers a negative value it is the only call of the
    run and its answer is what [create_whiteout] returns. *)
Theorem marker_created_after_ancestry :
  (forall p m r,
      In (E_creat_worker p m r) (trace_of h (create_whiteout ctx path buf) s) ->
      exists e real,
        trace_of h (create_whiteout ctx path buf) s
        = E_find_path path false e real
            :: skipn 1 (trace_of h (create_whiteout ctx path buf) s)
        /\ 0 <= e)
  /\ (forall e real,
         In (E_find_path path false e real)
            (trace_of h (create_whiteout ctx path buf) s) ->
         e < 0 ->
         fst (result_of h (create_whiteout ctx path buf) s) = e
         /\ trace_of h (create_whiteout ctx path buf) s
            = [E_find_path path false e real]).
Proof.
  unfold trace_of, result_of, create_whiteout, create_whiteout_worker.
  split.
  - exec h; intros p0 m0 r0 Hin; members; tests;
      do 2 eexists; (split; [reflexivity | assumption]).
  - exec h; intros err0 real0 Hin Herr; members; tests; try lia;
      split; reflexivity.
Qed.

End MarkerOrder.

Lemma marker_created_after_ancestry_witness :
  exists e real,
    trace_of (kernel example_ctx)
      (create_whiteout example_ctx "/file.txt" "") (ro_only [])
    = E_find_path "/file.txt" false e real
        :: skipn 1 (trace_of (kernel example_ctx)
                      (create_whiteout example_ctx "/file.txt" "")
                      (ro_only []))
    /\ 0 <= e.
Proof.
  apply (proj1 (marker_created_after_ancestry example_ctx
                  (kernel example_ctx) (ro_only []) "/file.txt" "")
           "/rw/.wh.file.txt" S_IRUSR
           (Ptr (File (Dentry "/rw/.wh.file.txt" 2%nat)))).
  vm_compute. right. left. reflexivity.
Defined.

(** ** Deleting: what a failure leaves alone *)

Section DeleteOrder.
Context `{pierrefs_h}.
Variable ctx : pierrefs_context.
Context {S : Type}.
Variable h : handler S.
Variable s : S.
Variables (path rw_path : string) (has_ro_sure : Z).

Let tr : list event :=
  trace_of h (unlink_rw_file ctx path rw_path has_ro_sure) s.

Ltac in_whiteout_run :=
  match goal with
  | Hrun : run _ (create_whiteout _ _ _) _ = (?l, _, _),
    He : In ?e (?l ++ []) |- _ =>
      rewrite app_nil_r in He;
      pose proof (create_whiteout_steps _ _ _ _ _ _ _ _ Hrun _ He) as Hstep;
      simpl in Hstep; try discriminate Hstep
  end.

(** X2 ([unlink_rw_file]).  Whatever the calls answer: a delete that
    does not return 0 makes none of the calls that only [create_whiteout]
    makes, and every [vfs_unlink] of its run answered a negative value;
    [vfs_unlink] is reached only after [can_remove] answered a
    non-negative value; and when the caller vouches for the read-only
    counterpart ([has_ro_sure] is not 0) [find_file] is never called. *)
Theorem failed_delete_attempts_no_whiteout :
  (result_of h (unlink_rw_file ctx path rw_path has_ro_sure) s <> 0 ->
   existsb is_marker_creation tr = false
   /\ forall i d r, In (E_vfs_unlink i d r) tr -> r < 0)
  /\ (forall i d r,
         In (E_vfs_unlink i d r) tr ->
         exists e, In (E_can_remove path rw_path e) tr /\ 0 <= e)
  /\ (has_ro_sure <> 0 -> existsb is_find_file tr = false).
Proof.
  unfold tr, trace_of, result_of, unlink_rw_file.
  split; [|split].
  - exec h; intros Hres; try contradiction; tests;
      (split; [reflexivity|]); intros i0 d0 r0 Hin; members; assumption.
  - exec h; intros i0 d0 r0 Hin; members; tests;
      try (eexists; split; [simpl; eauto 10 | assumption]).
  - destruct (has_ro_sure =? 0) eqn:Hsure; tests; [intros; contradiction|].
    intros _. exec h; try reflexivity.
    apply not_true_is_false. intros Hex. simpl in Hex.
    apply existsb_exists in Hex as (e & He & Hf).
    in_whiteout_run. now destruct e.
Qed.

End DeleteOrder.

Lemma failed_delete_attempts_no_whiteout_witness :
  existsb is_marker_creation
    (trace_of (kernel example_ctx)
       (unlink_rw_file example_ctx "/file.txt" "/rw/file.txt" 0)
       (both [0; 0; 0; -5])) = false
  /\ forall i d r,
       In (E_vfs_unlink i d r)
          (trace_of (kernel example_ctx)
             (unlink_rw_file example_ctx "/file.txt" "/rw/file.txt" 0)
             (both [0; 0; 0; -5])) ->
       r < 0.
Proof.
  apply (proj1 (failed_delete_attempts_no_whiteout example_ctx
                  (kernel example_ctx) (both [0; 0; 0; -5])
                  "/file.txt" "/rw/file.txt" 0)).
  vm_compute. discriminate.
Defined.

(** ** Creating: the checks before and the whiteout after *)

Lemma lor_keeps_bits (a b : Z) : Z.land (Z.lor a b) b = b.
Proof.
  apply Z.bits_inj'. intros n Hn.
  rewrite Z.land_spec, Z.lor_spec. now destruct (Z.testbit a n), (Z.testbit b n).
Qed.

Section CreateOrder.
Context `{pierrefs_h}.
Variable ctx : pierrefs_context.
Context {S : Type}.
Variable h : handler S.
Variable s : S.
Variables (dir : inode) (d : dentry).

Ltac in_unlink_run :=
  match goal with
  | Hrun : run _ (unlink_whiteout _ _) _ = (?l, _, _),
    He : In ?e (?l ++ []) |- _ =>
      rewrite app_nil_r in He;
      pose proof (unlink_whiteout_steps _ _ _ _ _ _ _ Hrun _ He) as Hstep;
      simpl in Hstep; try discriminate Hstep
  end.

(** X3 ([pierrefs_mkdir], [pierrefs_symlink], [pierrefs_link]).
    Whatever the calls answer: a run that makes a creating call has asked
    [can_create] before and was answered a non-negative value; mkdir and
    symlink ask it about the read-write name [make_rw_path] composes. *)
Theorem creation_follows_access_check old symname mode :
  (existsb is_creation (trace_of h (pierrefs_mkdir ctx dir d mode) s) = true ->
   exists path e,
     In (E_can_create path (fst (make_rw_path ctx path)) e)
        (trace_of h (pierrefs_mkdir ctx dir d mode) s)
     /\ 0 <= e)
  /\ (existsb is_creation (trace_of h (pierrefs_symlink ctx dir d symname) s)
      = true ->
      exists path e,
        In (E_can_create path (fst (make_rw_path ctx path)) e)
           (trace_of h (pierrefs_symlink ctx dir d symname) s)
        /\ 0 <= e)
  /\ (existsb is_creation (trace_of h (pierrefs_link ctx old dir d) s) = true ->
      exists path real e,
        In (E_can_create path real e)
           (trace_of h (pierrefs_link ctx old dir d) s)
        /\ 0 <= e).
Proof.
  unfold trace_of, pierrefs_mkdir, pierrefs_symlink, pierrefs_link.
  split; [|split].
  - exec h; intros Hex; try discriminate Hex; tests;
      match goal with
      | M : make_rw_path _ _ = _ |- _ =>
          do 2 eexists; rewrite M; split; [simpl; eauto 10 | assumption]
      end.
  - exec h; intros Hex; try discriminate Hex; tests;
      match goal with
      | M : make_rw_path _ _ = _ |- _ =>
          do 2 eexists; rewrite M; split; [simpl; eauto 10 | assumption]
      end.
  - exec h; intros Hex; try discriminate Hex; tests;
      do 3 eexists; (split; [simpl; eauto 10 | assumption]).
Qed.

(** X4 ([pierrefs_mknod]).  Whatever the calls answer, [pierrefs_mknod]
    never asks [can_create]: of the create family it is the one that
    creates without the access check. *)
Theorem mknod_asks_no_access_check mode rdev :
  existsb is_can_create (trace_of h (pierrefs_mknod ctx dir d mode rdev) s)
  = false.
Proof.
  unfold trace_of, pierrefs_mknod.
  exec h; try reflexivity;
    apply not_true_is_false; intros Hex; simpl in Hex;
    apply existsb_exists in Hex as (ev & Hev & Hf);
    in_unlink_run; now destruct ev.
Qed.

(** X5 ([pierrefs_mkdir], [pierrefs_mknod]).  [mkdir_worker] receives the
    mode asked for with [S_IFDIR] or-ed in, so the directory bit is set
    whatever the caller passed; [mkfifo] is called only for a mode whose
    format bits are [S_IFIFO], [mknod] only for the others, and both
    receive mode (and device) unchanged. *)
Theorem create_family_modes mode rdev :
  (forall p m r,
      In (E_mkdir_worker p m r) (trace_of h (pierrefs_mkdir ctx dir d mode) s) ->
      m = Z.lor mode S_IFDIR /\ Z.land m S_IFDIR = S_IFDIR)
  /\ (forall p m r,
         In (E_mkfifo p m r)
            (trace_of h (pierrefs_mknod ctx dir d mode rdev) s) ->
         m = mode /\ Z.land mode S_IFMT = S_IFIFO)
  /\ (forall p m dev r,
         In (E_mknod p m dev r)
            (trace_of h (pierrefs_mknod ctx dir d mode rdev) s) ->
         m = mode /\ dev = rdev /\ Z.land mode S_IFMT <> S_IFIFO).
Proof.
  unfold trace_of, pierrefs_mkdir, pierrefs_mknod.
  split; [|split].
  - exec h; intros p0 m0 r0 Hin; members;
      (split; [reflexivity | apply lor_keeps_bits]).
  - destruct (S_ISFIFO mode) eqn:Hf; unfold S_ISFIFO in Hf; tests;
      exec h; intros p0 m0 r0 Hin; members; try in_unlink_run;
      (split; [reflexivity | assumption]).
  - destruct (S_ISFIFO mode) eqn:Hf; unfold S_ISFIFO in Hf; tests;
      exec h; intros p0 m0 dev0 r0 Hin; members; try in_unlink_run;
      (split; [reflexivity | split; [reflexivity | assumption]]).
Qed.

(** X6 ([pierrefs_mknod], [pierrefs_symlink], [pierrefs_link]).  Whatever
    the calls answer: a creation that does not return 0 has made none of
    the calls of [unlink_whiteout] (no lookup of a dentry, no
    [vfs_unlink], no [dput]); a whiteout is left alone unless the object
    was created. *)
Theorem failed_create_keeps_whiteout old symname mode rdev :
  (result_of h (pierrefs_mknod ctx dir d mode rdev) s <> 0 ->
   existsb is_unlink_step (trace_of h (pierrefs_mknod ctx dir d mode rdev) s)
   = false)
  /\ (result_of h (pierrefs_symlink ctx dir d symname) s <> 0 ->
      existsb is_unlink_step
        (trace_of h (pierrefs_symlink ctx dir d symname) s) = false)
  /\ (result_of h (pierrefs_link ctx old dir d) s <> 0 ->
      existsb is_unlink_step (trace_of h (pierrefs_link ctx old dir d) s)
      = false).
Proof.
  unfold trace_of, result_of, pierrefs_mknod, pierrefs_symlink, pierrefs_link.
  split; [|split]; exec h; intros Hres; try contradiction; reflexivity.
Qed.

End CreateOrder.

Lemma creation_follows_access_check_witness :
  exists path e,
    In (E_can_create path (fst (make_rw_path example_ctx path)) e)
       (trace_of (kernel example_ctx)
          (pierrefs_mkdir example_ctx root_ino fresh 493) (both []))
    /\ 0 <= e.
Proof.
  apply (proj1 (creation_follows_access_check example_ctx
                  (kernel example_ctx) (both []) root_ino fresh
                  file_txt "target" 493)).
  vm_compute. reflexivity.
Defined.

Lemma create_family_modes_witness :
  16877 = Z.lor 493 S_IFDIR /\ Z.land 16877 S_IFDIR = S_IFDIR.
Proof.
  apply (proj1 (create_family_modes example_ctx (kernel example_ctx)
                  (both []) root_ino fresh 493 0) "/rw/new" 16877 0).
  vm_compute. do 4 right. left. reflexivity.
Defined.

Lemma failed_create_keeps_whiteout_witness :
  existsb is_unlink_step
    (trace_of (kernel example_ctx)
       (pierrefs_mknod example_ctx root_ino fresh 4516 0)
       (both [0; 0; 0; -5])) = false.
Proof.
  apply (proj1 (failed_create_keeps_whiteout example_ctx
                  (kernel example_ctx) (both [0; 0; 0; -5]) root_ino fresh
                  file_txt "target" 4516 0)).
  vm_compute. discriminate.
Defined.

(** ** A directory that was made is unmade *)

Section MkdirRollback.
Variable ctx : pierrefs_context.
Context {S : Type}.
Variable h : handler S.
Variable s : S.
Variables (dir : inode) (d : dentry) (mode : Z).

Let tr : list event := trace_of h (pierrefs_mkdir ctx dir d mode) s.

(** X7 ([pierrefs_mkdir]).  Whatever the calls answer: the identity is
    switched to root at most once and given back right after the one
    [vfs_unlink] it covers; and once [mkdir_worker] has made the directory
    the function returns [-EINVAL] (the stub [hide_directory_contents]
    fails) after looking the new directory up by its read-write name and,
    when the lookup gives a dentry, unlinking it as root and releasing
    it. *)
Theorem mkdir_undoes_its_directory :
  (filter is_root_switch tr = []
   \/ filter is_root_switch tr = [E_push_root; E_pop_root])
  /\ (forall p m r,
         In (E_mkdir_worker p m r) tr -> 0 <= r ->
         result_of h (pierrefs_mkdir ctx dir d mode) s = - EINVAL
         /\ exists x rest,
             skipn 5 tr = E_get_path_dentry p LOOKUP_REVAL x :: rest
             /\ match x with
                | ERR_PTR _ => rest = []
                | Ptr dd =>
                    exists u,
                      rest = [E_push_root; E_vfs_unlink (d_inode dd) dd u;
                              E_pop_root; E_dput dd]
                end).
Proof.
  unfold tr, trace_of, result_of, pierrefs_mkdir. split.
  - exec h; auto.
  - exec h; intros p0 m0 r0 Hin Hr; members; tests; try lia;
      (split; [reflexivity|]); do 2 eexists; (split; [reflexivity|]);
      simpl; eauto.
Qed.

End MkdirRollback.

Lemma mkdir_undoes_its_directory_witness :
  result_of (kernel example_ctx)
    (pierrefs_mkdir example_ctx root_ino fresh 493) (both []) = - EINVAL
  /\ exists x rest,
       skipn 5 (trace_of (kernel example_ctx)
                  (pierrefs_mkdir example_ctx root_ino fresh 493) (both []))
       = E_get_path_dentry "/rw/new" LOOKUP_REVAL x :: rest
       /\ match x with
          | ERR_PTR _ => rest = []
          | Ptr dd =>
              exists u,
                rest = [E_push_root; E_vfs_unlink (d_inode dd) dd u;
                        E_pop_root; E_dput dd]
          end.
Proof.
  apply (proj2 (mkdir_undoes_its_directory example_ctx (kernel example_ctx)
                  (both []) root_ino fresh 493) "/rw/new" 16877 0).
  - vm_compute. do 4 right. left. reflexivity.
  - lia.
Defined.

(** ** The in-memory model: the whiteout functions on the branch *)

Module MemFSMore.
Import MemFS MemFSFacts.

Section Calls.
Context `{pierrefs_h}.
Variable ctx : pierrefs_context.

Lemma vfs_lstat_spec p w r w' :
  kernel ctx _ (Vfs_lstat p) w = (r, w') ->
  names w' = names w /\ inodes w' = inodes w
  /\ (r = 0 -> names w !! p <> None)
  /\ (faults w = [] ->
      faults w' = [] /\ r = if present p w then 0 else - ENOENT).
Proof.
  intros Hk. apply with_fault_inv in Hk
    as [(e & He & -> & Hn & Hi & Hf) | (w1 & Hn & Hi & Hf & Hk)].
  - unfold id. repeat split; try easy. lia.
  - injection Hk as <- <-. unfold present. rewrite Hn.
    repeat split; try easy; try tauto.
    destruct (names w !! p); [easy | unfold ENOENT; lia].
Qed.

Lemma get_path_dentry_found p flag w i :
  names w !! p = Some i ->
  faults w = [] ->
  exists w',
    kernel ctx _ (Get_path_dentry p flag) w = (Ptr (Dentry p i), w')
    /\ names w' = names w /\ inodes w' = inodes w /\ faults w' = [].
Proof.
  intros Hp Hf.
  destruct (kernel ctx _ (Get_path_dentry p flag) w) as [x w'] eqn:Hk.
  exists w'. apply with_fault_inv in Hk
    as [(e & He & -> & Hn & Hi & Hne) | (w1 & Hn & Hi & Hf1 & Hk)].
  - contradiction.
  - injection Hk as <- <-. unfold lookup_m. rewrite Hn, Hp. auto.
Qed.

Lemma vfs_unlink_found dir d w i :
  names w !! d_path d = Some i ->
  faults w = [] ->
  exists w',
    kernel ctx _ (Vfs_unlink dir d) w = (0, w')
    /\ names w' = delete (d_path d) (names w)
    /\ inodes w' = inodes w /\ faults w' = [].
Proof.
  intros Hp Hf.
  destruct (kernel ctx _ (Vfs_unlink dir d) w) as [x w'] eqn:Hk.
  exists w'. apply with_fault_inv in Hk
    as [(e & He & -> & Hn & Hi & Hne) | (w1 & Hn & Hi & Hf1 & Hk)].
  - contradiction.
  - unfold vfs_unlink_m in Hk. rewrite Hn, Hp in Hk.
    injection Hk as <- <-. simpl. auto.
Qed.

Lemma creat_worker_names p mode w x w' :
  kernel ctx _ (Creat_worker p mode) w = (x, w') ->
  names w !! p = None ->
  match x with
  | Ptr f => names w' = <[p := d_inode (f_dentry f)]> (names w)
  | ERR_PTR _ => names w' = names w
  end.
Proof.
  intros Hk Hp. apply with_fault_inv in Hk
    as [(e & He & -> & Hn & Hi & Hne) | (w1 & Hn & Hi & Hf1 & Hk)].
  - exact Hn.
  - unfold creat_m in Hk. rewrite Hn, Hp in Hk.
    injection Hk as <- <-. simpl. now rewrite Hn.
Qed.

End Calls.
End MemFSMore.

Section MarkerOnBranch.
Import MemFS MemFSFacts MemFSMore.
Context `{pierrefs_h}.
Variable ctx : pierrefs_context.
Hypothesis root_fits :
  Z.of_nat (String.length (read_write_branch ctx)) < PATH_MAX.
Variables (path wh : string).
Hypothesis reserved : marker_name ctx ".wh." path = Some wh.

Lemma find_whiteout_on_marker {S : Type} (h : handler S) buf s :
  run h (find_whiteout ctx path buf) s =
  run h (let* r := do (Vfs_lstat wh) in Ret (r, wh)) s.
Proof.
  revert reserved. unfold marker_name, find_whiteout.
  destruct (strrchr path "/") as [i|]; [|discriminate].
  intros [= <-]. rewrite (snprintf_fits _ root_fits).
  rewrite (root_not_too_long _ root_fits).
  unfold strcat, strncat. now rewrite !append_assoc.
Qed.

Lemma create_whiteout_on_marker {S : Type} (h : handler S) buf s :
  run h (create_whiteout ctx path buf) s =
  run h (let* (err, _) := do (Find_path path false) in
         if err <? 0 then Ret (err, wh) else
         let* r := create_whiteout_worker wh in
         Ret (r, wh)) s.
Proof.
  revert reserved. unfold marker_name, create_whiteout.
  destruct (strrchr path "/") as [i|]; [|discriminate].
  intros [= <-]. rewrite (snprintf_fits _ root_fits).
  rewrite (root_not_too_long _ root_fits).
  unfold strcat, strncat. now rewrite !append_assoc.
Qed.

(** X8 ([find_whiteout]).  On the in-memory branches, for a branch root
    that is a path name and whatever the failure script: [find_whiteout]
    changes neither the names nor the inodes, leaves the reserved name in
    the caller's buffer, answers 0 only when the marker exists, and with
    no failure injected answers 0 when the marker exists and [-ENOENT]
    when it does not. *)
Theorem find_whiteout_is_a_query (w : world) (buf : string) :
  names (state_of (kernel ctx) (find_whiteout ctx path buf) w) = names w
  /\ inodes (state_of (kernel ctx) (find_whiteout ctx path buf) w) = inodes w
  /\ snd (result_of (kernel ctx) (find_whiteout ctx path buf) w) = wh
  /\ (fst (result_of (kernel ctx) (find_whiteout ctx path buf) w) = 0 ->
      names w !! wh <> None)
  /\ (faults w = [] ->
      fst (result_of (kernel ctx) (find_whiteout ctx path buf) w)
      = if present wh w then 0 else - ENOENT).
Proof.
  unfold state_of, result_of. rewrite find_whiteout_on_marker.
  exec (kernel ctx);
    match goal with
    | Hk : kernel ctx _ (Vfs_lstat _) _ = _, Hb : present _ _ = _ |- _ =>
        apply vfs_lstat_spec in Hk as (Hn & Hi & H0 & Hf);
        repeat split; try assumption; intros Hnil;
        destruct (Hf Hnil) as [_ ->]; now rewrite Hb
    end.
Qed.

#[local] Opaque create_whiteout_worker.

Lemma marker_after_create (w : world) (buf : string) :
  fst (result_of (kernel ctx) (create_whiteout ctx path buf) w) = 0 ->
  exists i,
    names (state_of (kernel ctx) (create_whiteout ctx path buf) w) !! wh
    = Some i.
Proof.
  intros Hres.
  destruct (create_whiteout_success_owner ctx path buf w Hres)
    as (n & Hnode & _).
  revert Hnode. unfold result_of, state_of, node_at.
  rewrite create_whiteout_on_marker.
  exec (kernel ctx);
    match goal with
    | |- context [names ?w1 !! wh] =>
        destruct (names w1 !! wh) as [i|]; [eauto | discriminate]
    end.
Qed.

#[local] Transparent create_whiteout_worker.

End MarkerOnBranch.

Lemma find_whiteout_is_a_query_witness :
  names (state_of (kernel example_ctx)
           (find_whiteout example_ctx "/gone" "") (whiteouted []))
  = names (whiteouted [])
  /\ fst (result_of (kernel example_ctx)
            (find_whiteout example_ctx "/gone" "") (whiteouted []))
     = if present "/rw/.wh.gone" (whiteouted []) then 0 else - ENOENT.
Proof.
  destruct (find_whiteout_is_a_query example_ctx
              ltac:(vm_compute; reflexivity) "/gone" "/rw/.wh.gone"
              ltac:(vm_compute; reflexivity) (whiteouted []) "")
    as (Hn & _ & _ & _ & Hr).
  split; [exact Hn | apply Hr; reflexivity].
Defined.

Section MarkerRoundTrip.
Import MemFS MemFSFacts MemFSMore.
Context `{pierrefs_h}.
Variable ctx : pierrefs_context.
Hypothesis root_fits :
  Z.of_nat (String.length (read_write_branch ctx)) < PATH_MAX.
Variables (path wh : string).
Hypothesis reserved : marker_name ctx ".wh." path = Some wh.

Lemma find_whiteout_quiet (w : world) (buf : string) :
  faults w = [] ->
  result_of (kernel ctx) (find_whiteout ctx path buf) w
  = (if present wh w then 0 else - ENOENT, wh).
Proof.
  intros Hf. unfold result_of.
  rewrite (find_whiteout_on_marker ctx root_fits path wh reserved).
  simpl. destruct (kernel ctx _ (Vfs_lstat wh) w) as [r w'] eqn:Hk.
  apply vfs_lstat_spec in Hk as (_ & _ & _ & Hr).
  destruct (Hr Hf) as [_ ->]. reflexivity.
Qed.

Lemma find_present (w : world) (buf : string) (i : inode) :
  names w !! wh = Some i ->
  faults w = [] ->
  result_of (kernel ctx) (find_whiteout ctx path buf) w = (0, wh).
Proof.
  intros Hp Hf. rewrite (find_whiteout_quiet w buf Hf).
  unfold present. now rewrite Hp.
Qed.

Lemma find_absent (w : world) (buf : string) :
  names w !! wh = None ->
  faults w = [] ->
  result_of (kernel ctx) (find_whiteout ctx path buf) w = (- ENOENT, wh).
Proof.
  intros Hp Hf. rewrite (find_whiteout_quiet w buf Hf).
  unfold present. now rewrite Hp.
Qed.

Lemma unlink_present (w : world) (i : inode) :
  names w !! wh = Some i ->
  faults w = [] ->
  result_of (kernel ctx) (unlink_whiteout ctx path) w = 0
  /\ names (state_of (kernel ctx) (unlink_whiteout ctx path) w)
     = delete wh (names w)
  /\ faults (state_of (kernel ctx) (unlink_whiteout ctx path) w) = [].
Proof.
  intros Hp Hf. unfold result_of, state_of.
  rewrite (unlink_whiteout_on_marker ctx root_fits _ _ _ _ reserved).
  destruct (get_path_dentry_found ctx wh LOOKUP_REVAL w i Hp Hf)
    as (w1 & Hk1 & Hn1 & _ & Hf1).
  assert (Hp1 : names w1 !! d_path (Dentry wh i) = Some i)
    by (simpl; now rewrite Hn1).
  destruct (vfs_unlink_found ctx i (Dentry wh i) w1 i Hp1 Hf1)
    as (w2 & Hk2 & Hn2 & _ & Hf2).
  simpl. rewrite Hk1. simpl. rewrite Hk2. simpl.
  repeat split; try assumption. now rewrite Hn2, Hn1.
Qed.

(** X9 ([create_whiteout], [find_whiteout], [unlink_whiteout]).  On the
    in-memory branches, for a branch root that is a path name: after a
    [create_whiteout] that returned 0, and with no failure injected from
    then on, [find_whiteout] returns 0, [unlink_whiteout] returns 0,
    after which [find_whiteout] returns [-ENOENT] and a second
    [unlink_whiteout] returns [-ENOENT]. *)
Theorem whiteout_round_trip (w : world) (buf : string) :
  let w1 := state_of (kernel ctx) (create_whiteout ctx path buf) w in
  let w2 := state_of (kernel ctx) (unlink_whiteout ctx path) w1 in
  fst (result_of (kernel ctx) (create_whiteout ctx path buf) w) = 0 ->
  faults w1 = [] ->
  result_of (kernel ctx) (find_whiteout ctx path buf) w1 = (0, wh)
  /\ result_of (kernel ctx) (unlink_whiteout ctx path) w1 = 0
  /\ result_of (kernel ctx) (find_whiteout ctx path buf) w2 = (- ENOENT, wh)
  /\ result_of (kernel ctx) (unlink_whiteout ctx path) w2 = - ENOENT.
Proof.
  intros w1 w2 Hres Hf.
  destruct (marker_after_create ctx root_fits path wh reserved w buf Hres)
    as [i Hi]. fold w1 in Hi.
  destruct (unlink_present w1 i Hi Hf) as (Hu & Hn & Hf2). fold w2 in Hn, Hf2.
  assert (Habs : names w2 !! wh = None)
    by (rewrite Hn; apply lookup_delete_eq).
  split; [now apply (find_present w1 buf i)|].
  split; [exact Hu|].
  split; [now apply find_absent|].
  destruct (unlink_absent_whiteout ctx root_fits path wh w2 reserved Habs)
    as (_ & He & _). now apply He.
Qed.

(** X10 ([unlink_whiteout]).  On the in-memory branches, for a branch root
    that is a path name and whatever the failure script:
    [unlink_whiteout] leaves every name other than the reserved one as it
    was, and every inode. *)
Theorem unlink_whiteout_touches_marker_only (w : world) (q : string) :
  q <> wh ->
  names (state_of (kernel ctx) (unlink_whiteout ctx path) w) !! q
  = names w !! q
  /\ inodes (state_of (kernel ctx) (unlink_whiteout ctx path) w) = inodes w.
Proof.
  intros Hq. unfold state_of.
  rewrite (unlink_whiteout_on_marker ctx root_fits _ _ _ _ reserved).
  exec (kernel ctx);
    repeat match goal with
    | Hk : kernel ctx _ (Get_path_dentry _ _) _ = (Ptr _, _) |- _ =>
        apply get_path_dentry_spec in Hk as (Hn & Hi & Hd & _);
        destruct (Hd _ eq_refl) as [Hp _]
    | Hk : kernel ctx _ (Get_path_dentry _ _) _ = (ERR_PTR _, _) |- _ =>
        apply get_path_dentry_spec in Hk as (Hn & Hi & _)
    | Hk : kernel ctx _ (Dput _) _ = _ |- _ => apply dput_spec in Hk; subst
    | Hk : kernel ctx _ (Vfs_unlink _ _) _ = (?r, _) |- _ =>
        apply vfs_unlink_spec in Hk as (Hi2 & Hu0 & Hu1);
        destruct (Z.eq_dec r 0) as [Hr | Hr]
    end.
  - rewrite (Hu0 Hr), Hp, Hi2, Hn, Hi. split; [|reflexivity].
    apply lookup_delete_ne. congruence.
  - rewrite (Hu1 Hr), Hi2, Hn, Hi. now split.
  - rewrite Hn, Hi. now split.
Qed.

End MarkerRoundTrip.

Lemma whiteout_round_trip_witness :
  let w1 := state_of (kernel example_ctx)
              (create_whiteout example_ctx "/file.txt" "") (ro_only []) in
  let w2 := state_of (kernel example_ctx)
              (unlink_whiteout example_ctx "/file.txt") w1 in
  result_of (kernel example_ctx) (find_whiteout example_ctx "/file.txt" "") w1
  = (0, "/rw/.wh.file.txt")
  /\ result_of (kernel example_ctx)
       (unlink_whiteout example_ctx "/file.txt") w1 = 0
  /\ result_of (kernel example_ctx)
       (find_whiteout example_ctx "/file.txt" "") w2
     = (- ENOENT, "/rw/.wh.file.txt")
  /\ result_of (kernel example_ctx)
       (unlink_whiteout example_ctx "/file.txt") w2 = - ENOENT.
Proof.
  apply (whiteout_round_trip example_ctx ltac:(vm_compute; reflexivity)
           "/file.txt" "/rw/.wh.file.txt" ltac:(vm_compute; reflexivity)
           (ro_only []) "");
    vm_compute; reflexivity.
Defined.

Lemma unlink_whiteout_touches_marker_only_witness :
  names (state_of (kernel example_ctx)
           (unlink_whiteout example_ctx "/gone") (whiteouted []))
    !! "/ro/gone"
  = names (whiteouted []) !! "/ro/gone"
  /\ inodes (state_of (kernel example_ctx)
               (unlink_whiteout example_ctx "/gone") (whiteouted []))
     = inodes (whiteouted []).
Proof.
  apply (unlink_whiteout_touches_marker_only example_ctx
           ltac:(vm_compute; reflexivity) "/gone" "/rw/.wh.gone"
           ltac:(vm_compute; reflexivity) (whiteouted []) "/ro/gone").
  discriminate.
Defined.

(** ** The whiteout functions turn a request down before any call *)

(** X11 ([create_whiteout], [find_whiteout], [unlink_whiteout]).  Whatever
    the calls answer: for a virtual path without a separator the three
    functions return [-EINVAL] without a call and without writing the
    buffer; for a branch root longer than [PATH_MAX] they return
    [-ENAMETOOLONG] without a call, the buffer holding the root cut to
    [PATH_MAX - 1] characters; in every other case each of them makes at
    least one call. *)
Theorem whiteout_functions_reject_early {S : Type} (h : handler S)
  (ctx : pierrefs_context) (path buf : string) (s : S) :
  let root := read_write_branch ctx in
  let kept := strprefix (Z.to_nat (PATH_MAX - 1)) root in
  (strrchr path "/" = None ->
   run h (create_whiteout ctx path buf) s = ([], (- EINVAL, buf), s)
   /\ run h (find_whiteout ctx path buf) s = ([], (- EINVAL, buf), s)
   /\ run h (unlink_whiteout ctx path) s = ([], - EINVAL, s))
  /\ (strrchr path "/" <> None ->
      PATH_MAX < Z.of_nat (String.length root) ->
      run h (create_whiteout ctx path buf) s
      = ([], (- ENAMETOOLONG, kept), s)
      /\ run h (find_whiteout ctx path buf) s
         = ([], (- ENAMETOOLONG, kept), s)
      /\ run h (unlink_whiteout ctx path) s = ([], - ENAMETOOLONG, s))
  /\ (strrchr path "/" <> None ->
      Z.of_nat (String.length root) <= PATH_MAX ->
      trace_of h (create_whiteout ctx path buf) s <> []
      /\ trace_of h (find_whiteout ctx path buf) s <> []
      /\ trace_of h (unlink_whiteout ctx path) s <> []).
Proof.
  intros root kept. split; [|split].
  - apply no_separator_runs.
  - destruct (strrchr path "/") as [i|] eqn:Hsep; [|easy].
    intros _ Hlen. now apply (long_root_runs ctx h s path buf i).
  - destruct (strrchr path "/") as [i|] eqn:Hsep; [|easy].
    intros _ Hlen.
    destruct (composed_name_is_used ctx h s path buf i Hsep Hlen)
      as ((e & real & rest & ->) & (r & ->) & (r' & rest' & ->)).
    repeat split; discriminate.
Qed.

Lemma whiteout_functions_reject_early_witness :
  run (kernel example_ctx) (create_whiteout example_ctx "file.txt" "buf")
      (both [])
  = ([], (- EINVAL, "buf"), both [])
  /\ run (kernel example_ctx) (find_whiteout example_ctx "file.txt" "buf")
        (both [])
     = ([], (- EINVAL, "buf"), both [])
  /\ run (kernel example_ctx) (unlink_whiteout example_ctx "file.txt")
        (both [])
     = ([], - EINVAL, both []).
Proof.
  apply (proj1 (whiteout_functions_reject_early (kernel example_ctx)
                  example_ctx "file.txt" "buf" (both []))).
  reflexivity.
Defined.

(** ** The other entry points of opts.c *)

Import Entry.

Ltac oexec h :=
  repeat (simpl;
    match goal with
    | |- context [h ?X ?c ?s] => destruct (h X c s) as [? ?] eqn:?
    | |- context [match ?p with (_, _) => _ end] =>
        is_var p; destruct p as [? ?]
    | |- context [match ?p with Ptr _ => _ | ERR_PTR _ => _ end] =>
        is_var p; destruct p
    | |- context [if ?b then _ else _] => destruct b eqn:?
    end);
  simpl.

Ltac omembers :=
  repeat match goal with
  | H : In _ _ |- _ => simpl in H
  | H : _ \/ _ |- _ => destruct H as [H | H]
  | H : False |- _ => destruct H
  | H : @eq oevent _ _ |- _ =>
      first [discriminate H | injection H; intros; subst; clear H]
  | H : @eq event _ _ |- _ =>
      first [discriminate H | injection H; intros; subst; clear H]
  end.

Lemma to_int_range (z : Z) : - 2 ^ 31 <= to_int z < 2 ^ 31.
Proof.
  unfold to_int.
  pose proof (Z.mod_pos_bound (z + 2 ^ 31) (2 ^ 32) ltac:(lia)). lia.
Qed.

Lemma to_int_fits (z : Z) : - 2 ^ 31 <= z < 2 ^ 31 -> to_int z = z.
Proof.
  intros Hz. unfold to_int. rewrite Z.mod_small; lia.
Qed.

Lemma to_int_wraps (z : Z) :
  2 ^ 31 <= z < 2 ^ 32 + 2 ^ 31 -> to_int z = z - 2 ^ 32.
Proof.
  intros Hz. unfold to_int.
  replace (z + 2 ^ 31) with ((z - 2 ^ 32 + 2 ^ 31) + 1 * 2 ^ 32) by lia.
  rewrite Z.mod_add by lia. rewrite Z.mod_small; lia.
Qed.

Lemma ptr_err_err_ptr (err : Z) :
  err < 0 -> PTR_ERR (Z.to_pos (- err)) = err.
Proof.
  unfold PTR_ERR. intros Herr.
  rewrite <- Pos2Z.opp_pos, Z2Pos.id; lia.
Qed.

Section EntryPoints.
Context `{pierrefs_h}.
Context {S : Type}.
Variable h : ohandler S.
Variable s : S.

(** X12 ([pierrefs_llseek]).  Whatever the lower file system answers: on
    a file whose [private_data] is set the function returns a value that
    fits a C [int]; without an [llseek] of the lower file it is [-EINVAL]
    and nothing is called; otherwise the lower [llseek] is called once,
    with the offset and origin handed in, and its answer comes back cut to
    32 bits: unchanged when it fits an [int], and as a negative number for
    a position from 2^31 up to 2^32. *)
Theorem llseek_result_is_an_int (file : union_file) (real : lower_file)
  (offset origin : Z) :
  private_data file = Some real ->
  exists v,
    oresult h (pierrefs_llseek file offset origin) s = Some v
    /\ - 2 ^ 31 <= v < 2 ^ 31
    /\ (f_llseek real = false ->
        v = - EINVAL /\ otrace h (pierrefs_llseek file offset origin) s = [])
    /\ (f_llseek real = true ->
        exists r,
          otrace h (pierrefs_llseek file offset origin) s
          = [E_llseek real offset origin r]
          /\ v = to_int r
          /\ (- 2 ^ 31 <= r < 2 ^ 31 -> v = r)
          /\ (2 ^ 31 <= r < 2 ^ 32 -> v = r - 2 ^ 32 /\ v < 0)).
Proof.
  intros Hp. unfold oresult, otrace, pierrefs_llseek. rewrite Hp.
  destruct (f_llseek real).
  - oexec h. eexists. split; [reflexivity|].
    split; [apply to_int_range|]. split; [discriminate|].
    intros _. eexists. split; [reflexivity|]. split; [reflexivity|].
    split; [apply to_int_fits|].
    intros Hr. rewrite to_int_wraps; lia.
  - simpl. eexists. split; [reflexivity|].
    split; [unfold EINVAL; lia|]. split; [easy | discriminate].
Qed.

(** X13 ([pierrefs_lookup]).  Whatever the calls answer: every [d_add] of
    a run passes a null inode, on the dentry handed in with [d_op] set to
    [pierrefs_dops], and the function then returns null; a null result
    comes after exactly the path lookup, [find_file] and [d_add], the two
    first answered non-negative; an errno result is the first negative
    answer of the two, with no [d_add] and the dentry untouched; a dentry
    is never returned. *)
Theorem lookup_binds_no_inode (dir : inode) (dentry : union_dentry) :
  let tr := otrace h (pierrefs_lookup dir dentry) s in
  let res := fst (oresult h (pierrefs_lookup dir dentry) s) in
  let dentry' := snd (oresult h (pierrefs_lookup dir dentry) s) in
  (forall d i, In (E_d_add d i) tr ->
     i = None /\ d = dentry' /\ res = Ptr None
     /\ d_op d = Some pierrefs_dops /\ v_dentry d = v_dentry dentry)
  /\ (res = Ptr None ->
      exists e p r real,
        tr = [E_base (E_get_relative_path_for_file dir (v_dentry dentry) 1 e p);
              E_base (E_find_file p 0 r real);
              E_d_add dentry' None]
        /\ 0 <= e /\ 0 <= r)
  /\ (forall e, res = ERR_PTR e ->
      dentry' = dentry
      /\ exists r, PTR_ERR e = r /\ r < 0
         /\ ((exists p,
                tr = [E_base (E_get_relative_path_for_file
                                dir (v_dentry dentry) 1 r p)])
             \/ (exists e0 p real,
                   tr = [E_base (E_get_relative_path_for_file
                                   dir (v_dentry dentry) 1 e0 p);
                         E_base (E_find_file p 0 r real)])))
  /\ (forall d, res <> Ptr (Some d)).
Proof.
  unfold otrace, oresult, pierrefs_lookup, base, odo, err_ptr.
  oexec h; tests; (split; [|split; [|split]]);
    try (intros d0 i0 Hin; omembers; tauto);
    try discriminate;
    try (intros _; do 4 eexists; split; [reflexivity | lia]);
    try (intros e0 [= <-]; split; [reflexivity|];
         eexists; split; [apply ptr_err_err_ptr; assumption|];
         split; [assumption|]; eauto 10).
Qed.

(** X14 ([pierrefs_open]).  Whatever the calls answer: [find_file] is
    asked about the buffer of [get_relative_path] whatever that call
    returned; a negative [find_file] ends the request with its answer and
    the file untouched; otherwise [open_worker_2] is called once on the
    resolved name with the flags and mode of the file, and
    [private_data] is the lower file when it gave one (result 0) and null
    when it gave an errno (the result).  The result is never positive,
    and 0 implies that [private_data] is set. *)
Theorem open_keeps_the_lower_file (inode : inode) (file : union_file) :
  let tr := otrace h (pierrefs_open inode file) s in
  let err := fst (oresult h (pierrefs_open inode file) s) in
  let file' := snd (oresult h (pierrefs_open inode file) s) in
  (exists e path r real rest,
      tr = E_base (E_get_relative_path (Some inode) (u_dentry file) 1 e path)
           :: E_base (E_find_file path 0 r real) :: rest
      /\ (r < 0 -> rest = [] /\ err = r /\ file' = file)
      /\ (0 <= r ->
          exists p,
            rest = [E_open_worker_2 real (f_flags file) (f_mode file) p]
            /\ file' = set_private_data
                         (match p with Ptr l => Some l | ERR_PTR _ => None end)
                         file
            /\ err = match p with Ptr _ => 0 | ERR_PTR e' => PTR_ERR e' end))
  /\ err <= 0
  /\ (err = 0 -> private_data file' <> None).
Proof.
  unfold otrace, oresult, pierrefs_open, base, odo, PTR_ERR.
  oexec h; tests; (split; [|split]); try lia; try discriminate;
    try (do 5 eexists; split; [reflexivity|]; split;
         [intros; try lia; repeat split
         | intros; try lia; eexists; repeat split]).
Qed.

(** X15 ([pierrefs_open], [pierrefs_llseek]).  A file that
    [pierrefs_open] returned 0 for can be handed to [pierrefs_llseek]:
    whatever the lower file system answers, the function does not read
    through a null [private_data], [open_worker_2] giving a file or an
    errno. *)
Theorem seek_after_open {S' : Type} (h' : ohandler S') (s' : S')
  (inode : inode) (file : union_file) (offset origin : Z) :
  fst (oresult h (pierrefs_open inode file) s) = 0 ->
  oresult h' (pierrefs_llseek
                (snd (oresult h (pierrefs_open inode file) s)) offset origin)
          s' <> None.
Proof.
  unfold oresult, pierrefs_open, pierrefs_llseek, base, odo, PTR_ERR.
  oexec h; tests; intros Hres; try lia; try discriminate;
    oexec h'; discriminate.
Qed.

(** X16 ([pierrefs_getattr], [pierrefs_permission]).  Whatever the calls
    answer: a negative answer of [get_relative_path] is returned by both
    functions after that single call, the attribute buffer untouched;
    [pierrefs_permission] also returns a positive answer at once, while
    [pierrefs_getattr] goes on for every non-negative answer: it calls
    [get_file_attr] on the path and the caller's buffer, and returns what
    that call gives. *)
Theorem path_errors_end_the_request (inode : inode) (mask : Z)
  (d : dentry) (kstbuf : kstat) :
  let first := h _ (Base (Get_relative_path None d 1)) s in
  let e := fst (fst first) in
  let path := snd (fst first) in
  (e < 0 ->
   orun h (pierrefs_getattr d kstbuf) s
   = ([E_base (E_get_relative_path None d 1 e path)], (e, kstbuf), snd first)
   /\ orun h (pierrefs_permission inode mask d) s
      = ([E_base (E_get_relative_path None d 1 e path)], e, snd first))
  /\ (0 < e ->
      orun h (pierrefs_permission inode mask d) s
      = ([E_base (E_get_relative_path None d 1 e path)], e, snd first))
  /\ (0 <= e ->
      exists r out,
        otrace h (pierrefs_getattr d kstbuf) s
        = [E_base (E_get_relative_path None d 1 e path);
           E_get_file_attr path kstbuf r out]
        /\ oresult h (pierrefs_getattr d kstbuf) s = (r, out)).
Proof.
  unfold otrace, oresult, pierrefs_getattr, pierrefs_permission, base, odo.
  oexec h;
    repeat match goal with
    | Hb : negb _ = false |- _ => apply negb_false_iff in Hb
    | Hb : negb _ = true |- _ => apply negb_true_iff in Hb
    end; tests; (split; [|split]); intros He; try lia;
    try (split; reflexivity); try reflexivity;
    do 2 eexists; (split; [reflexivity|]);
    match goal with |- ?p = _ => now destruct p end.
Qed.

(** X17 ([pierrefs_permission]).  Whatever the calls answer: [can_access]
    is asked only after [get_relative_path] answered 0 and [find_file] a
    non-negative value, about the path and the name these two produced and
    with the mask handed in, and its answer is the result; a negative
    [find_file] is returned with no access check. *)
Theorem permission_asks_for_the_resolved_object (inode : inode) (mask : Z)
  (d : dentry) :
  let tr := otrace h (pierrefs_permission inode mask d) s in
  let res := oresult h (pierrefs_permission inode mask d) s in
  (forall path real m r, In (E_can_access path real m r) tr ->
     m = mask /\ res = r
     /\ exists r0,
          0 <= r0
          /\ tr = [E_base (E_get_relative_path None d 1 0 path);
                   E_base (E_find_file path 0 r0 real);
                   E_can_access path real mask r])
  /\ (forall path r real, In (E_base (E_find_file path 0 r real)) tr ->
        r < 0 ->
        res = r
        /\ tr = [E_base (E_get_relative_path None d 1 0 path);
                 E_base (E_find_file path 0 r real)]).
Proof.
  unfold otrace, oresult, pierrefs_permission, base, odo.
  oexec h;
    repeat match goal with
    | Hb : negb _ = false |- _ => apply negb_false_iff in Hb
    | Hb : negb _ = true |- _ => apply negb_true_iff in Hb
    end; tests; subst; split;
    try (intros p0 q0 m0 r0 Hin; omembers;
         repeat split; eexists; split; [|reflexivity]; assumption);
    try (intros p0 r0 q0 Hin Hneg; omembers; try lia;
         split; reflexivity).
Qed.

End EntryPoints.

Lemma llseek_result_is_an_int_witness :
  exists v,
    oresult (okernel example_ctx)
      (pierrefs_llseek
         (Union_file file_txt 0 0
            (Some (Lower_file (File (Dentry "/rw/file.txt" 2%nat)) true)))
         2147483648 0) (both [])
    = Some v
    /\ - 2 ^ 31 <= v < 2 ^ 31.
Proof.
  destruct (llseek_result_is_an_int (okernel example_ctx) (both [])
              (Union_file file_txt 0 0
                 (Some (Lower_file (File (Dentry "/rw/file.txt" 2%nat))
                          true)))
              (Lower_file (File (Dentry "/rw/file.txt" 2%nat)) true)
              2147483648 0 eq_refl)
    as (v & Hv & Hr & _).
  exists v. split; assumption.
Defined.

Lemma lookup_binds_no_inode_witness :
  fst (oresult (okernel example_ctx)
         (pierrefs_lookup root_ino (Union_dentry file_txt None)) (both []))
  = Ptr None
  /\ d_op (snd (oresult (okernel example_ctx)
                  (pierrefs_lookup root_ino (Union_dentry file_txt None))
                  (both [])))
     = Some pierrefs_dops.
Proof.
  destruct (proj1 (lookup_binds_no_inode (okernel example_ctx) (both [])
                     root_ino (Union_dentry file_txt None))
              (Union_dentry file_txt (Some pierrefs_dops)) None)
    as (_ & Hd & Hres & Hop & _).
  - vm_compute. do 2 right. left. reflexivity.
  - split; [exact Hres | rewrite <- Hd; exact Hop].
Defined.

Lemma open_keeps_the_lower_file_witness :
  private_data
    (snd (oresult (okernel example_ctx)
            (pierrefs_open 2%nat (closed_file file_txt)) (both [])))
  <> None.
Proof.
  apply (proj2 (proj2 (open_keeps_the_lower_file (okernel example_ctx)
                         (both []) 2%nat (closed_file file_txt)))).
  vm_compute. reflexivity.
Defined.

Lemma seek_after_open_witness :
  oresult (okernel example_ctx)
    (pierrefs_llseek
       (snd (oresult (okernel example_ctx)
               (pierrefs_open 2%nat (closed_file file_txt)) (both [])))
       10 0) (both [])
  <> None.
Proof.
  apply (seek_after_open (okernel example_ctx) (both [])
           (okernel example_ctx) (both []) 2%nat (closed_file file_txt) 10 0).
  vm_compute. reflexivity.
Defined.

Lemma path_errors_end_the_request_witness :
  oresult (okernel example_ctx)
    (pierrefs_getattr file_txt (Kstat 0 0 0)) (both [-5])
  = (-5, Kstat 0 0 0)
  /\ oresult (okernel example_ctx)
       (pierrefs_permission 2%nat 4 file_txt) (both [-5])
     = -5.
Proof.
  destruct (proj1 (path_errors_end_the_request (okernel example_ctx)
                     (both [-5]) 2%nat 4 file_txt (Kstat 0 0 0)))
    as [Hg Hp].
  - vm_compute. reflexivity.
  - unfold oresult. rewrite Hg, Hp. split; reflexivity.
Defined.

Lemma permission_asks_for_the_resolved_object_witness :
  oresult (okernel example_ctx)
    (pierrefs_permission 2%nat 4 file_txt) (both []) = 0
  /\ exists r0,
       0 <= r0
       /\ otrace (okernel example_ctx)
            (pierrefs_permission 2%nat 4 file_txt) (both [])
          = [E_base (E_get_relative_path None file_txt 1 0 "/file.txt");
             E_base (E_find_file "/file.txt" 0 r0 "/rw/file.txt");
             E_can_access "/file.txt" "/rw/file.txt" 4 0].
Proof.
  destruct (proj1 (permission_asks_for_the_resolved_object
                     (okernel example_ctx) (both []) 2%nat 4 file_txt)
              "/file.txt" "/rw/file.txt" 4 0)
    as (_ & Hres & Hex).
  - vm_compute. do 2 right. left. reflexivity.
  - split; assumption.
Defined.

Section Statfs.
Context {S : Type}.
Variable h : ohandler S.
Variable s : S.

(** X18 ([pierrefs_statfs]).  Whatever the calls answer: the first call
    opens the read-only branch root, read-only.  When that fails the
    error is logged and returned, the buffer all zero.  Otherwise
    [vfs_statfs] is asked about the opened root with a zeroed buffer and
    the file is closed, once, whatever [vfs_statfs] answered; a non-zero
    answer is returned with the buffer as [vfs_statfs] left it; on
    success the buffer carries the numbers of the read-only branch, except
    that [f_type] is the magic number of the union and [f_fsid] is
    zero. *)
Theorem statfs_reports_the_read_only_branch (sb : super_block)
  (buf : kstatfs) :
  let tr := otrace h (pierrefs_statfs sb buf) s in
  let err := fst (oresult h (pierrefs_statfs sb buf) s) in
  let out := snd (oresult h (pierrefs_statfs sb buf) s) in
  exists p rest,
    tr = E_filp_open (read_only_branch (s_fs_info sb)) O_RDONLY 0 p :: rest
    /\ (forall e, p = ERR_PTR e ->
          rest = [E_pr_err ("Failed opening RO branch!" +:+ newline)]
          /\ err = PTR_ERR e /\ out = zero_kstatfs)
    /\ (forall filp, p = Ptr filp ->
          exists r got rc,
            rest = [E_vfs_statfs (f_dentry filp) zero_kstatfs r got;
                    E_base (E_filp_close filp rc)]
            /\ (r <> 0 -> err = r /\ out = got)
            /\ (r = 0 ->
                err = 0
                /\ f_type out = s_magic sb /\ f_fsid out = (0, 0)
                /\ f_bsize out = f_bsize got /\ f_blocks out = f_blocks got
                /\ f_bfree out = f_bfree got /\ f_bavail out = f_bavail got
                /\ f_files out = f_files got /\ f_ffree out = f_ffree got
                /\ f_namelen out = f_namelen got
                /\ f_frsize out = f_frsize got)).
Proof.
  unfold otrace, oresult, pierrefs_statfs, base, odo.
  oexec h;
    repeat match goal with
    | Hb : negb _ = false |- _ => apply negb_false_iff in Hb
    | Hb : negb _ = true |- _ => apply negb_true_iff in Hb
    end; tests;
    do 2 eexists; (split; [reflexivity|]);
    (split;
     [ try discriminate; intros e0 [= <-]; repeat split
     | try discriminate; intros f0 [= <-]; do 3 eexists;
       (split; [reflexivity|]);
       split; intros Hr; try contradiction; try lia; repeat split ]).
Qed.

(** X19 ([pierrefs_statfs]).  What the caller's buffer held and where the
    read-write branch lies have no influence: two requests that agree on
    the magic number and on the read-only branch run alike, call for call,
    and give the same result. *)
Theorem statfs_ignores_buffer_and_rw_branch (sb sb' : super_block)
  (buf buf' : kstatfs) :
  s_magic sb = s_magic sb' ->
  read_only_branch (s_fs_info sb) = read_only_branch (s_fs_info sb') ->
  orun h (pierrefs_statfs sb buf) s = orun h (pierrefs_statfs sb' buf') s.
Proof.
  intros Hm Hro. unfold pierrefs_statfs. now rewrite Hm, Hro.
Qed.

End Statfs.

Lemma statfs_ignores_buffer_and_rw_branch_witness :
  orun (okernel example_ctx)
    (pierrefs_statfs example_sb zero_kstatfs) (mounted [])
  = orun (okernel example_ctx)
      (pierrefs_statfs
         (Super_block (s_magic example_sb) (Mk_context "/ro" "/elsewhere"))
         (Kstatfs 1 2 3 4 5 6 7 (8, 9) 10 11))
      (mounted []).
Proof.
  apply (statfs_ignores_buffer_and_rw_branch (okernel example_ctx)
           (mounted []) example_sb
           (Super_block (s_magic example_sb) (Mk_context "/ro" "/elsewhere"))
           zero_kstatfs (Kstatfs 1 2 3 4 5 6 7 (8, 9) 10 11));
    reflexivity.
Defined.

Lemma statfs_reports_the_read_only_branch_witness :
  fst (oresult (okernel example_ctx)
         (pierrefs_statfs example_sb zero_kstatfs) (mounted [])) = 0
  /\ f_type (snd (oresult (okernel example_ctx)
                    (pierrefs_statfs example_sb zero_kstatfs) (mounted [])))
     = s_magic example_sb
  /\ f_blocks (snd (oresult (okernel example_ctx)
                      (pierrefs_statfs example_sb zero_kstatfs) (mounted [])))
     = 1000.
Proof.
  destruct (statfs_reports_the_read_only_branch (okernel example_ctx)
              (mounted []) example_sb zero_kstatfs)
    as (p & rest & Ht & _ & Hf).
  vm_compute in Ht. injection Ht as Hp Hrest.
  destruct (Hf _ (eq_sym Hp)) as (r & got & rc & Hrest' & _ & H0).
  rewrite <- Hrest in Hrest'. injection Hrest' as Hr Hgot Hrc.
  destruct (H0 (eq_sym Hr)) as (He & Hty & _ & _ & Hb & _).
  split; [exact He | split; [exact Hty | rewrite Hb, <- Hgot; reflexivity]].
Defined.

(** ** Files and dentries taken and given back *)

Lemma held_app (l1 l2 : list event) : held (l1 ++ l2) = held l1 + held l2.
Proof.
  induction l1 as [|e l1 IH]; simpl; [reflexivity|]. rewrite IH. lia.
Qed.

Lemma unlink_whiteout_held {S : Type} (h : handler S) ctx path s tr r s' :
  run h (unlink_whiteout ctx path) s = (tr, r, s') -> held tr = 0.
Proof.
  unfold unlink_whiteout.
  exec h; intros Hrun; injection Hrun as <- <- <-; reflexivity.
Qed.

Lemma create_whiteout_held {S : Type} (h : handler S) ctx path buf s tr r s' :
  run h (create_whiteout ctx path buf) s = (tr, r, s') -> held tr = 0.
Proof.
  unfold create_whiteout, create_whiteout_worker.
  exec h; intros Hrun; injection Hrun as <- <- <-; reflexivity.
Qed.

Ltac sub_runs_held :=
  rewrite ?held_app; simpl;
  repeat match goal with
  | Hrun : run _ (unlink_whiteout _ _) _ = (?l, _, _) |- context [held ?l] =>
      rewrite (unlink_whiteout_held _ _ _ _ _ _ _ Hrun)
  | Hrun : run _ (create_whiteout _ _ _) _ = (?l, _, _)
    |- context [held ?l] =>
      rewrite (create_whiteout_held _ _ _ _ _ _ _ _ Hrun)
  end;
  try reflexivity.

Section References.
Context `{pierrefs_h}.
Variable ctx : pierrefs_context.
Context {S : Type}.
Variable h : handler S.
Variable s : S.

(** X20 ([create_whiteout], [create_whiteout_worker]).  Whatever the calls
    answer: the file [creat_worker] opened is never closed by a run that
    returns 0; a run that fails after the marker was created closes it
    exactly once, as the fifth call of the run, and hands [vfs_unlink] the
    dentry read through the file right after that; [filp_close] is never
    called in a run that returns 0, and only on a file [creat_worker]
    gave. *)
Theorem marker_file_closed_only_on_failure (path buf : string) :
  let tr := trace_of h (create_whiteout ctx path buf) s in
  let err := fst (result_of h (create_whiteout ctx path buf) s) in
  (forall p m f,
      In (E_creat_worker p m (Ptr f)) tr ->
      (err = 0 -> filter is_filp_close tr = [])
      /\ (err <> 0 ->
          exists r u rest,
            filter is_filp_close tr = [E_filp_close f r]
            /\ skipn 4 tr
               = E_filp_close f r
                   :: E_vfs_unlink (d_inode (f_dentry f)) (f_dentry f) u
                   :: rest))
  /\ (forall f r,
         In (E_filp_close f r) tr ->
         err <> 0 /\ exists p m, In (E_creat_worker p m (Ptr f)) tr).
Proof.
  unfold trace_of, result_of, create_whiteout, create_whiteout_worker.
  split.
  - exec h; intros p0 m0 f0 Hin; members; tests;
      (split; [intros; try reflexivity; try contradiction
              | intros; try contradiction;
                do 3 eexists; split; reflexivity]).
  - exec h; intros f0 r0 Hin; members; tests;
      (split; [assumption | do 2 eexists; simpl; eauto 10]).
Qed.

(** X21 (wh.c and the create family of opts.c).  Whatever the calls
    answer, every run gives back the dentry references it took: each
    dentry that [get_path_dentry] found and each [dget] is matched by a
    [dput], so that the references held at the end of a run of
    [unlink_whiteout], [create_whiteout], [find_whiteout],
    [unlink_rw_file], [pierrefs_mkdir], [pierrefs_mknod],
    [pierrefs_symlink] or [pierrefs_link] are none. *)
Theorem dentry_references_balance (path rw_path symname : string)
  (has_ro_sure mode rdev : Z) (dir : inode) (old d : dentry) :
  held (trace_of h (unlink_whiteout ctx path) s) = 0
  /\ held (trace_of h (create_whiteout ctx path rw_path) s) = 0
  /\ held (trace_of h (find_whiteout ctx path rw_path) s) = 0
  /\ held (trace_of h (unlink_rw_file ctx path rw_path has_ro_sure) s) = 0
  /\ held (trace_of h (pierrefs_mkdir ctx dir d mode) s) = 0
  /\ held (trace_of h (pierrefs_mknod ctx dir d mode rdev) s) = 0
  /\ held (trace_of h (pierrefs_symlink ctx dir d symname) s) = 0
  /\ held (trace_of h (pierrefs_link ctx old dir d) s) = 0.
Proof.
  unfold trace_of. repeat apply conj.
  - destruct (run h (unlink_whiteout ctx path) s) as [[tr r] s'] eqn:Hrun.
    exact (unlink_whiteout_held _ _ _ _ _ _ _ Hrun).
  - destruct (run h (create_whiteout ctx path rw_path) s)
      as [[tr r] s'] eqn:Hrun.
    exact (create_whiteout_held _ _ _ _ _ _ _ _ Hrun).
  - unfold find_whiteout. exec h; reflexivity.
  - unfold unlink_rw_file. exec h; sub_runs_held.
  - unfold pierrefs_mkdir. exec h; sub_runs_held.
  - unfold pierrefs_mknod. exec h; sub_runs_held.
  - unfold pierrefs_symlink. exec h; sub_runs_held.
  - unfold pierrefs_link. exec h; sub_runs_held.
Qed.

End References.

Lemma marker_file_closed_only_on_failure_witness :
  exists r u rest,
    filter is_filp_close
      (trace_of (kernel example_ctx)
         (create_whiteout example_ctx "/file.txt" "") (ro_only [0; 0; -5]))
    = [E_filp_close (File (Dentry "/rw/.wh.file.txt" 2%nat)) r]
    /\ skipn 4 (trace_of (kernel example_ctx)
                  (create_whiteout example_ctx "/file.txt" "")
                  (ro_only [0; 0; -5]))
       = E_filp_close (File (Dentry "/rw/.wh.file.txt" 2%nat)) r
           :: E_vfs_unlink 2%nat (Dentry "/rw/.wh.file.txt" 2%nat) u
           :: rest.
Proof.
  apply (proj1 (marker_file_closed_only_on_failure example_ctx
                  (kernel example_ctx) (ro_only [0; 0; -5]) "/file.txt" "")
           "/rw/.wh.file.txt" S_IRUSR
           (File (Dentry "/rw/.wh.file.txt" 2%nat))).
  - vm_compute. right. left. reflexivity.
  - vm_compute. discriminate.
Defined.
